(** * gbt-be-template: account service, token authentication and request gate

    A shallow embedding of the Go packages [models], [repository],
    [services], [middleware], [handlers], [routes] and [utils], and the
    properties of the login / token / authorisation flow proved over it.

    Calls that leave the repository's own code (the GORM-backed user
    repository, bcrypt, the clock, the logger, the JSON decoder and the struct
    validator) are requests to an environment: a program is a finite tree of
    such requests, and every theorem quantifies over all environments, the way
    the Go tests replace the repository by a mock. *)

From Stdlib Require Import ZArith NArith List String Ascii Bool Lia.
From Stdlib Require Import DecimalString DecimalN Eqdep_dec.
Import ListNotations.

Local Open Scope string_scope.
Local Open Scope Z_scope.

(** ** Go base types *)

(** [uint] identifiers are never computed with, only compared. *)
Definition uint : Type := N.

(** [int] and [int64] are 64-bit two's complement (the Makefile builds for
    GOARCH=amd64); arithmetic wraps around. *)
Definition int : Type := Z.
Definition int64 : Type := Z.
Definition Time : Type := Z.

Definition MaxInt64 : Z := 2 ^ 63 - 1.
Definition MinInt64 : Z := - 2 ^ 63.

Definition wrap64 (z : Z) : Z := (z + 2 ^ 63) mod 2 ^ 64 - 2 ^ 63.
Definition add64 (a b : Z) : Z := wrap64 (a + b).
Definition sub64 (a b : Z) : Z := wrap64 (a - b).
Definition mul64 (a b : Z) : Z := wrap64 (a * b).

(** Go's [/] truncates toward zero and panics on a zero divisor. *)
Definition div64 (a b : Z) : option Z :=
  if b =? 0 then None else Some (wrap64 (Z.quot a b)).

(** A Go [(T, error)] pair; an error is represented by its message, and
    [fmt.Errorf("ctx: %w", err)] by prefixing it. *)
Inductive Result (A : Type) : Type :=
| Ok (a : A)
| Err (msg : string).
Arguments Ok {A} a.
Arguments Err {A} msg.

Definition wrapf {A : Type} (prefix : string) (msg : string) : Result A :=
  Err (prefix ++ ": " ++ msg).

(** Dynamically typed values: what is stored under a context key or logged
    as a field. *)
Inductive Value : Type :=
| VUint (n : uint)
| VString (s : string)
| VBool (b : bool)
| VNil.

(** ** package models *)

Module User.
Record t : Type := mk {
  ID : uint;
  Email : string;
  Username : string;
  Password : string;
  FirstName : string;
  LastName : string;
  IsActive : bool;
  IsAdmin : bool;
  LastLogin : option Time;
  CreatedAt : Time;
  UpdatedAt : Time;
  DeletedAt : option Time
}.
End User.

Module UserCreateRequest.
Record t : Type := mk {
  Email : string;
  Username : string;
  Password : string;
  FirstName : string;
  LastName : string
}.
End UserCreateRequest.

Module UserUpdateRequest.
Record t : Type := mk {
  Email : option string;
  Username : option string;
  FirstName : option string;
  LastName : option string;
  IsActive : option bool
}.
End UserUpdateRequest.

Module UserLoginRequest.
Record t : Type := mk {
  Email : string;
  Password : string
}.
End UserLoginRequest.

Module UserResponse.
Record t : Type := mk {
  ID : uint;
  Email : string;
  Username : string;
  FirstName : string;
  LastName : string;
  IsActive : bool;
  IsAdmin : bool;
  LastLogin : option Time;
  CreatedAt : Time;
  UpdatedAt : Time
}.
End UserResponse.

(** [User.ToResponse]: the password digest and the deletion marker are
    dropped. *)
Definition ToResponse (u : User.t) : UserResponse.t :=
  UserResponse.mk (User.ID u) (User.Email u) (User.Username u)
    (User.FirstName u) (User.LastName u) (User.IsActive u) (User.IsAdmin u)
    (User.LastLogin u) (User.CreatedAt u) (User.UpdatedAt u).

(** ** package logger: logrus levels and entries *)

Inductive Level : Type := DebugLevel | InfoLevel | WarnLevel | ErrorLevel.

Record LogEntry : Type := mkLog {
  level : Level;
  message : string;
  cause : option string;
  fields : list (string * Value)
}.

(** ** The environment *)

(** One constructor per external call made by the embedded code: the methods
    of [repository.UserRepository], [Database.Health] and [GetStats], bcrypt,
    [time.Now], the logger, [json.Decoder.Decode] into each request type and
    [validator.Struct] on each request type. *)
Inductive Call : Type :=
| RepoCreate (u : User.t)
| RepoGetByID (id : uint)
| RepoGetByEmail (email : string)
| RepoGetByUsername (username : string)
| RepoUpdate (u : User.t)
| RepoDelete (id : uint)
| RepoList (limit offset : int)
| RepoCount
| RepoExistsByEmail (email : string)
| RepoExistsByUsername (username : string)
| RepoUpdateLastLogin (id : uint)
| DBHealth
| DBGetStats
| BcryptGenerateFromPassword (password : string)
| BcryptCompareHashAndPassword (hash password : string)
| TimeNow
| LogWrite (e : LogEntry)
| DecodeCreate (body : string)
| DecodeUpdate (body : string)
| DecodeLogin (body : string)
| ValidateCreate (req : UserCreateRequest.t)
| ValidateUpdate (req : UserUpdateRequest.t)
| ValidateLogin (req : UserLoginRequest.t).

(** What each call answers. [RepoCreate] and [RepoUpdate] answer the record
    as GORM leaves it behind the pointer (identifier and timestamps filled
    in); a lookup answers [None] for "record not found"; bcrypt's comparison
    answers [true] for a nil error; the validator answers its error, if any. *)
Definition Reply (c : Call) : Type :=
  match c with
  | RepoCreate _ => Result User.t
  | RepoGetByID _ => Result (option User.t)
  | RepoGetByEmail _ => Result (option User.t)
  | RepoGetByUsername _ => Result (option User.t)
  | RepoUpdate _ => Result User.t
  | RepoDelete _ => Result unit
  | RepoList _ _ => Result (list User.t)
  | RepoCount => Result int64
  | RepoExistsByEmail _ => Result bool
  | RepoExistsByUsername _ => Result bool
  | RepoUpdateLastLogin _ => Result unit
  | DBHealth => Result unit
  | DBGetStats => string
  | BcryptGenerateFromPassword _ => Result string
  | BcryptCompareHashAndPassword _ _ => bool
  | TimeNow => Time
  | LogWrite _ => unit
  | DecodeCreate _ => Result UserCreateRequest.t
  | DecodeUpdate _ => Result UserUpdateRequest.t
  | DecodeLogin _ => Result UserLoginRequest.t
  | ValidateCreate _ => option string
  | ValidateUpdate _ => option string
  | ValidateLogin _ => option string
  end.

(** A program: finitely many calls, then a value. *)
Inductive Prog (A : Type) : Type :=
| Ret (a : A)
| Do (c : Call) (k : Reply c -> Prog A).
Arguments Ret {A} a.
Arguments Do {A} c k.

Fixpoint bind {A B : Type} (p : Prog A) (f : A -> Prog B) : Prog B :=
  match p with
  | Ret a => f a
  | Do c k => Do c (fun r => bind (k r) f)
  end.

Definition call (c : Call) : Prog (Reply c) := Do c Ret.

Notation "x <- p ;; k" := (bind p (fun x => k))
  (at level 61, p at next level, right associativity).
Notation "p ;; k" := (bind p (fun _ => k))
  (at level 61, right associativity).

(** An observed call together with its answer. *)
Definition Event : Type := { c : Call & Reply c }.
Definition Ev (c : Call) (r : Reply c) : Event := existT Reply c r.

(** An environment answers every call from its own state. *)
Definition Env (W : Type) : Type := forall c : Call, W -> Reply c * W.

(** Running a program against an environment: the value, the calls made in
    order with their answers, and the environment's final state. *)
Fixpoint run {W A : Type} (h : Env W) (p : Prog A) (w : W)
  : A * list Event * W :=
  match p with
  | Ret a => (a, [], w)
  | Do c k =>
      let answer := h c w in
      let rest := run h (k (fst answer)) (snd answer) in
      (fst (fst rest), Ev c (fst answer) :: snd (fst rest), snd rest)
  end.

Definition value_of {W A : Type} (o : A * list Event * W) : A := fst (fst o).
Definition trace_of {W A : Type} (o : A * list Event * W) : list Event :=
  snd (fst o).

(** The calls a program can make, whatever the answers. *)
Inductive AllCalls {A : Type} (P : Call -> Prop) : Prog A -> Prop :=
| AllCalls_Ret (a : A) : AllCalls P (Ret a)
| AllCalls_Do (c : Call) (k : Reply c -> Prog A) :
    P c -> (forall r, AllCalls P (k r)) -> AllCalls P (Do c k).

Definition is_repo_call (c : Call) : bool :=
  match c with
  | RepoCreate _ | RepoGetByID _ | RepoGetByEmail _ | RepoGetByUsername _
  | RepoUpdate _ | RepoDelete _ | RepoList _ _ | RepoCount
  | RepoExistsByEmail _ | RepoExistsByUsername _ | RepoUpdateLastLogin _ => true
  | _ => false
  end.

Definition is_write_call (c : Call) : bool :=
  match c with
  | RepoCreate _ | RepoUpdate _ | RepoDelete _ | RepoUpdateLastLogin _ => true
  | _ => false
  end.

Definition call_of (e : Event) : Call := projT1 e.

(** In a trace: call [c] was made and answered [r]; call [c] was made. *)
Definition answered (tr : list Event) (c : Call) (r : Reply c) : Prop :=
  In (Ev c r) tr.

Definition called (tr : list Event) (c : Call) : Prop :=
  In c (map call_of tr).

(** A trace without repository calls, and one without repository writes. *)
Definition no_repo_call (tr : list Event) : Prop :=
  Forall (fun e => is_repo_call (call_of e) = false) tr.

Definition no_write (tr : list Event) : Prop :=
  Forall (fun e => is_write_call (call_of e) = false) tr.

(** Logging helpers: [log.WithError(err).WithField(k, v).Warn(msg)] and the
    like. *)
Definition logf (l : Level) (msg : string) (err : option string)
    (fs : list (string * Value)) : Prog unit :=
  call (LogWrite (mkLog l msg err fs)).

(** ** Go standard library functions used by the code *)

(** [strings.HasPrefix] and [strings.TrimPrefix]. *)
Definition HasPrefix (s p : string) : bool := String.prefix p s.

Definition TrimPrefix (s p : string) : string :=
  if HasPrefix s p
  then String.substring (String.length p) (String.length s - String.length p) s
  else s.

(** [http.Header.Get], [url.Values.Get] and [chi.URLParam]: the first value
    under the key, the empty string when there is none. *)
Fixpoint Get (kvs : list (string * string)) (key : string) : string :=
  match kvs with
  | [] => ""
  | (k, v) :: rest => if String.eqb k key then v else Get rest key
  end.

Definition digit_of (c : ascii) : option N :=
  let n := N_of_ascii c in
  if ((48 <=? n) && (n <=? 57))%N then Some (n - 48)%N else None.

Fixpoint parse_digits (acc : N) (s : string) : option N :=
  match s with
  | EmptyString => Some acc
  | String c rest =>
      match digit_of c with
      | Some d => parse_digits (10 * acc + d)%N rest
      | None => None
      end
  end.

(** [strconv.ParseUint(s, 10, bitSize)]: a non-empty run of decimal digits,
    no sign, below [2^bitSize]. The message texts are abbreviated: no caller
    in the repository shows them. *)
Definition ParseUint (s : string) (bitSize : N) : Result N :=
  match s with
  | EmptyString => Err "strconv.ParseUint: invalid syntax"
  | _ =>
      match parse_digits 0 s with
      | None => Err "strconv.ParseUint: invalid syntax"
      | Some n =>
          if (n <? 2 ^ bitSize)%N then Ok n
          else Err "strconv.ParseUint: value out of range"
      end
  end.

(** [strconv.Atoi]: an optional sign, a non-empty run of decimal digits, in
    the range of [int]. *)
Definition Atoi (s : string) : Result int :=
  let '(neg, body) :=
    match s with
    | String "-" rest => (true, rest)
    | String "+" rest => (false, rest)
    | _ => (false, s)
    end in
  match body with
  | EmptyString => Err "strconv.Atoi: invalid syntax"
  | _ =>
      match parse_digits 0 body with
      | None => Err "strconv.Atoi: invalid syntax"
      | Some n =>
          let z := if neg then - Z.of_N n else Z.of_N n in
          if (MinInt64 <=? z) && (z <=? MaxInt64) then Ok z
          else Err "strconv.Atoi: value out of range"
      end
  end.

(** ** package utils: responses *)

(** The [interface{}] payloads the handlers put into a response. *)
Inductive Payload : Type :=
| PUser (user : UserResponse.t)
| PUsers (users : list UserResponse.t)
| PLogin (access_token : string) (user : UserResponse.t)
| PPage (Data : Payload) (Total : int64) (Page Limit TotalPages : int)
| PText (s : string)
| PHealth (status : string) (timestamp : Time) (version : string)
    (database_status : string) (database_stats : string)
| PReady (ready : bool) (timestamp : Time)
| PLive (alive : bool) (timestamp : Time).

(** [APIResponse]; [Data] and [Error] are [omitempty]. *)
Record APIResponse : Type := mkAPIResponse {
  Success : bool;
  Message : string;
  Data : option Payload;
  Error : option Payload
}.

(** What a handler leaves in the [http.ResponseWriter]. *)
Record Response : Type := mkResponse {
  StatusCode : int;
  ContentType : string;
  Body : APIResponse
}.

Definition StatusOK : int := 200.
Definition StatusCreated : int := 201.
Definition StatusBadRequest : int := 400.
Definition StatusUnauthorized : int := 401.
Definition StatusForbidden : int := 403.
Definition StatusNotFound : int := 404.
Definition StatusInternalServerError : int := 500.
Definition StatusServiceUnavailable : int := 503.

Definition WriteJSONResponse (statusCode : int) (data : APIResponse) : Response :=
  mkResponse statusCode "application/json" data.

Definition WriteSuccessResponse (statusCode : int) (message : string)
    (data : option Payload) : Response :=
  WriteJSONResponse statusCode (mkAPIResponse true message data None).

Definition WriteErrorResponse (statusCode : int) (message : string)
    (err : option Payload) : Response :=
  WriteJSONResponse statusCode (mkAPIResponse false message None err).

(** [totalPages := int((total + int64(limit) - 1) / int64(limit))]; [None]
    is the division panic. *)
Definition totalPages (total : int64) (limit : int) : option int :=
  div64 (sub64 (add64 total limit) 1) limit.

Definition WritePaginatedResponse (statusCode : int) (message : string)
    (data : Payload) (total : int64) (page limit : int) : option Response :=
  match totalPages total limit with
  | None => None
  | Some tp =>
      Some (WriteJSONResponse statusCode
              (mkAPIResponse true message
                 (Some (PPage data total page limit tp)) None))
  end.

(** ** package utils: the token codec *)

(** Modelled from the spec: the JWT file of [pkg/utils] is not among the
    sources. The spec's Claims are "user id, email, admin flag, expiry
    instant"; the field names are those the middleware reads. *)
Module Claims.
Record t : Type := mk {
  UserID : uint;
  Email : string;
  IsAdmin : bool;
  ExpiresAt : Time
}.
End Claims.

(** Modelled from the spec: the "symmetric MAC scheme" the codec signs with,
    a function of the secret and the signing input. *)
Class MAC : Type := hmac : string -> string -> string.

(** Decimal rendering and parsing of the numeric fields of a token. *)
Definition render_N (n : N) : string := NilEmpty.string_of_uint (N.to_uint n).

Definition parse_N (s : string) : option N :=
  option_map N.of_uint (NilEmpty.uint_of_string s).

Definition render_Z (z : Z) : string :=
  String (if z <? 0 then "-"%char else "+"%char) (render_N (Z.abs_N z)).

Definition parse_Z (s : string) : option Z :=
  match s with
  | String "-" rest => option_map (fun n => - Z.of_N n) (parse_N rest)
  | String "+" rest => option_map Z.of_N (parse_N rest)
  | _ => None
  end.

Definition render_bool (b : bool) : string := if b then "1" else "0".

Definition parse_bool (s : string) : option bool :=
  if String.eqb s "1" then Some true
  else if String.eqb s "0" then Some false else None.

(** The text before the first colon and the text after it. *)
Fixpoint split_colon (s : string) : option (string * string) :=
  match s with
  | EmptyString => None
  | String c rest =>
      if Ascii.eqb c ":" then Some (EmptyString, rest)
      else match split_colon rest with
           | Some (a, b) => Some (String c a, b)
           | None => None
           end
  end.

Fixpoint no_colon (s : string) : Prop :=
  match s with
  | EmptyString => True
  | String c rest => Ascii.eqb c ":" = false /\ no_colon rest
  end.

(** The first [n] characters and the rest. *)
Fixpoint split_at (n : nat) (s : string) : option (string * string) :=
  match n, s with
  | O, _ => Some (EmptyString, s)
  | S n', String c rest =>
      match split_at n' rest with
      | Some (a, b) => Some (String c a, b)
      | None => None
      end
  | S _, EmptyString => None
  end.

(** Modelled from the spec: the Token Codec "serializes to a compact
    string" the claims it signs. Here the signing input is the claims written
    as colon-separated fields, the e-mail last and length-prefixed. *)
Definition signing_input (c : Claims.t) : string :=
  render_N (Claims.UserID c) ++ ":" ++
  render_Z (Claims.ExpiresAt c) ++ ":" ++
  render_bool (Claims.IsAdmin c) ++ ":" ++
  render_N (N.of_nat (String.length (Claims.Email c))) ++ ":" ++
  Claims.Email c.

(** Modelled from the spec: the token is the signing input followed by its
    MAC under the secret. *)
Definition sign `{MAC} (c : Claims.t) (secret : string) : string :=
  signing_input c ++ hmac secret (signing_input c).

(** Modelled from the spec: reading the claims and the MAC back out of a
    token; [None] for a string that is not of that shape. *)
Definition decode (token : string) : option (Claims.t * string) :=
  match split_colon token with
  | None => None
  | Some (f1, r1) =>
  match parse_N f1, split_colon r1 with
  | Some uid, Some (f2, r2) =>
  match parse_Z f2, split_colon r2 with
  | Some exp, Some (f3, r3) =>
  match parse_bool f3, split_colon r3 with
  | Some adm, Some (f4, r4) =>
  match parse_N f4 with
  | Some len =>
      match split_at (N.to_nat len) r4 with
      | Some (email, tag) => Some (Claims.mk uid email adm exp, tag)
      | None => None
      end
  | None => None
  end
  | _, _ => None
  end
  | _, _ => None
  end
  | _, _ => None
  end
  end.

(** Modelled from the spec: [parse(tokenString, secret)] "verifies the
    signature against secret, rejects if now > expiry, and rejects if the
    signature does not match". *)
Definition parse `{MAC} (token secret : string) (now : Time) : Result Claims.t :=
  match decode token with
  | None => Err "token is malformed"
  | Some (c, tag) =>
      if String.eqb tag (hmac secret (signing_input c)) then
        if now >? Claims.ExpiresAt c then Err "token is expired" else Ok c
      else Err "signature is invalid"
  end.

(** Modelled from the spec: [issue(userID, email, isAdmin, secret, ttl)]
    "builds Claims with expiry = now + ttl, signs with secret ... and
    serializes to a compact string". [utils.GenerateJWT] has this signature
    at its call site in [authService.GenerateToken]. *)
Definition GenerateJWT `{MAC} (userID : uint) (email : string) (isAdmin : bool)
    (secret : string) (expiry : Z) : Prog (Result string) :=
  now <- call TimeNow ;;
  Ret (Ok (sign (Claims.mk userID email isAdmin (now + expiry)) secret)).

(** Modelled from the spec: [utils.ValidateJWT(token, secret)], the spec's
    [parse] at the current time. *)
Definition ValidateJWT `{MAC} (token secret : string) : Prog (Result Claims.t) :=
  now <- call TimeNow ;;
  Ret (parse token secret now).

(** Modelled from the spec: [refresh(tokenString, secret, ttl)] "parses an
    existing token and reissues a new one with expiry = now + ttl, preserving
    identity claims". *)
Definition RefreshJWT `{MAC} (token secret : string) (expiry : Z)
  : Prog (Result string) :=
  r <- ValidateJWT token secret ;;
  match r with
  | Err e => Ret (Err e)
  | Ok c =>
      GenerateJWT (Claims.UserID c) (Claims.Email c) (Claims.IsAdmin c)
        secret expiry
  end.

(** ** package config *)

(** Modelled from the spec: package [config] is not among the sources. The
    Authentication Service works "with configured secret/ttl"; the code reads
    them as [cfg.JWT.Secret] and [cfg.JWT.Expiry]. *)
Record Config : Type := mkConfig {
  JWTSecret : string;
  JWTExpiry : Z
}.

(** ** package services: authService *)

Module authService.

(** [GenerateToken]. *)
Definition GenerateToken `{MAC} (cfg : Config) (userID : uint) (email : string)
    (isAdmin : bool) : Prog (Result string) :=
  r <- GenerateJWT userID email isAdmin (JWTSecret cfg) (JWTExpiry cfg) ;;
  match r with
  | Err err =>
      logf ErrorLevel "Failed to generate JWT token" (Some err)
        [("user_id", VUint userID)] ;;
      Ret (wrapf "failed to generate token" err)
  | Ok token =>
      logf InfoLevel "JWT token generated successfully" None
        [("user_id", VUint userID)] ;;
      Ret (Ok token)
  end.

(** [ValidateToken]: the claims are read from the token, then the user is
    fetched "to ensure they still exist and are active". *)
Definition ValidateToken `{MAC} (cfg : Config) (token : string)
  : Prog (Result User.t) :=
  r <- ValidateJWT token (JWTSecret cfg) ;;
  match r with
  | Err err =>
      logf WarnLevel "Failed to validate JWT token" (Some err) [] ;;
      Ret (wrapf "invalid token" err)
  | Ok claims =>
      u <- call (RepoGetByID (Claims.UserID claims)) ;;
      match u with
      | Err err =>
          logf ErrorLevel "Failed to get user for token validation" (Some err)
            [("user_id", VUint (Claims.UserID claims))] ;;
          Ret (wrapf "failed to validate user" err)
      | Ok None =>
          logf WarnLevel "Token validation failed: user not found" None
            [("user_id", VUint (Claims.UserID claims))] ;;
          Ret (Err "user not found")
      | Ok (Some user) =>
          if negb (User.IsActive user) then
            logf WarnLevel "Token validation failed: user is inactive" None
              [("user_id", VUint (Claims.UserID claims))] ;;
            Ret (Err "user account is deactivated")
          else Ret (Ok user)
      end
  end.

(** [RefreshToken]. *)
Definition RefreshToken `{MAC} (cfg : Config) (token : string)
  : Prog (Result string) :=
  r <- RefreshJWT token (JWTSecret cfg) (JWTExpiry cfg) ;;
  match r with
  | Err err =>
      logf WarnLevel "Failed to refresh JWT token" (Some err) [] ;;
      Ret (wrapf "failed to refresh token" err)
  | Ok newToken =>
      logf InfoLevel "JWT token refreshed successfully" None [] ;;
      Ret (Ok newToken)
  end.

End authService.

(** ** package services: userService *)

Module userService.

Definition set_Email (u : User.t) (v : string) : User.t :=
  User.mk (User.ID u) v (User.Username u) (User.Password u) (User.FirstName u)
    (User.LastName u) (User.IsActive u) (User.IsAdmin u) (User.LastLogin u)
    (User.CreatedAt u) (User.UpdatedAt u) (User.DeletedAt u).

Definition set_Username (u : User.t) (v : string) : User.t :=
  User.mk (User.ID u) (User.Email u) v (User.Password u) (User.FirstName u)
    (User.LastName u) (User.IsActive u) (User.IsAdmin u) (User.LastLogin u)
    (User.CreatedAt u) (User.UpdatedAt u) (User.DeletedAt u).

Definition set_FirstName (u : User.t) (v : string) : User.t :=
  User.mk (User.ID u) (User.Email u) (User.Username u) (User.Password u) v
    (User.LastName u) (User.IsActive u) (User.IsAdmin u) (User.LastLogin u)
    (User.CreatedAt u) (User.UpdatedAt u) (User.DeletedAt u).

Definition set_LastName (u : User.t) (v : string) : User.t :=
  User.mk (User.ID u) (User.Email u) (User.Username u) (User.Password u)
    (User.FirstName u) v (User.IsActive u) (User.IsAdmin u) (User.LastLogin u)
    (User.CreatedAt u) (User.UpdatedAt u) (User.DeletedAt u).

Definition set_IsActive (u : User.t) (v : bool) : User.t :=
  User.mk (User.ID u) (User.Email u) (User.Username u) (User.Password u)
    (User.FirstName u) (User.LastName u) v (User.IsAdmin u) (User.LastLogin u)
    (User.CreatedAt u) (User.UpdatedAt u) (User.DeletedAt u).

(** The [&models.User{...}] literal of [Create]: every field not listed has
    its zero value. *)
Definition newUser (req : UserCreateRequest.t) (hashedPassword : string)
  : User.t :=
  User.mk 0%N (UserCreateRequest.Email req) (UserCreateRequest.Username req)
    hashedPassword (UserCreateRequest.FirstName req)
    (UserCreateRequest.LastName req) true false None 0 0 None.

(** [Create]. *)
Definition Create (req : UserCreateRequest.t) : Prog (Result UserResponse.t) :=
  e <- call (RepoExistsByEmail (UserCreateRequest.Email req)) ;;
  match e with
  | Err err =>
      logf ErrorLevel "Failed to check if user exists by email" (Some err) [] ;;
      Ret (wrapf "failed to check user existence" err)
  | Ok true => Ret (Err "user with this email already exists")
  | Ok false =>
  n <- call (RepoExistsByUsername (UserCreateRequest.Username req)) ;;
  match n with
  | Err err =>
      logf ErrorLevel "Failed to check if user exists by username" (Some err) [] ;;
      Ret (wrapf "failed to check username availability" err)
  | Ok true => Ret (Err "username is already taken")
  | Ok false =>
  p <- call (BcryptGenerateFromPassword (UserCreateRequest.Password req)) ;;
  match p with
  | Err err =>
      logf ErrorLevel "Failed to hash password" (Some err) [] ;;
      Ret (wrapf "failed to hash password" err)
  | Ok hashedPassword =>
  c <- call (RepoCreate (newUser req hashedPassword)) ;;
  match c with
  | Err err =>
      logf ErrorLevel "Failed to create user" (Some err) [] ;;
      Ret (wrapf "failed to create user" err)
  | Ok user =>
      logf InfoLevel "User created successfully" None
        [("user_id", VUint (User.ID user))] ;;
      Ret (Ok (ToResponse user))
  end end end end.

(** [GetByID]. *)
Definition GetByID (id : uint) : Prog (Result UserResponse.t) :=
  u <- call (RepoGetByID id) ;;
  match u with
  | Err err =>
      logf ErrorLevel "Failed to get user by ID" (Some err)
        [("user_id", VUint id)] ;;
      Ret (wrapf "failed to get user" err)
  | Ok None => Ret (Err "user not found")
  | Ok (Some user) => Ret (Ok (ToResponse user))
  end.

(** [GetByEmail]. *)
Definition GetByEmail (email : string) : Prog (Result UserResponse.t) :=
  u <- call (RepoGetByEmail email) ;;
  match u with
  | Err err =>
      logf ErrorLevel "Failed to get user by email" (Some err)
        [("email", VString email)] ;;
      Ret (wrapf "failed to get user" err)
  | Ok None => Ret (Err "user not found")
  | Ok (Some user) => Ret (Ok (ToResponse user))
  end.

(** The [Email] block of [Update]: the availability check runs only for a
    provided value that differs from the current one. *)
Definition updateEmail (req : UserUpdateRequest.t) (user : User.t)
  : Prog (Result User.t) :=
  match UserUpdateRequest.Email req with
  | Some email =>
      if negb (String.eqb email (User.Email user)) then
        e <- call (RepoExistsByEmail email) ;;
        match e with
        | Err err => Ret (wrapf "failed to check email availability" err)
        | Ok true => Ret (Err "email is already taken")
        | Ok false => Ret (Ok (set_Email user email))
        end
      else Ret (Ok user)
  | None => Ret (Ok user)
  end.

(** The [Username] block of [Update]. *)
Definition updateUsername (req : UserUpdateRequest.t) (user : User.t)
  : Prog (Result User.t) :=
  match UserUpdateRequest.Username req with
  | Some username =>
      if negb (String.eqb username (User.Username user)) then
        e <- call (RepoExistsByUsername username) ;;
        match e with
        | Err err => Ret (wrapf "failed to check username availability" err)
        | Ok true => Ret (Err "username is already taken")
        | Ok false => Ret (Ok (set_Username user username))
        end
      else Ret (Ok user)
  | None => Ret (Ok user)
  end.

(** The three unconditional blocks of [Update]. *)
Definition updateNames (req : UserUpdateRequest.t) (user : User.t) : User.t :=
  let user :=
    match UserUpdateRequest.FirstName req with
    | Some v => set_FirstName user v
    | None => user
    end in
  let user :=
    match UserUpdateRequest.LastName req with
    | Some v => set_LastName user v
    | None => user
    end in
  match UserUpdateRequest.IsActive req with
  | Some v => set_IsActive user v
  | None => user
  end.

(** [Update]. *)
Definition Update (id : uint) (req : UserUpdateRequest.t)
  : Prog (Result UserResponse.t) :=
  g <- call (RepoGetByID id) ;;
  match g with
  | Err err =>
      logf ErrorLevel "Failed to get user for update" (Some err)
        [("user_id", VUint id)] ;;
      Ret (wrapf "failed to get user" err)
  | Ok None => Ret (Err "user not found")
  | Ok (Some user) =>
  a <- updateEmail req user ;;
  match a with
  | Err err => Ret (Err err)
  | Ok user =>
  b <- updateUsername req user ;;
  match b with
  | Err err => Ret (Err err)
  | Ok user =>
  s <- call (RepoUpdate (updateNames req user)) ;;
  match s with
  | Err err =>
      logf ErrorLevel "Failed to update user" (Some err)
        [("user_id", VUint id)] ;;
      Ret (wrapf "failed to update user" err)
  | Ok user =>
      logf InfoLevel "User updated successfully" None [("user_id", VUint id)] ;;
      Ret (Ok (ToResponse user))
  end end end end.

(** [Delete]. *)
Definition Delete (id : uint) : Prog (Result unit) :=
  g <- call (RepoGetByID id) ;;
  match g with
  | Err err =>
      logf ErrorLevel "Failed to get user for deletion" (Some err)
        [("user_id", VUint id)] ;;
      Ret (wrapf "failed to get user" err)
  | Ok None => Ret (Err "user not found")
  | Ok (Some _) =>
      d <- call (RepoDelete id) ;;
      match d with
      | Err err =>
          logf ErrorLevel "Failed to delete user" (Some err)
            [("user_id", VUint id)] ;;
          Ret (wrapf "failed to delete user" err)
      | Ok _ =>
          logf InfoLevel "User deleted successfully" None
            [("user_id", VUint id)] ;;
          Ret (Ok tt)
      end
  end.

(** [List]: [offset := (page - 1) * limit] in [int] arithmetic. *)
Definition List (page limit : int)
  : Prog (Result (list UserResponse.t * int64)) :=
  let offset := mul64 (sub64 page 1) limit in
  l <- call (RepoList limit offset) ;;
  match l with
  | Err err =>
      logf ErrorLevel "Failed to list users" (Some err) [] ;;
      Ret (wrapf "failed to list users" err)
  | Ok users =>
      n <- call RepoCount ;;
      match n with
      | Err err =>
          logf ErrorLevel "Failed to count users" (Some err) [] ;;
          Ret (wrapf "failed to count users" err)
      | Ok total => Ret (Ok (map ToResponse users, total))
      end
  end.

(** [Login]; the token comes from [authService.GenerateToken], the
    [AuthService] that [server.New] wires in. *)
Definition Login `{MAC} (cfg : Config) (req : UserLoginRequest.t)
  : Prog (Result (string * UserResponse.t)) :=
  g <- call (RepoGetByEmail (UserLoginRequest.Email req)) ;;
  match g with
  | Err err =>
      logf ErrorLevel "Failed to get user for login" (Some err)
        [("email", VString (UserLoginRequest.Email req))] ;;
      Ret (wrapf "failed to authenticate" err)
  | Ok None => Ret (Err "invalid credentials")
  | Ok (Some user) =>
  if negb (User.IsActive user) then Ret (Err "account is deactivated")
  else
  ok <- call (BcryptCompareHashAndPassword (User.Password user)
                (UserLoginRequest.Password req)) ;;
  if negb ok then
    logf WarnLevel "Invalid password attempt" None
      [("email", VString (UserLoginRequest.Email req))] ;;
    Ret (Err "invalid credentials")
  else
  t <- authService.GenerateToken cfg (User.ID user) (User.Email user)
         (User.IsAdmin user) ;;
  match t with
  | Err err =>
      logf ErrorLevel "Failed to generate token" (Some err)
        [("user_id", VUint (User.ID user))] ;;
      Ret (wrapf "failed to generate token" err)
  | Ok token =>
  s <- call (RepoUpdateLastLogin (User.ID user)) ;;
  match s with
  | Err err =>
      logf WarnLevel "Failed to update last login" (Some err)
        [("user_id", VUint (User.ID user))]
  | Ok _ => Ret tt
  end ;;
  logf InfoLevel "User logged in successfully" None
    [("user_id", VUint (User.ID user))] ;;
  Ret (Ok (token, ToResponse user))
  end end.

(** [Logout]. *)
Definition Logout (userID : uint) : Prog (Result unit) :=
  logf InfoLevel "User logged out successfully" None
    [("user_id", VUint userID)] ;;
  Ret (Ok tt).

End userService.

(** ** net/http requests *)

(** [context.Context] as far as the code uses it: the values stored under
    the middleware's keys, the most recent first. *)
Definition ContextKey : Type := string.
Definition Ctx : Type := list (ContextKey * Value).

Definition WithValue (ctx : Ctx) (key : ContextKey) (v : Value) : Ctx :=
  (key, v) :: ctx.

Fixpoint CtxValue (ctx : Ctx) (key : ContextKey) : Value :=
  match ctx with
  | [] => VNil
  | (k, v) :: rest => if String.eqb k key then v else CtxValue rest key
  end.

Module Request.
Record t : Type := mk {
  Path : string;
  Header : list (string * string);
  Query : list (string * string);
  URLParams : list (string * string);
  Body : string;
  Context : Ctx
}.
Definition WithContext (r : t) (ctx : Ctx) : t :=
  mk (Path r) (Header r) (Query r) (URLParams r) (Body r) ctx.
End Request.

Definition Handler : Type := Request.t -> Prog Response.

(** ** package middleware *)

Module middleware.

Definition UserIDKey : ContextKey := "user_id".
Definition UserEmailKey : ContextKey := "user_email".
Definition IsAdminKey : ContextKey := "is_admin".

(** The three [context.WithValue] calls shared by [JWTAuth] and
    [OptionalAuth]. *)
Definition withClaims (ctx : Ctx) (claims : Claims.t) : Ctx :=
  let ctx := WithValue ctx UserIDKey (VUint (Claims.UserID claims)) in
  let ctx := WithValue ctx UserEmailKey (VString (Claims.Email claims)) in
  WithValue ctx IsAdminKey (VBool (Claims.IsAdmin claims)).

(** [JWTAuth]. *)
Definition JWTAuth `{MAC} (jwtSecret : string) (next : Handler) : Handler :=
  fun r =>
  let authHeader := Get (Request.Header r) "Authorization" in
  if String.eqb authHeader "" then
    logf WarnLevel "Missing authorization header" None
      [("path", VString (Request.Path r))] ;;
    Ret (WriteErrorResponse StatusUnauthorized "Authorization header required" None)
  else if negb (HasPrefix authHeader "Bearer ") then
    logf WarnLevel "Invalid authorization header format" None
      [("path", VString (Request.Path r))] ;;
    Ret (WriteErrorResponse StatusUnauthorized
           "Invalid authorization header format" None)
  else
  let token := TrimPrefix authHeader "Bearer " in
  if String.eqb token "" then
    logf WarnLevel "Empty token" None [("path", VString (Request.Path r))] ;;
    Ret (WriteErrorResponse StatusUnauthorized "Token required" None)
  else
  v <- ValidateJWT token jwtSecret ;;
  match v with
  | Err err =>
      logf WarnLevel "Invalid token" (Some err)
        [("path", VString (Request.Path r))] ;;
      Ret (WriteErrorResponse StatusUnauthorized "Invalid token" None)
  | Ok claims =>
      next (Request.WithContext r (withClaims (Request.Context r) claims))
  end.

(** [RequireAdmin]. *)
Definition RequireAdmin (next : Handler) : Handler :=
  fun r =>
  let '(isAdmin, ok) :=
    match CtxValue (Request.Context r) IsAdminKey with
    | VBool b => (b, true)
    | _ => (false, false)
    end in
  if negb ok || negb isAdmin then
    logf WarnLevel "Admin access required" None
      [("user_id", CtxValue (Request.Context r) UserIDKey);
       ("path", VString (Request.Path r))] ;;
    Ret (WriteErrorResponse StatusForbidden "Admin access required" None)
  else next r.

(** [OptionalAuth]. *)
Definition OptionalAuth `{MAC} (jwtSecret : string) (next : Handler) : Handler :=
  fun r =>
  let authHeader := Get (Request.Header r) "Authorization" in
  if String.eqb authHeader "" then next r
  else if negb (HasPrefix authHeader "Bearer ") then next r
  else
  let token := TrimPrefix authHeader "Bearer " in
  if String.eqb token "" then next r
  else
  v <- ValidateJWT token jwtSecret ;;
  match v with
  | Err err =>
      logf DebugLevel "Invalid optional token" (Some err)
        [("path", VString (Request.Path r))] ;;
      next r
  | Ok claims =>
      next (Request.WithContext r (withClaims (Request.Context r) claims))
  end.

(** [GetUserIDFromContext], [GetUserEmailFromContext] and
    [GetIsAdminFromContext]: the value and whether the type assertion held. *)
Definition GetUserIDFromContext (ctx : Ctx) : uint * bool :=
  match CtxValue ctx UserIDKey with
  | VUint n => (n, true)
  | _ => (0%N, false)
  end.

Definition GetUserEmailFromContext (ctx : Ctx) : string * bool :=
  match CtxValue ctx UserEmailKey with
  | VString s => (s, true)
  | _ => ("", false)
  end.

Definition GetIsAdminFromContext (ctx : Ctx) : bool * bool :=
  match CtxValue ctx IsAdminKey with
  | VBool b => (b, true)
  | _ => (false, false)
  end.

(** The warning [JWTAuth] logs with a rejection. *)
Definition gate_log (msg : string) (err : option string) (r : Request.t) : Event :=
  Ev (LogWrite (mkLog WarnLevel msg err [("path", VString (Request.Path r))])) tt.

(** What [Recovery] writes once a panic of the wrapped handler reaches it. *)
Definition Recovered (r : Request.t) (panic : string) : Prog Response :=
  logf ErrorLevel "Panic recovered" (Some panic)
    [("path", VString (Request.Path r)); ("type", VString "panic")] ;;
  Ret (WriteErrorResponse StatusInternalServerError "Internal server error" None).

End middleware.

(** ** package handlers *)

Module UserHandler.

(** [Create]: POST /users. *)
Definition Create : Handler := fun r =>
  d <- call (DecodeCreate (Request.Body r)) ;;
  match d with
  | Err err =>
      logf WarnLevel "Invalid JSON in create user request" (Some err) [] ;;
      Ret (WriteErrorResponse StatusBadRequest "Invalid JSON" None)
  | Ok req =>
  v <- call (ValidateCreate req) ;;
  match v with
  | Some err =>
      logf WarnLevel "Validation failed for create user request" (Some err) [] ;;
      Ret (WriteErrorResponse StatusBadRequest "Validation failed"
             (Some (PText err)))
  | None =>
  u <- userService.Create req ;;
  match u with
  | Err err =>
      logf ErrorLevel "Failed to create user" (Some err) [] ;;
      Ret (WriteErrorResponse StatusBadRequest err None)
  | Ok user =>
      Ret (WriteSuccessResponse StatusCreated "User created successfully"
             (Some (PUser user)))
  end end end.

(** [GetByID]: GET /users/{id}. *)
Definition GetByID : Handler := fun r =>
  match ParseUint (Get (Request.URLParams r) "id") 32 with
  | Err _ => Ret (WriteErrorResponse StatusBadRequest "Invalid user ID" None)
  | Ok id =>
  u <- userService.GetByID id ;;
  match u with
  | Err err =>
      logf ErrorLevel "Failed to get user" (Some err) [("user_id", VUint id)] ;;
      Ret (WriteErrorResponse StatusNotFound err None)
  | Ok user =>
      Ret (WriteSuccessResponse StatusOK "User retrieved successfully"
             (Some (PUser user)))
  end end.

(** [Update]: PUT /users/{id}. *)
Definition Update : Handler := fun r =>
  match ParseUint (Get (Request.URLParams r) "id") 32 with
  | Err _ => Ret (WriteErrorResponse StatusBadRequest "Invalid user ID" None)
  | Ok id =>
  let userID := fst (middleware.GetUserIDFromContext (Request.Context r)) in
  let isAdmin := fst (middleware.GetIsAdminFromContext (Request.Context r)) in
  if negb (N.eqb userID id) && negb isAdmin then
    Ret (WriteErrorResponse StatusForbidden
           "You can only update your own profile" None)
  else
  d <- call (DecodeUpdate (Request.Body r)) ;;
  match d with
  | Err err =>
      logf WarnLevel "Invalid JSON in update user request" (Some err) [] ;;
      Ret (WriteErrorResponse StatusBadRequest "Invalid JSON" None)
  | Ok req =>
  v <- call (ValidateUpdate req) ;;
  match v with
  | Some err =>
      logf WarnLevel "Validation failed for update user request" (Some err) [] ;;
      Ret (WriteErrorResponse StatusBadRequest "Validation failed"
             (Some (PText err)))
  | None =>
  u <- userService.Update id req ;;
  match u with
  | Err err =>
      logf ErrorLevel "Failed to update user" (Some err)
        [("user_id", VUint id)] ;;
      Ret (WriteErrorResponse StatusBadRequest err None)
  | Ok user =>
      Ret (WriteSuccessResponse StatusOK "User updated successfully"
             (Some (PUser user)))
  end end end end.

(** [Delete]: DELETE /users/{id}. *)
Definition Delete : Handler := fun r =>
  match ParseUint (Get (Request.URLParams r) "id") 32 with
  | Err _ => Ret (WriteErrorResponse StatusBadRequest "Invalid user ID" None)
  | Ok id =>
  let userID := fst (middleware.GetUserIDFromContext (Request.Context r)) in
  let isAdmin := fst (middleware.GetIsAdminFromContext (Request.Context r)) in
  if negb (N.eqb userID id) && negb isAdmin then
    Ret (WriteErrorResponse StatusForbidden
           "You can only delete your own profile" None)
  else
  d <- userService.Delete id ;;
  match d with
  | Err err =>
      logf ErrorLevel "Failed to delete user" (Some err)
        [("user_id", VUint id)] ;;
      Ret (WriteErrorResponse StatusBadRequest err None)
  | Ok _ =>
      Ret (WriteSuccessResponse StatusOK "User deleted successfully" None)
  end end.

(** The [page] and [limit] query parameters of [List], with their defaults. *)
Definition pageParam (r : Request.t) : int :=
  let pageStr := Get (Request.Query r) "page" in
  if String.eqb pageStr "" then 1
  else match Atoi pageStr with
       | Ok p => if p >? 0 then p else 1
       | Err _ => 1
       end.

Definition limitParam (r : Request.t) : int :=
  let limitStr := Get (Request.Query r) "limit" in
  if String.eqb limitStr "" then 10
  else match Atoi limitStr with
       | Ok l => if (l >? 0) && (l <=? 100) then l else 10
       | Err _ => 10
       end.

(** [List]: GET /users. A division panic in [WritePaginatedResponse] would
    unwind to the [Recovery] middleware. *)
Definition List : Handler := fun r =>
  let page := pageParam r in
  let limit := limitParam r in
  l <- userService.List page limit ;;
  match l with
  | Err err =>
      logf ErrorLevel "Failed to list users" (Some err) [] ;;
      Ret (WriteErrorResponse StatusInternalServerError
             "Failed to retrieve users" None)
  | Ok (users, total) =>
      match WritePaginatedResponse StatusOK "Users retrieved successfully"
              (PUsers users) total page limit with
      | Some resp => Ret resp
      | None => middleware.Recovered r "runtime error: integer divide by zero"
      end
  end.

(** [Login]: POST /auth/login. *)
Definition Login `{MAC} (cfg : Config) : Handler := fun r =>
  d <- call (DecodeLogin (Request.Body r)) ;;
  match d with
  | Err err =>
      logf WarnLevel "Invalid JSON in login request" (Some err) [] ;;
      Ret (WriteErrorResponse StatusBadRequest "Invalid JSON" None)
  | Ok req =>
  v <- call (ValidateLogin req) ;;
  match v with
  | Some err =>
      logf WarnLevel "Validation failed for login request" (Some err) [] ;;
      Ret (WriteErrorResponse StatusBadRequest "Validation failed"
             (Some (PText err)))
  | None =>
  l <- userService.Login cfg req ;;
  match l with
  | Err err =>
      logf WarnLevel "Login failed" (Some err)
        [("email", VString (UserLoginRequest.Email req))] ;;
      Ret (WriteErrorResponse StatusUnauthorized err None)
  | Ok (token, user) =>
      Ret (WriteSuccessResponse StatusOK "Login successful"
             (Some (PLogin token user)))
  end end end.

(** [Logout]: POST /auth/logout. *)
Definition Logout : Handler := fun r =>
  let '(userID, ok) := middleware.GetUserIDFromContext (Request.Context r) in
  if negb ok then
    Ret (WriteErrorResponse StatusUnauthorized "User not authenticated" None)
  else
  l <- userService.Logout userID ;;
  match l with
  | Err err =>
      logf ErrorLevel "Failed to logout user" (Some err)
        [("user_id", VUint userID)] ;;
      Ret (WriteErrorResponse StatusInternalServerError "Logout failed" None)
  | Ok _ => Ret (WriteSuccessResponse StatusOK "Logout successful" None)
  end.

(** [Profile]: GET /auth/profile. *)
Definition Profile : Handler := fun r =>
  let '(userID, ok) := middleware.GetUserIDFromContext (Request.Context r) in
  if negb ok then
    Ret (WriteErrorResponse StatusUnauthorized "User not authenticated" None)
  else
  u <- userService.GetByID userID ;;
  match u with
  | Err err =>
      logf ErrorLevel "Failed to get user profile" (Some err)
        [("user_id", VUint userID)] ;;
      Ret (WriteErrorResponse StatusNotFound err None)
  | Ok user =>
      Ret (WriteSuccessResponse StatusOK "Profile retrieved successfully"
             (Some (PUser user)))
  end.

End UserHandler.

Module HealthHandler.

(** [Health]: GET /health. *)
Definition Health : Handler := fun r =>
  h <- call DBHealth ;;
  unhealthy <-
    match h with
    | Err err =>
        logf ErrorLevel "Database health check failed" (Some err) [] ;;
        Ret true
    | Ok _ => Ret false
    end ;;
  dbStats <- call DBGetStats ;;
  now <- call TimeNow ;;
  if unhealthy then
    Ret (WriteErrorResponse StatusServiceUnavailable "Service is unhealthy"
           (Some (PHealth "unhealthy" now "1.0.0" "unhealthy" dbStats)))
  else
    Ret (WriteSuccessResponse StatusOK "Service is healthy"
           (Some (PHealth "healthy" now "1.0.0" "healthy" dbStats))).

(** [Ready]: GET /health/ready. *)
Definition Ready : Handler := fun r =>
  h <- call DBHealth ;;
  match h with
  | Err err =>
      logf ErrorLevel "Database readiness check failed" (Some err) [] ;;
      now <- call TimeNow ;;
      Ret (WriteErrorResponse StatusServiceUnavailable "Service is not ready"
             (Some (PReady false now)))
  | Ok _ =>
      now <- call TimeNow ;;
      Ret (WriteSuccessResponse StatusOK "Service is ready"
             (Some (PReady true now)))
  end.

(** [Live]: GET /health/live. *)
Definition Live : Handler := fun r =>
  now <- call TimeNow ;;
  Ret (WriteSuccessResponse StatusOK "Service is alive" (Some (PLive true now))).

End HealthHandler.

(** ** package routes *)

(** The routes registered by [SetupRoutes]; chi's matching of method and
    path against them is outside the repository, a request arrives with its
    URL parameters extracted. *)
Inductive Route : Type :=
| GET_health
| GET_health_ready
| GET_health_live
| POST_auth_login
| POST_auth_register
| POST_auth_logout
| GET_auth_profile
| GET_users
| GET_users_id
| PUT_users_id
| DELETE_users_id
| POST_admin_users.

(** [SetupRoutes]: the handler each route reaches, behind the middleware of
    the groups it is registered in. The global middleware (request id, real
    IP, logging, recovery, CORS, timeout) wraps every route alike and is left
    out: [Logging] reads the clock before and after the route and writes one
    log entry for the request, none of the six calls the repository, and
    none changes the response of a handler that returns. A run of
    [SetupRoutes] is therefore the part of a request inside the global
    middleware: its response and its repository calls are the request's, its
    trace lacks the two clock readings and the log entry of [Logging]. *)
Definition SetupRoutes `{MAC} (cfg : Config) (rt : Route) : Handler :=
  let protected := middleware.JWTAuth (JWTSecret cfg) in
  let admin := fun next => protected (middleware.RequireAdmin next) in
  match rt with
  | GET_health => HealthHandler.Health
  | GET_health_ready => HealthHandler.Ready
  | GET_health_live => HealthHandler.Live
  | POST_auth_login => UserHandler.Login cfg
  | POST_auth_register => UserHandler.Create
  | POST_auth_logout => protected UserHandler.Logout
  | GET_auth_profile => protected UserHandler.Profile
  | GET_users => protected UserHandler.List
  | GET_users_id => protected UserHandler.GetByID
  | PUT_users_id => protected UserHandler.Update
  | DELETE_users_id => protected UserHandler.Delete
  | POST_admin_users => admin UserHandler.Create
  end.

(** Every record handed to [Create] is a plain account: active, not an
    administrator. *)
Definition creates_plain_account (c : Call) : Prop :=
  match c with
  | RepoCreate u => User.IsAdmin u = false /\ User.IsActive u = true
  | _ => True
  end.

(** ** Test doubles *)

(** A scripted environment in the manner of the testify mocks of the Go
    tests: every call is answered from a fixed script. The theorems below
    hold for every environment; the scripts are used by the examples. *)
Module Mock.

Definition Script : Type := forall c : Call, Reply c.

Definition env (s : Script) : Env unit := fun c w => (s c, w).

(** An empty, healthy store; bcrypt stood in for by a prefix. *)
Definition quiet : Script := fun c =>
  match c return Reply c with
  | RepoCreate u => Ok u
  | RepoGetByID _ => Ok None
  | RepoGetByEmail _ => Ok None
  | RepoGetByUsername _ => Ok None
  | RepoUpdate u => Ok u
  | RepoDelete _ => Ok tt
  | RepoList _ _ => Ok []
  | RepoCount => Ok 0
  | RepoExistsByEmail _ => Ok false
  | RepoExistsByUsername _ => Ok false
  | RepoUpdateLastLogin _ => Ok tt
  | DBHealth => Ok tt
  | DBGetStats => "open=1"
  | BcryptGenerateFromPassword p => Ok ("$2a$" ++ p)
  | BcryptCompareHashAndPassword h p => String.eqb h ("$2a$" ++ p)
  | TimeNow => 1000
  | LogWrite _ => tt
  | DecodeCreate _ => Err "unexpected end of JSON input"
  | DecodeUpdate _ => Err "unexpected end of JSON input"
  | DecodeLogin _ => Err "unexpected end of JSON input"
  | ValidateCreate _ => None
  | ValidateUpdate _ => None
  | ValidateLogin _ => None
  end.

Fixpoint checksum (s : string) (acc : N) : N :=
  match s with
  | EmptyString => acc
  | String c rest => checksum rest ((acc * 31 + N_of_ascii c) mod 2 ^ 32)%N
  end.

(** A keyed checksum standing in for the MAC in the examples. *)
Definition demoMAC : MAC := fun secret input =>
  "." ++ render_N (checksum (secret ++ "/" ++ input) 7).

Definition cfg : Config := mkConfig "s3cret" 3600.

Definition alice : User.t :=
  User.mk 1%N "alice@example.com" "alice" "$2a$password123" "Alice" "Liddell"
    true false None 10 10 None.

(** A deactivated account. *)
Definition bob : User.t :=
  User.mk 7%N "bob@example.com" "bob" "$2a$hunter2" "Bob" "Builder"
    false false None 20 30 None.

(** An administrator, as [cmd/seed] creates one. *)
Definition root : User.t :=
  User.mk 9%N "root@example.com" "root" "$2a$toor" "Root" "Admin"
    true true None 5 5 None.

Definition table : list User.t := [alice; bob; root].

(** A store holding [table], read-only. *)
Definition people : Script := fun c =>
  match c return Reply c with
  | RepoGetByID id => Ok (find (fun u => N.eqb (User.ID u) id) table)
  | RepoGetByEmail e => Ok (find (fun u => String.eqb (User.Email u) e) table)
  | RepoGetByUsername n =>
      Ok (find (fun u => String.eqb (User.Username u) n) table)
  | RepoExistsByEmail e =>
      Ok (existsb (fun u => String.eqb (User.Email u) e) table)
  | RepoExistsByUsername n =>
      Ok (existsb (fun u => String.eqb (User.Username u) n) table)
  | RepoList _ _ => Ok table
  | RepoCount => Ok 3
  | c' => quiet c'
  end.

(** The same store with the database unreachable. *)
Definition refused : string :=
  "dial tcp 127.0.0.1:5432: connect: connection refused".

Definition db_down (s : Script) : Script := fun c =>
  match c return Reply c with
  | RepoCreate _ => Err refused
  | RepoGetByID _ => Err refused
  | RepoGetByEmail _ => Err refused
  | RepoGetByUsername _ => Err refused
  | RepoUpdate _ => Err refused
  | RepoDelete _ => Err refused
  | RepoList _ _ => Err refused
  | RepoCount => Err refused
  | RepoExistsByEmail _ => Err refused
  | RepoExistsByUsername _ => Err refused
  | RepoUpdateLastLogin _ => Err refused
  | DBHealth => Err refused
  | c' => s c'
  end.

(** The same store with only the last-login update failing. *)
Definition stamp_fails (s : Script) : Script := fun c =>
  match c return Reply c with
  | RepoUpdateLastLogin _ => Err refused
  | c' => s c'
  end.

(** Request bodies decode to the given request. *)
Definition decoding_create (req : UserCreateRequest.t) (s : Script) : Script :=
  fun c =>
  match c return Reply c with
  | DecodeCreate _ => Ok req
  | c' => s c'
  end.

Definition carol : UserCreateRequest.t :=
  UserCreateRequest.mk "carol@example.com" "carol" "opensesame" "Carol" "Danvers".

(** A token issued to [u] at the mock's time (1000) under [cfg]. *)
Definition token_for (u : User.t) : string :=
  @sign demoMAC
    (Claims.mk (User.ID u) (User.Email u) (User.IsAdmin u) (1000 + JWTExpiry cfg))
    (JWTSecret cfg).

(** Alice's token as issued an hour and a half earlier, and her token signed
    under another secret. *)
Definition expired_token : string :=
  @sign demoMAC (Claims.mk 1%N "alice@example.com" false 500) (JWTSecret cfg).

Definition forged_token : string :=
  @sign demoMAC (Claims.mk 1%N "alice@example.com" true 4600) "guess".

Definition request (path : string) (token : string)
    (query params : list (string * string)) (body : string) : Request.t :=
  Request.mk path
    (if String.eqb token "" then [] else [("Authorization", "Bearer " ++ token)])
    query params body [].

(** Serving a route under a script. *)
Definition serve (s : Script) (rt : Route) (r : Request.t)
  : Response * list Event * unit :=
  run (env s) (@SetupRoutes demoMAC cfg rt r) tt.

Definition login (s : Script) (email password : string)
  : Result (string * UserResponse.t) * list Event * unit :=
  run (env s) (@userService.Login demoMAC cfg (UserLoginRequest.mk email password)) tt.

Definition validate (s : Script) (token : string)
  : Result User.t * list Event * unit :=
  run (env s) (@authService.ValidateToken demoMAC cfg token) tt.

End Mock.

(** ** package middleware: logging.go *)

Module logging.

(** The [for i, char := range xff] loop of [getClientIP]: the index of the
    first comma, 0 when there is none. A comma is one byte and no byte of a
    longer UTF-8 sequence equals it, so the rune index the loop yields is the
    byte index found here. *)
Fixpoint commaIndex (xff : string) (i : nat) : nat :=
  match xff with
  | EmptyString => 0%nat
  | String char rest =>
      if Ascii.eqb char "," then i else commaIndex rest (S i)
  end.

(** [getClientIP]; [RemoteAddr] is the request's field of that name. *)
Definition getClientIP (r : Request.t) (RemoteAddr : string) : string :=
  let after_forwarded :=
    let xri := Get (Request.Header r) "X-Real-IP" in
    if negb (String.eqb xri "") then xri else RemoteAddr in
  let xff := Get (Request.Header r) "X-Forwarded-For" in
  if negb (String.eqb xff "") then
    let idx := String.length xff in
    if (0 <? idx)%nat then
      if (0 <? idx)%nat then
        let commaIdx := commaIndex xff 0 in
        if (0 <? commaIdx)%nat then String.substring 0 commaIdx xff
        else xff
      else xff
    else after_forwarded
  else after_forwarded.

End logging.

(** No byte of a string is a comma. *)
Definition comma_free (s : string) : Prop :=
  forall c, In c (list_ascii_of_string s) -> c <> ","%char.

(** ** package utils: validation.go *)

Module validation.

(** Every character of a string satisfies a test. *)
Fixpoint all_chars (p : ascii -> bool) (s : string) : bool :=
  match s with
  | EmptyString => true
  | String c rest => p c && all_chars p rest
  end.

Fixpoint count_char (c : ascii) (s : string) : nat :=
  match s with
  | EmptyString => 0%nat
  | String x rest => ((if Ascii.eqb x c then 1 else 0) + count_char c rest)%nat
  end.

(** Regular expressions as far as the two patterns of the file need them:
    character classes, concatenation, alternative and repetition. *)
Inductive regex : Type :=
| Empty
| Eps
| Class (p : ascii -> bool)
| Cat (r1 r2 : regex)
| Alt (r1 r2 : regex)
| Star (r : regex).

(** [r+] and [r{2,}]. *)
Definition Plus (r : regex) : regex := Cat r (Star r).
Definition AtLeast2 (r : regex) : regex := Cat r (Cat r (Star r)).

(** The strings a regular expression denotes. *)
Inductive Matches : regex -> string -> Prop :=
| MEps : Matches Eps EmptyString
| MClass (p : ascii -> bool) (c : ascii) :
    p c = true -> Matches (Class p) (String c EmptyString)
| MCat (r1 r2 : regex) (s1 s2 : string) :
    Matches r1 s1 -> Matches r2 s2 -> Matches (Cat r1 r2) (s1 ++ s2)
| MAltL (r1 r2 : regex) (s : string) : Matches r1 s -> Matches (Alt r1 r2) s
| MAltR (r1 r2 : regex) (s : string) : Matches r2 s -> Matches (Alt r1 r2) s
| MStar0 (r : regex) : Matches (Star r) EmptyString
| MStarS (r : regex) (s1 s2 : string) :
    Matches r s1 -> Matches (Star r) s2 -> Matches (Star r) (s1 ++ s2).

(** Matching by derivatives. *)
Fixpoint nullable (r : regex) : bool :=
  match r with
  | Empty => false
  | Eps => true
  | Class _ => false
  | Cat r1 r2 => nullable r1 && nullable r2
  | Alt r1 r2 => nullable r1 || nullable r2
  | Star _ => true
  end.

Fixpoint deriv (c : ascii) (r : regex) : regex :=
  match r with
  | Empty => Empty
  | Eps => Empty
  | Class p => if p c then Eps else Empty
  | Cat r1 r2 =>
      if nullable r1 then Alt (Cat (deriv c r1) r2) (deriv c r2)
      else Cat (deriv c r1) r2
  | Alt r1 r2 => Alt (deriv c r1) (deriv c r2)
  | Star r1 => Cat (deriv c r1) (Star r1)
  end.

(** [regexp.MatchString] for a pattern anchored by [^] and [$]: the whole
    string is in the pattern's language. *)
Fixpoint MatchString (r : regex) (s : string) : bool :=
  match s with
  | EmptyString => nullable r
  | String c rest => MatchString (deriv c r) rest
  end.

Definition between (lo hi : N) (c : ascii) : bool :=
  ((lo <=? N_of_ascii c) && (N_of_ascii c <=? hi))%N.

Definition is_lower : ascii -> bool := between 97 122.
Definition is_upper : ascii -> bool := between 65 90.
Definition is_digit : ascii -> bool := between 48 57.
Definition is_alpha (c : ascii) : bool := is_lower c || is_upper c.
Definition is_alnum (c : ascii) : bool := is_alpha c || is_digit c.

Definition one_of (set : string) (c : ascii) : bool :=
  negb (all_chars (fun x => negb (Ascii.eqb x c)) set).

(** The classes [[a-zA-Z0-9._%+-]], [[a-zA-Z0-9.-]] and [[a-zA-Z0-9_]]. *)
Definition local_char (c : ascii) : bool := is_alnum c || one_of "._%+-" c.
Definition domain_char (c : ascii) : bool := is_alnum c || one_of ".-" c.
Definition word_char (c : ascii) : bool := is_alnum c || one_of "_" c.

Definition Chr (c : ascii) : regex := Class (Ascii.eqb c).

(** The pattern of [IsValidEmail]:
    [^[a-zA-Z0-9._%+-]+@[a-zA-Z0-9.-]+\.[a-zA-Z]{2,}$]. *)
Definition emailRegex : regex :=
  Cat (Plus (Class local_char))
    (Cat (Chr "@")
       (Cat (Plus (Class domain_char))
          (Cat (Chr ".") (AtLeast2 (Class is_alpha))))).

(** The pattern of [IsValidUsername]: [^[a-zA-Z0-9_]+$]. *)
Definition usernameRegex : regex := Plus (Class word_char).

(** [IsValidEmail]. *)
Definition IsValidEmail (email : string) : bool := MatchString emailRegex email.

(** [IsValidPassword]. *)
Definition IsValidPassword (password : string) : bool :=
  if (String.length password <? 6)%nat then false else true.

(** [IsValidUsername]. *)
Definition IsValidUsername (username : string) : bool :=
  if (String.length username <? 3)%nat || (50 <? String.length username)%nat
  then false
  else MatchString usernameRegex username.

(** [TruncateString]; [None] is the panic of [s[:length]] on a negative
    length. *)
Definition TruncateString (s : string) (length : int) : option string :=
  if Z.of_nat (String.length s) <=? length then Some s
  else if length <? 0 then None
  else Some (String.substring 0 (Z.to_nat length) s).

End validation.

(** ** cmd/seed *)

Module seed.

Record Flags : Type := mkFlags {
  email : string;
  username : string;
  password : string;
  firstName : string;
  lastName : string
}.

(** How the command ends: what [fmt.Println] wrote before [os.Exit(1)];
    [log.Fatalf] with its formatted message; or a normal return with what the
    five [fmt.Printf] calls wrote. *)
Inductive Outcome : Type :=
| Usage (printed : string)
| Fatal (message : string)
| Done (printed : list string).

(** The line handed to [fmt.Println], which appends a newline to it. *)
Definition usage : string :=
  "Usage: go run cmd/seed/main.go -email=admin@example.com -username=admin -password=securepassword -first-name=Admin -last-name=User".

Definition check_mark : string :=
  String "226" (String "156" (String "133" EmptyString)).

Definition newline : string := String "010" EmptyString.

(** [main]. [loaded] and [opened] are the errors, if any, of [config.Load]
    and [repository.NewDatabase], neither of which is among the sources; the
    deferred [db.Close] of a normal return is not observed. *)
Definition main (flags : Flags) (loaded opened : option string) : Prog Outcome :=
  if String.eqb (email flags) "" || String.eqb (username flags) ""
     || String.eqb (password flags) "" || String.eqb (firstName flags) ""
     || String.eqb (lastName flags) ""
  then Ret (Usage (usage ++ newline))
  else
  match loaded with
  | Some err => Ret (Fatal ("Failed to load config: " ++ err))
  | None =>
  match opened with
  | Some err => Ret (Fatal ("Failed to connect to database: " ++ err))
  | None =>
  e <- call (RepoGetByEmail (email flags)) ;;
  match e with
  | Err err => Ret (Fatal ("Failed to check existing user: " ++ err))
  | Ok (Some _) =>
      Ret (Fatal ("User with email " ++ email flags ++ " already exists"))
  | Ok None =>
  n <- call (RepoGetByUsername (username flags)) ;;
  match n with
  | Err err => Ret (Fatal ("Failed to check existing username: " ++ err))
  | Ok (Some _) =>
      Ret (Fatal ("Username " ++ username flags ++ " is already taken"))
  | Ok None =>
  p <- call (BcryptGenerateFromPassword (password flags)) ;;
  match p with
  | Err err => Ret (Fatal ("Failed to hash password: " ++ err))
  | Ok hashedPassword =>
  let adminUser :=
    User.mk 0%N (email flags) (username flags) hashedPassword
      (firstName flags) (lastName flags) true true None 0 0 None in
  c <- call (RepoCreate adminUser) ;;
  match c with
  | Err err => Ret (Fatal ("Failed to create admin user: " ++ err))
  | Ok adminUser =>
      Ret (Done
             [check_mark ++ " Admin user created successfully!" ++ newline;
              "   Email: " ++ User.Email adminUser ++ newline;
              "   Username: " ++ User.Username adminUser ++ newline;
              "   ID: " ++ render_N (User.ID adminUser) ++ newline;
              "   Is Admin: "
                ++ (if User.IsAdmin adminUser then "true" else "false")
                ++ newline])
  end end end end end end.

End seed.

(** ** package middleware: what the gates log *)

(** The warning [RequireAdmin] logs with a rejection. *)
Definition middleware_admin_log (r : Request.t) : Event :=
  Ev (LogWrite (mkLog WarnLevel "Admin access required" None
                  [("user_id", CtxValue (Request.Context r) middleware.UserIDKey);
                   ("path", VString (Request.Path r))])) tt.

(** ** package routes: the groups of [SetupRoutes] *)

(** The routes registered inside the group that uses [JWTAuth]. *)
Definition protected_routes : list Route :=
  [POST_auth_logout; GET_auth_profile; GET_users; GET_users_id; PUT_users_id;
   DELETE_users_id; POST_admin_users].

(** ** Further test doubles *)

Module Cases.

(** Request bodies decode to the given login, respectively update. *)
Definition decoding_login (req : UserLoginRequest.t) (s : Mock.Script)
  : Mock.Script := fun c =>
  match c return Reply c with
  | DecodeLogin _ => Ok req
  | c' => s c'
  end.

Definition decoding_update (req : UserUpdateRequest.t) (s : Mock.Script)
  : Mock.Script := fun c =>
  match c return Reply c with
  | DecodeUpdate _ => Ok req
  | c' => s c'
  end.

(** The validator refuses every registration. *)
Definition refusing (msg : string) (s : Mock.Script) : Mock.Script := fun c =>
  match c return Reply c with
  | ValidateCreate _ => Some msg
  | c' => s c'
  end.

(** A request as it leaves [JWTAuth] for an administrator, and one whose
    context holds a string under the admin key. *)
Definition from_admin : Request.t :=
  Request.mk "/api/v1/admin/users" [] [] [] ""
    (middleware.withClaims [] (Claims.mk 9%N "root@example.com" true 4600)).

Definition mistyped : Request.t :=
  Request.mk "/api/v1/admin/users" [] [] [] ""
    [(middleware.IsAdminKey, VString "true")].

(** A request that came through two proxies. *)
Definition forwarded : Request.t :=
  Request.mk "/health" [("X-Forwarded-For", "203.0.113.7, 10.0.0.2");
                        ("X-Real-IP", "10.0.0.2")] [] [] "" [].

Definition seed_root : seed.Flags :=
  seed.mkFlags "root@example.com" "root" "toor" "Root" "Admin".

Definition seed_eve : seed.Flags :=
  seed.mkFlags "eve@example.com" "eve" "apple" "Eve" "Adams".

End Cases.

(** * Programs and traces *)

Section Running.
Context {W : Type} (h : Env W).

Lemma run_bind {A B : Type} (p : Prog A) (f : A -> Prog B) (w : W) :
  run h (bind p f) w =
  let '(a, tr1, w1) := run h p w in
  let '(b, tr2, w2) := run h (f a) w1 in
  (b, (tr1 ++ tr2)%list, w2).
Proof.
  revert w. induction p as [a | c k IH]; intros w; simpl.
  - destruct (run h (f a) w) as [[b tr2] w2]. reflexivity.
  - rewrite IH.
    destruct (run h (k (fst (h c w))) (snd (h c w))) as [[a tr1] w1'].
    simpl. destruct (run h (f a) w1') as [[b tr2] w2]. reflexivity.
Qed.

Lemma AllCalls_run {A : Type} (P : Call -> Prop) (p : Prog A) :
  AllCalls P p -> forall w, Forall (fun e => P (call_of e)) (trace_of (run h p w)).
Proof.
  induction 1 as [a | c k Hc _ IH]; intros w; simpl.
  - constructor.
  - constructor; [assumption | apply IH].
Qed.

End Running.

Lemma AllCalls_bind {A B : Type} (P : Call -> Prop) (p : Prog A) (f : A -> Prog B) :
  AllCalls P p -> (forall a, AllCalls P (f a)) -> AllCalls P (bind p f).
Proof.
  induction 1 as [a | c k Hc _ IH]; intros Hf; simpl.
  - apply Hf.
  - constructor; [assumption | intros r; apply IH, Hf].
Qed.

(** * Events *)

Lemma Value_eq_dec (a b : Value) : {a = b} + {a <> b}.
Proof.
  decide equality; auto using N.eq_dec, string_dec, bool_dec.
Qed.

Lemma User_eq_dec (a b : User.t) : {a = b} + {a <> b}.
Proof.
  decide equality;
    auto using N.eq_dec, Z.eq_dec, string_dec, bool_dec;
    decide equality; auto using Z.eq_dec.
Qed.

Lemma LogEntry_eq_dec (a b : LogEntry) : {a = b} + {a <> b}.
Proof.
  decide equality.
  - apply list_eq_dec. decide equality; auto using Value_eq_dec, string_dec.
  - decide equality; auto using string_dec.
  - apply string_dec.
  - decide equality.
Qed.

Lemma Call_eq_dec (a b : Call) : {a = b} + {a <> b}.
Proof.
  decide equality;
    auto using N.eq_dec, Z.eq_dec, string_dec, User_eq_dec, LogEntry_eq_dec;
    decide equality; auto using string_dec;
    decide equality; auto using string_dec, bool_dec.
Qed.

Lemma Ev_inj (c : Call) (r1 r2 : Reply c) : Ev c r1 = Ev c r2 -> r1 = r2.
Proof.
  apply inj_pair2_eq_dec, Call_eq_dec.
Qed.

Lemma Ev_call (c1 c2 : Call) (r1 : Reply c1) (r2 : Reply c2) :
  Ev c1 r1 = Ev c2 r2 -> c1 = c2.
Proof.
  intros E. exact (f_equal call_of E).
Qed.

(** * The token codec *)

Lemma append_assoc (a b c : string) : (a ++ b) ++ c = a ++ (b ++ c).
Proof.
  induction a as [| x a IH]; simpl; [reflexivity | now rewrite IH].
Qed.

Lemma split_colon_app (a b : string) :
  no_colon a -> split_colon (a ++ String ":" b) = Some (a, b).
Proof.
  induction a as [| x a IH]; simpl; intros Ha.
  - reflexivity.
  - destruct Ha as [Hx Ha]. rewrite Hx, (IH Ha). reflexivity.
Qed.

Lemma split_at_app (a b : string) :
  split_at (String.length a) (a ++ b) = Some (a, b).
Proof.
  induction a as [| x a IH]; simpl.
  - reflexivity.
  - rewrite IH. reflexivity.
Qed.

Lemma no_colon_uint (d : Decimal.uint) : no_colon (NilEmpty.string_of_uint d).
Proof.
  induction d; simpl; auto.
Qed.

Lemma no_colon_render_N (n : N) : no_colon (render_N n).
Proof. apply no_colon_uint. Qed.

Lemma no_colon_render_Z (z : Z) : no_colon (render_Z z).
Proof.
  unfold render_Z. simpl. split.
  - destruct (z <? 0); reflexivity.
  - apply no_colon_render_N.
Qed.

Lemma no_colon_render_bool (b : bool) : no_colon (render_bool b).
Proof. destruct b; simpl; auto. Qed.

Lemma parse_render_N (n : N) : parse_N (render_N n) = Some n.
Proof.
  unfold parse_N, render_N. rewrite NilEmpty.usu. simpl.
  now rewrite DecimalN.Unsigned.of_to.
Qed.

Lemma parse_render_Z (z : Z) : parse_Z (render_Z z) = Some z.
Proof.
  unfold parse_Z, render_Z.
  destruct (z <? 0) eqn:E; rewrite parse_render_N; simpl; f_equal.
  - apply Z.ltb_lt in E. rewrite N2Z.inj_abs_N. lia.
  - apply Z.ltb_ge in E. rewrite N2Z.inj_abs_N. lia.
Qed.

Lemma parse_render_bool (b : bool) : parse_bool (render_bool b) = Some b.
Proof. destruct b; reflexivity. Qed.

Lemma decode_signing_input (c : Claims.t) (tag : string) :
  decode (signing_input c ++ tag) = Some (c, tag).
Proof.
  destruct c as [uid email adm exp].
  unfold decode, signing_input. cbn [Claims.UserID Claims.Email Claims.IsAdmin Claims.ExpiresAt].
  repeat rewrite append_assoc. cbn [append].
  rewrite (split_colon_app _ _ (no_colon_render_N uid)), parse_render_N.
  rewrite (split_colon_app _ _ (no_colon_render_Z exp)), parse_render_Z.
  rewrite (split_colon_app _ _ (no_colon_render_bool adm)), parse_render_bool.
  rewrite (split_colon_app _ _ (no_colon_render_N _)), parse_render_N.
  rewrite Nat2N.id, split_at_app. reflexivity.
Qed.

Lemma parse_sign `{MAC} (c : Claims.t) (secret : string) (now : Time) :
  now <= Claims.ExpiresAt c -> parse (sign c secret) secret now = Ok c.
Proof.
  intros Hnow. unfold parse, sign. rewrite decode_signing_input.
  rewrite String.eqb_refl.
  destruct (now >? Claims.ExpiresAt c) eqn:E; [| reflexivity].
  apply Z.gtb_lt in E. lia.
Qed.

Lemma parse_sign_expired `{MAC} (c : Claims.t) (secret : string) (now : Time) :
  Claims.ExpiresAt c < now -> parse (sign c secret) secret now = Err "token is expired".
Proof.
  intros Hnow. unfold parse, sign. rewrite decode_signing_input.
  rewrite String.eqb_refl.
  destruct (now >? Claims.ExpiresAt c) eqn:E; [reflexivity |].
  rewrite Z.gtb_ltb in E. apply Z.ltb_ge in E. lia.
Qed.

(** * Stepping through programs

    [exec] runs a program symbolically: it unfolds [run], asks for the
    environment's answer at each call and splits on every value the program
    inspects. [settle] then reads trace hypotheses as equations between
    events. *)

(** The value a program is waiting to inspect, under any number of binds. *)
Ltac case_head p :=
  lazymatch p with
  | bind ?q _ => case_head q
  | match ?r with Ok _ => _ | Err _ => _ end => destruct r
  | match ?r with Some _ => _ | None => _ end => destruct r
  | let (_, _) := ?r in _ => destruct r
  | if ?b then _ else _ => destruct b eqn:?
  end.

Ltac exec1 :=
  first
  [ progress cbn [run value_of trace_of fst snd bind call logf wrapf]
  | match goal with
    | E : ?h ?c ?w = _ |- context [fst (?h ?c ?w)] =>
        rewrite E; cbn [fst snd]
    | |- context [fst (?h ?c ?w)] =>
        lazymatch type of c with Call => idtac end;
        let r := fresh "r" in
        destruct (h c w) as [r ?]; cbn [fst snd]; cbn [Reply] in r;
        try match type of r with unit => destruct r end
    | E : ?r = _ |- context [run _ (match ?r with Ok _ => _ | Err _ => _ end) _] =>
        rewrite E
    | |- context [run _ ?p _] => case_head p
    end ].

Ltac all_calls :=
  repeat first
    [ progress cbn [bind call logf wrapf]
    | apply AllCalls_Ret
    | apply AllCalls_Do; [ simpl; auto | intros ? ]
    | match goal with |- AllCalls _ ?p => case_head p end ].

Ltac exec := repeat exec1.

(** Name the value and the trace of the run in the goal, so that stepping
    through the program touches two occurrences only. *)
Ltac focus_run :=
  match goal with
  | |- context [run ?h ?p ?w] =>
      let v := fresh "v" in
      let tr := fresh "tr" in
      let Hv := fresh "Hv" in
      let Htr := fresh "Htr" in
      remember (value_of (run h p w)) as v eqn:Hv;
      remember (trace_of (run h p w)) as tr eqn:Htr;
      revert Hv Htr
  end.

Ltac run_all :=
  focus_run; exec;
  let Hv := fresh "Hv" in
  let Htr := fresh "Htr" in
  intros Hv Htr; rewrite Hv, Htr; clear Hv Htr.

Ltac inj_eqs :=
  repeat match goal with
  | E : Ok _ = Ok _ |- _ => injection E as E; try subst
  | E : Err _ = Err _ |- _ => injection E as E; try subst
  | E : Some _ = Some _ |- _ => injection E as E; try subst
  | E : (_, _) = (_, _) |- _ => injection E as ? ?; try subst
  | E : Ok _ = Err _ |- _ => discriminate E
  | E : Err _ = Ok _ |- _ => discriminate E
  | E : Some _ = None |- _ => discriminate E
  | E : None = Some _ |- _ => discriminate E
  | E : true = false |- _ => discriminate E
  | E : false = true |- _ => discriminate E
  end.

Ltac ev_clean :=
  repeat match goal with
  | E : In _ (map call_of _) |- _ => cbn [map call_of projT1 Ev] in E
  | E : In _ (_ :: _) |- _ => destruct E
  | E : In _ [] |- _ => destruct E
  | E : Ev ?c _ = Ev ?c _ |- _ => apply Ev_inj in E; inj_eqs
  | E : Ev _ _ = Ev _ _ |- _ => discriminate E
  | E : Ev ?c1 _ = Ev ?c2 _ |- _ =>
      let Hc := fresh "Hc" in
      pose proof (Ev_call _ _ _ _ E) as Hc;
      try (injection Hc; intros; subst); clear Hc;
      apply Ev_inj in E; inj_eqs
  | E : @eq Call _ _ |- _ => discriminate E
  | E : @eq Call _ _ |- _ => injection E as E; try subst
  end.

Ltac bools :=
  repeat match goal with
  | Hb : negb _ = true |- _ => apply negb_true_iff in Hb
  | Hb : negb _ = false |- _ => apply negb_false_iff in Hb
  | Hb : (_ && _)%bool = true |- _ => apply andb_true_iff in Hb; destruct Hb
  | Hb : (_ || _)%bool = false |- _ => apply orb_false_iff in Hb; destruct Hb
  | Hb : String.eqb _ _ = true |- _ => apply String.eqb_eq in Hb; try subst
  | Hb : String.eqb _ _ = false |- _ => apply String.eqb_neq in Hb
  end.

Ltac conjs := repeat (intros; match goal with |- _ /\ _ => split end); intros.

Ltac settle :=
  conjs; ev_clean; bools; simpl; try congruence; auto;
  try (repeat constructor; fail);
  try (do 2 eexists; reflexivity);
  try (simpl; intuition discriminate).

(** * The request gate *)

Lemma substring_0_length (s : string) : String.substring 0 (String.length s) s = s.
Proof.
  induction s as [| c s IH]; simpl; [reflexivity | now rewrite IH].
Qed.

Lemma HasPrefix_Bearer (token : string) :
  HasPrefix ("Bearer " ++ token) "Bearer " = true.
Proof. unfold HasPrefix. simpl. destruct token; reflexivity. Qed.

Lemma TrimPrefix_Bearer (token : string) :
  TrimPrefix ("Bearer " ++ token) "Bearer " = token.
Proof.
  unfold TrimPrefix. rewrite HasPrefix_Bearer. simpl.
  rewrite Nat.sub_0_r. apply substring_0_length.
Qed.

(** The identity a handler finds in a context extended by the gate. *)
Lemma withClaims_identity (ctx : Ctx) (claims : Claims.t) :
  middleware.GetUserIDFromContext (middleware.withClaims ctx claims)
    = (Claims.UserID claims, true) /\
  middleware.GetUserEmailFromContext (middleware.withClaims ctx claims)
    = (Claims.Email claims, true) /\
  middleware.GetIsAdminFromContext (middleware.withClaims ctx claims)
    = (Claims.IsAdmin claims, true).
Proof. repeat split. Qed.

Section Gate.
Context `{MAC} {W : Type} (h : Env W).

Lemma JWTAuth_valid_token (w : W) (jwtSecret : string) (next : Handler)
    (r : Request.t) (claims : Claims.t) :
  let authHeader := Get (Request.Header r) "Authorization" in
  let token := TrimPrefix authHeader "Bearer " in
  HasPrefix authHeader "Bearer " = true ->
  token <> "" ->
  parse token jwtSecret (fst (h TimeNow w)) = Ok claims ->
  let handed :=
    run h (next (Request.WithContext r
                   (middleware.withClaims (Request.Context r) claims)))
      (snd (h TimeNow w)) in
  value_of (run h (middleware.JWTAuth jwtSecret next r) w) = value_of handed /\
  trace_of (run h (middleware.JWTAuth jwtSecret next r) w) =
    Ev TimeNow (fst (h TimeNow w)) :: trace_of handed.
Proof.
  intros authHeader token Hp Ht Hc handed. subst handed.
  unfold middleware.JWTAuth, ValidateJWT. fold authHeader. fold token.
  destruct (String.eqb_spec authHeader "") as [E1 | E1].
  { rewrite E1 in Hp. discriminate Hp. }
  rewrite Hp. cbn [negb].
  destruct (String.eqb_spec token "") as [E3 | E3]; [contradiction |].
  cbn [run value_of trace_of fst snd bind call logf]. rewrite Hc.
  split; reflexivity.
Qed.

(** C2. On a mandatory-auth route the gate's behaviour is an exhaustive case
    split on the [Authorization] header: absent, 401; not prefixed with
    "Bearer ", 401; empty token after the prefix, 401; a token the codec
    rejects, 401 with one fixed body whatever the codec's error (expiry and
    signature failure are not told apart); otherwise the next handler runs on
    the request whose context carries the claims' user id, e-mail and admin
    flag. A rejection logs one warning and never reaches the next handler. *)
Theorem JWTAuth_case_split (w : W) (jwtSecret : string) (next : Handler)
    (r : Request.t) :
  let authHeader := Get (Request.Header r) "Authorization" in
  let token := TrimPrefix authHeader "Bearer " in
  let now := fst (h TimeNow w) in
  let o := run h (middleware.JWTAuth jwtSecret next r) w in
  (authHeader = "" ->
     value_of o = WriteErrorResponse StatusUnauthorized
                    "Authorization header required" None /\
     trace_of o = [middleware.gate_log "Missing authorization header" None r]) /\
  (authHeader <> "" -> HasPrefix authHeader "Bearer " = false ->
     value_of o = WriteErrorResponse StatusUnauthorized
                    "Invalid authorization header format" None /\
     trace_of o = [middleware.gate_log "Invalid authorization header format" None r]) /\
  (HasPrefix authHeader "Bearer " = true -> token = "" ->
     value_of o = WriteErrorResponse StatusUnauthorized "Token required" None /\
     trace_of o = [middleware.gate_log "Empty token" None r]) /\
  (HasPrefix authHeader "Bearer " = true -> token <> "" ->
   forall err, parse token jwtSecret now = Err err ->
     value_of o = WriteErrorResponse StatusUnauthorized "Invalid token" None /\
     trace_of o = [Ev TimeNow now; middleware.gate_log "Invalid token" (Some err) r]) /\
  (HasPrefix authHeader "Bearer " = true -> token <> "" ->
   forall claims, parse token jwtSecret now = Ok claims ->
     let r' := Request.WithContext r
                 (middleware.withClaims (Request.Context r) claims) in
     let o' := run h (next r') (snd (h TimeNow w)) in
     value_of o = value_of o' /\
     trace_of o = Ev TimeNow now :: trace_of o' /\
     middleware.GetUserIDFromContext (Request.Context r')
       = (Claims.UserID claims, true) /\
     middleware.GetUserEmailFromContext (Request.Context r')
       = (Claims.Email claims, true) /\
     middleware.GetIsAdminFromContext (Request.Context r')
       = (Claims.IsAdmin claims, true)) /\
  (authHeader = "" \/
   (authHeader <> "" /\ HasPrefix authHeader "Bearer " = false) \/
   (HasPrefix authHeader "Bearer " = true /\ token = "") \/
   (HasPrefix authHeader "Bearer " = true /\ token <> "" /\
    ((exists err, parse token jwtSecret now = Err err) \/
     (exists claims, parse token jwtSecret now = Ok claims)))).
Proof.
  intros authHeader token now o.
  assert (Hhdr : authHeader = "" ->
                 HasPrefix authHeader "Bearer " = true -> False).
  { intros E. rewrite E. discriminate. }
  unfold o, now, middleware.JWTAuth, ValidateJWT, middleware.gate_log. clear o now.
  fold authHeader. fold token.
  destruct (h TimeNow w) as [t w1] eqn:Enow. cbn [fst snd].
  destruct (String.eqb_spec authHeader "") as [E1 | E1].
  { exec. conjs; try congruence; try (exfalso; eauto; fail); auto. }
  destruct (HasPrefix authHeader "Bearer ") eqn:E2; cbn [negb].
  2: { exec. conjs; try congruence; auto. }
  destruct (String.eqb_spec token "") as [E3 | E3].
  { exec. conjs; try congruence; auto 6. }
  destruct (parse token jwtSecret t) as [claims | err] eqn:E4; exec;
    conjs; try congruence;
    try match goal with
        | Hc : Ok _ = Ok _ |- _ => injection Hc as <-
        | Hc : Err _ = Err _ |- _ => injection Hc as <-
        end; try reflexivity.
  - right; right; right. repeat split; auto. right; eauto.
  - right; right; right. repeat split; auto. left; eauto.
Qed.

End Gate.

Section GateAndService.
Context `{MAC} {W : Type} (h : Env W).

Lemma JWTAuth_no_repo_call (jwtSecret : string) (resp : Response) (r : Request.t) :
  AllCalls (fun c => is_repo_call c = false)
    (middleware.JWTAuth jwtSecret (fun _ => Ret resp) r).
Proof.
  unfold middleware.JWTAuth, ValidateJWT.
  repeat first
    [ progress cbn [bind call logf]
    | apply AllCalls_Ret
    | apply AllCalls_Do; [ reflexivity | intros ? ]
    | match goal with
      | |- AllCalls _ (match ?x with Ok _ => _ | Err _ => _ end) => destruct x
      | |- AllCalls _ (if ?b then _ else _) => destruct b
      end ].
Qed.

(** C1 (amended). The gate decides from the header, the secret and the clock
    alone: a request bearing a token that parses (signature valid, not
    expired) is handed to the next handler after a single clock reading, the
    gate itself never calls the repository on any request. Account status is
    re-validated from the store by [authService.ValidateToken] only, which
    looks the account up by the token's user id and fails with "user account is
    deactivated" for an inactive account and "user not found" for a deleted
    one. *)
Theorem gate_trusts_token_service_checks_store (w : W) (cfg : Config)
    (next : Handler) (r : Request.t) (token : string) (claims : Claims.t) :
  Get (Request.Header r) "Authorization" = "Bearer " ++ token ->
  token <> "" ->
  parse token (JWTSecret cfg) (fst (h TimeNow w)) = Ok claims ->
  let r' := Request.WithContext r
              (middleware.withClaims (Request.Context r) claims) in
  let gate := run h (middleware.JWTAuth (JWTSecret cfg) next r) w in
  let handed := run h (next r') (snd (h TimeNow w)) in
  let svc := run h (authService.ValidateToken cfg token) w in
  (value_of gate = value_of handed /\
   trace_of gate = Ev TimeNow (fst (h TimeNow w)) :: trace_of handed) /\
  (forall resp r0,
     AllCalls (fun c => is_repo_call c = false)
       (middleware.JWTAuth (JWTSecret cfg) (fun _ => Ret resp) r0)) /\
  called (trace_of svc) (RepoGetByID (Claims.UserID claims)) /\
  (forall u, answered (trace_of svc) (RepoGetByID (Claims.UserID claims))
               (Ok (Some u)) ->
             User.IsActive u = false ->
             value_of svc = Err "user account is deactivated") /\
  (answered (trace_of svc) (RepoGetByID (Claims.UserID claims)) (Ok None) ->
   value_of svc = Err "user not found").
Proof.
  intros Hhdr Htok Hparse r' gate handed svc.
  split.
  { pose proof (JWTAuth_valid_token h w (JWTSecret cfg) next r claims) as C.
    cbv zeta in C. rewrite Hhdr, TrimPrefix_Bearer, HasPrefix_Bearer in C.
    exact (C eq_refl Htok Hparse). }
  split. { intros resp r0. apply JWTAuth_no_repo_call. }
  unfold svc, authService.ValidateToken, ValidateJWT, answered, called.
  clear gate handed svc r'.
  destruct (h TimeNow w) as [t w1] eqn:Enow. cbn [fst snd] in Hparse.
  exec; settle.
Qed.

End GateAndService.

(** * The account service *)

Section Login.
Context `{MAC}.

(** C3. A login with an e-mail no account has and a login with an active
    account's e-mail and a wrong password fail with the same error,
    "invalid credentials"; a login against a deactivated account fails with
    the different error "account is deactivated". *)
Theorem Login_failures_do_not_enumerate
    {W1 W2 W3 : Type} (h1 : Env W1) (h2 : Env W2) (h3 : Env W3)
    (w1 : W1) (w2 : W2) (w3 : W3) (cfg : Config)
    (req1 req2 req3 : UserLoginRequest.t) (u2 u3 : User.t) :
  let o1 := run h1 (userService.Login cfg req1) w1 in
  let o2 := run h2 (userService.Login cfg req2) w2 in
  let o3 := run h3 (userService.Login cfg req3) w3 in
  answered (trace_of o1) (RepoGetByEmail (UserLoginRequest.Email req1)) (Ok None) ->
  answered (trace_of o2) (RepoGetByEmail (UserLoginRequest.Email req2))
    (Ok (Some u2)) ->
  User.IsActive u2 = true ->
  answered (trace_of o2)
    (BcryptCompareHashAndPassword (User.Password u2)
       (UserLoginRequest.Password req2)) false ->
  answered (trace_of o3) (RepoGetByEmail (UserLoginRequest.Email req3))
    (Ok (Some u3)) ->
  User.IsActive u3 = false ->
  value_of o1 = Err "invalid credentials" /\
  value_of o2 = Err "invalid credentials" /\
  value_of o1 = value_of o2 /\
  value_of o3 = Err "account is deactivated" /\
  value_of o3 <> value_of o1.
Proof.
  intros o1 o2 o3 A1 A2 Act2 P2 A3 Act3.
  assert (V1 : value_of o1 = Err "invalid credentials").
  { revert A1. unfold o1, answered, userService.Login,
      authService.GenerateToken, GenerateJWT.
    run_all; settle. }
  assert (V2 : value_of o2 = Err "invalid credentials").
  { revert A2 P2. unfold o2, answered, userService.Login,
      authService.GenerateToken, GenerateJWT.
    run_all; settle. }
  assert (V3 : value_of o3 = Err "account is deactivated").
  { revert A3. unfold o3, answered, userService.Login,
      authService.GenerateToken, GenerateJWT.
    run_all; settle. }
  rewrite V1, V2, V3. repeat split; discriminate.
Qed.

(** C9. When the credentials are right, the account is active and the
    last-login update fails, the login still returns the issued token and the
    user's representation; the failure is logged as a warning. *)
Theorem Login_survives_last_login_failure {W : Type} (h : Env W) (w : W)
    (cfg : Config) (req : UserLoginRequest.t) (u : User.t) (e : string) :
  let o := run h (userService.Login cfg req) w in
  answered (trace_of o) (RepoGetByEmail (UserLoginRequest.Email req))
    (Ok (Some u)) ->
  User.IsActive u = true ->
  answered (trace_of o)
    (BcryptCompareHashAndPassword (User.Password u)
       (UserLoginRequest.Password req)) true ->
  answered (trace_of o) (RepoUpdateLastLogin (User.ID u)) (Err e) ->
  exists issued : Time,
    answered (trace_of o) TimeNow issued /\
    value_of o =
      Ok (sign (Claims.mk (User.ID u) (User.Email u) (User.IsAdmin u)
                  (issued + JWTExpiry cfg)) (JWTSecret cfg),
          ToResponse u) /\
    answered (trace_of o)
      (LogWrite (mkLog WarnLevel "Failed to update last login" (Some e)
                   [("user_id", VUint (User.ID u))])) tt.
Proof.
  intros o. unfold o, answered, userService.Login,
    authService.GenerateToken, GenerateJWT.
  run_all; intros; ev_clean; bools; try congruence; try discriminate.
  eexists. split; [| split].
  - simpl. do 2 right. left. reflexivity.
  - reflexivity.
  - simpl. tauto.
Qed.

End Login.

Section Create.
Context {W : Type} (h : Env W).

(** C4. Whatever [Create] hands to the store is active and not an
    administrator. [Create] asks for the e-mail first; with the e-mail free
    it goes on to ask for the username, with both free it goes on to hash
    the password, with the password hashed it hands the new account to the
    store, and what the store answers is returned. With the e-mail taken the
    operation fails with "user with this email already exists", with the
    username taken it fails with "username is already taken", in both cases
    without a write to the store; when the e-mail is taken the username is
    not looked up at all. *)
Theorem Create_flags_and_conflicts (w : W) (req : UserCreateRequest.t) :
  let o := run h (userService.Create req) w in
  let email := UserCreateRequest.Email req in
  let username := UserCreateRequest.Username req in
  (* whatever is handed to the store is active and not an admin *)
  (forall u, called (trace_of o) (RepoCreate u) ->
     User.IsActive u = true /\ User.IsAdmin u = false /\
     User.Email u = email /\ User.Username u = username) /\
  (* both free: the password is hashed, the account is handed to the store,
     and what the store answers is returned *)
  (answered (trace_of o) (RepoExistsByEmail email) (Ok false) ->
   called (trace_of o) (RepoExistsByUsername username) /\
   (answered (trace_of o) (RepoExistsByUsername username) (Ok false) ->
    called (trace_of o)
      (BcryptGenerateFromPassword (UserCreateRequest.Password req)) /\
    forall hashed,
    answered (trace_of o)
      (BcryptGenerateFromPassword (UserCreateRequest.Password req)) (Ok hashed) ->
    called (trace_of o) (RepoCreate (userService.newUser req hashed)) /\
    forall stored,
      answered (trace_of o) (RepoCreate (userService.newUser req hashed))
        (Ok stored) ->
      value_of o = Ok (ToResponse stored))) /\
  (* e-mail taken *)
  (answered (trace_of o) (RepoExistsByEmail email) (Ok true) ->
   value_of o = Err "user with this email already exists" /\
   no_write (trace_of o) /\
   ~ called (trace_of o) (RepoExistsByUsername username)) /\
  (* username taken *)
  (answered (trace_of o) (RepoExistsByUsername username) (Ok true) ->
   value_of o = Err "username is already taken" /\
   no_write (trace_of o)) /\
  (* the e-mail is looked up first *)
  (exists r rest, trace_of o = Ev (RepoExistsByEmail email) r :: rest).
Proof.
  intros o email username.
  unfold o, email, username, answered, called, no_write, userService.Create.
  run_all; settle.
Qed.

End Create.

Section Update.
Context {W : Type} (h : Env W).



End Update.

(** * Pagination arithmetic *)

Lemma wrap64_small (z : Z) : MinInt64 <= z <= MaxInt64 -> wrap64 z = z.
Proof.
  unfold wrap64, MinInt64, MaxInt64. intros Hz.
  rewrite Z.mod_small; lia.
Qed.

Lemma wrap64_sub_l (x y : Z) : wrap64 (wrap64 x - y) = wrap64 (x - y).
Proof.
  unfold wrap64. f_equal.
  replace ((x + 2 ^ 63) mod 2 ^ 64 - 2 ^ 63 - y + 2 ^ 63)
    with ((x + 2 ^ 63) mod 2 ^ 64 - y) by ring.
  rewrite Zminus_mod_idemp_l. f_equal. ring.
Qed.

Lemma offset_exact (page limit : int) :
  1 <= page -> 1 <= limit -> (page - 1) * limit <= MaxInt64 ->
  mul64 (sub64 page 1) limit = (page - 1) * limit.
Proof.
  intros Hp Hl Hb. unfold mul64, sub64.
  assert (Hp1 : page - 1 <= MaxInt64) by nia.
  rewrite (wrap64_small (page - 1)) by (unfold MinInt64, MaxInt64 in *; lia).
  apply wrap64_small. unfold MinInt64, MaxInt64 in *. nia.
Qed.

Lemma totalPages_ceil (total : int64) (limit : int) :
  0 <= total -> 1 <= limit -> total + limit - 1 <= MaxInt64 ->
  exists tp, totalPages total limit = Some tp /\
             (tp - 1) * limit < total <= tp * limit.
Proof.
  intros Ht Hl Hb. unfold totalPages, div64, add64, sub64.
  rewrite wrap64_sub_l.
  rewrite (wrap64_small (total + limit - 1))
    by (unfold MinInt64, MaxInt64 in *; lia).
  destruct (limit =? 0) eqn:E; [apply Z.eqb_eq in E; lia |].
  rewrite Z.quot_div_nonneg by lia.
  assert (Hq : 0 <= (total + limit - 1) / limit <= total + limit - 1).
  { split; [apply Z.div_pos; lia |].
    apply Z.div_le_upper_bound; nia. }
  rewrite wrap64_small by (unfold MinInt64, MaxInt64 in *; lia).
  eexists. split; [reflexivity |].
  pose proof (Z.div_mod (total + limit - 1) limit ltac:(lia)) as D.
  pose proof (Z.mod_pos_bound (total + limit - 1) limit ltac:(lia)) as M.
  nia.
Qed.

Section List.
Context {W : Type} (h : Env W).

(** C8 (amended). For page >= 1 and limit >= 1 with (page - 1) * limit within
    the range of [int], the store is queried with offset (page - 1) * limit;
    for 0 <= total with total + limit - 1 within the range of [int64] the
    paginated response reports the ceiling of total / limit as total_pages. At
    page 2, limit 10 the offset is 10; for total 25, limit 10 there are 3
    pages. *)
Theorem List_offset_and_total_pages (w : W) (page limit : int) :
  1 <= page -> 1 <= limit ->
  (page - 1) * limit <= MaxInt64 ->
  (exists r rest,
     trace_of (run h (userService.List page limit) w) =
     Ev (RepoList limit ((page - 1) * limit)) r :: rest) /\
  (forall (total : int64) (data : Payload) (message : string),
     0 <= total -> total + limit - 1 <= MaxInt64 ->
     exists tp,
       (tp - 1) * limit < total <= tp * limit /\
       WritePaginatedResponse StatusOK message data total page limit =
       Some (WriteJSONResponse StatusOK
               (mkAPIResponse true message
                  (Some (PPage data total page limit tp)) None))) /\
  mul64 (sub64 2 1) 10 = 10 /\
  totalPages 25 10 = Some 3.
Proof.
  intros Hp Hl Hb. split; [| split; [| split; reflexivity]].
  - unfold userService.List. rewrite (offset_exact page limit Hp Hl Hb).
    cbn [run trace_of fst snd bind call]. eauto.
  - intros total data message Ht Hb'.
    destruct (totalPages_ceil total limit Ht Hl Hb') as (tp & E & C).
    exists tp. split; [exact C |].
    unfold WritePaginatedResponse. rewrite E. reflexivity.
Qed.

End List.

(** * Handlers and store failures *)

Section StoreFailures.
Context `{MAC} {W : Type} (h : Env W).

(** C6 (amended). When the store fails during a list request the handler
    answers 500 with the generic message "Failed to retrieve users" and no
    error detail. When the store fails on a call whose error the service
    returns, every other user handler answers with its one client-error
    status: create, update and delete 400, get-by-id and profile 404, login
    401. A failure of the last-login update during a login is not returned
    by the service: the login is answered 200. *)
Theorem store_failure_responses (w : W) (cfg : Config) (r : Request.t) :
  let list := run h (UserHandler.List r) w in
  let create := run h (UserHandler.Create r) w in
  let get := run h (UserHandler.GetByID r) w in
  let update := run h (UserHandler.Update r) w in
  let delete := run h (UserHandler.Delete r) w in
  let login := run h (UserHandler.Login cfg r) w in
  let profile := run h (UserHandler.Profile r) w in
  let generic := WriteErrorResponse StatusInternalServerError
                   "Failed to retrieve users" None in
  ((forall limit offset e,
      answered (trace_of list) (RepoList limit offset) (Err e) ->
      value_of list = generic) /\
   (forall e,
      answered (trace_of list) RepoCount (Err e) -> value_of list = generic)) /\
  ((forall email e,
      answered (trace_of create) (RepoExistsByEmail email) (Err e) ->
      StatusCode (value_of create) = StatusBadRequest) /\
   (forall username e,
      answered (trace_of create) (RepoExistsByUsername username) (Err e) ->
      StatusCode (value_of create) = StatusBadRequest) /\
   (forall u e,
      answered (trace_of create) (RepoCreate u) (Err e) ->
      StatusCode (value_of create) = StatusBadRequest)) /\
  (forall id e,
     answered (trace_of get) (RepoGetByID id) (Err e) ->
     StatusCode (value_of get) = StatusNotFound) /\
  ((forall id e,
      answered (trace_of update) (RepoGetByID id) (Err e) ->
      StatusCode (value_of update) = StatusBadRequest) /\
   (forall email e,
      answered (trace_of update) (RepoExistsByEmail email) (Err e) ->
      StatusCode (value_of update) = StatusBadRequest) /\
   (forall username e,
      answered (trace_of update) (RepoExistsByUsername username) (Err e) ->
      StatusCode (value_of update) = StatusBadRequest) /\
   (forall u e,
      answered (trace_of update) (RepoUpdate u) (Err e) ->
      StatusCode (value_of update) = StatusBadRequest)) /\
  ((forall id e,
      answered (trace_of delete) (RepoGetByID id) (Err e) ->
      StatusCode (value_of delete) = StatusBadRequest) /\
   (forall id e,
      answered (trace_of delete) (RepoDelete id) (Err e) ->
      StatusCode (value_of delete) = StatusBadRequest)) /\
  ((forall email e,
      answered (trace_of login) (RepoGetByEmail email) (Err e) ->
      StatusCode (value_of login) = StatusUnauthorized) /\
   (forall id e,
      answered (trace_of login) (RepoUpdateLastLogin id) (Err e) ->
      StatusCode (value_of login) = StatusOK)) /\
  (forall id e,
     answered (trace_of profile) (RepoGetByID id) (Err e) ->
     StatusCode (value_of profile) = StatusNotFound).
Proof.
  intros list create get update delete login profile generic.
  subst list create get update delete login profile generic.
  unfold answered.
  repeat match goal with |- _ /\ _ => split end;
    unfold UserHandler.List, UserHandler.Create, UserHandler.GetByID,
      UserHandler.Update, UserHandler.Delete, UserHandler.Login,
      UserHandler.Profile,
      userService.List, userService.Create, userService.GetByID,
      userService.Update, userService.updateEmail, userService.updateUsername,
      userService.Delete, userService.Login, authService.GenerateToken,
      GenerateJWT, middleware.Recovered;
    run_all; settle.
Qed.

End StoreFailures.

(** * Routes *)

Section Routes.
Context `{MAC}.

Lemma JWTAuth_AllCalls (P : Call -> Prop) (jwtSecret : string)
    (next : Handler) (r : Request.t) :
  (forall c, is_repo_call c = false -> P c) ->
  (forall r', AllCalls P (next r')) ->
  AllCalls P (middleware.JWTAuth jwtSecret next r).
Proof.
  intros HP Hnext. unfold middleware.JWTAuth, ValidateJWT.
  repeat first
    [ progress cbn [bind call logf]
    | apply Hnext
    | apply AllCalls_Ret
    | apply AllCalls_Do; [ apply HP; reflexivity | intros ? ]
    | match goal with
      | |- AllCalls _ (match ?x with Ok _ => _ | Err _ => _ end) => destruct x
      | |- AllCalls _ (if ?b then _ else _) => destruct b
      end ].
Qed.

Lemma RequireAdmin_AllCalls (P : Call -> Prop) (next : Handler) (r : Request.t) :
  (forall c, is_repo_call c = false -> P c) ->
  (forall r', AllCalls P (next r')) ->
  AllCalls P (middleware.RequireAdmin next r).
Proof.
  intros HP Hnext. unfold middleware.RequireAdmin.
  destruct (CtxValue (Request.Context r) middleware.IsAdminKey) as [| | [|] |];
    cbn [negb orb bind call logf];
    first [ apply Hnext
          | apply AllCalls_Do; [ apply HP; reflexivity | intros ?; apply AllCalls_Ret ] ].
Qed.

Lemma plain_of_non_repo (c : Call) : is_repo_call c = false -> creates_plain_account c.
Proof. destruct c; simpl; auto; discriminate. Qed.

Lemma Create_plain (r : Request.t) : AllCalls creates_plain_account (UserHandler.Create r).
Proof. unfold UserHandler.Create, userService.Create. all_calls. Qed.

Lemma SetupRoutes_plain (cfg : Config) (rt : Route) (r : Request.t) :
  AllCalls creates_plain_account (SetupRoutes cfg rt r).
Proof.
  destruct rt; cbn [SetupRoutes];
    repeat first
      [ apply Create_plain
      | apply JWTAuth_AllCalls; [ apply plain_of_non_repo | intros ? ]
      | apply RequireAdmin_AllCalls; [ apply plain_of_non_repo | intros ? ] ].
  all: unfold HealthHandler.Health, HealthHandler.Ready, HealthHandler.Live,
         UserHandler.Login, UserHandler.Logout, UserHandler.Profile,
         UserHandler.List, UserHandler.GetByID, UserHandler.Update,
         UserHandler.Delete, userService.Login, userService.Logout,
         userService.GetByID, userService.List, userService.Update,
         userService.updateEmail, userService.updateUsername,
         userService.Delete, authService.GenerateToken, GenerateJWT,
         middleware.Recovered.
  all: all_calls.
Qed.

(** C10. On every route, whatever the request and whatever the environment
    answers, each record handed to the store's [Create] has the admin flag
    false and the active flag true. The admin-gated POST /admin/users and the
    public POST /auth/register reach the same handler, whose request type has
    no admin field. *)
Theorem no_route_creates_an_admin {W : Type} (h : Env W) (w : W)
    (cfg : Config) :
  SetupRoutes cfg POST_auth_register = UserHandler.Create /\
  SetupRoutes cfg POST_admin_users =
    middleware.JWTAuth (JWTSecret cfg)
      (middleware.RequireAdmin UserHandler.Create) /\
  forall (rt : Route) (r : Request.t) (u : User.t),
    called (trace_of (run h (SetupRoutes cfg rt r) w)) (RepoCreate u) ->
    User.IsAdmin u = false /\ User.IsActive u = true.
Proof.
  split; [reflexivity | split; [reflexivity |]].
  intros rt r u Hc. unfold called in Hc. apply in_map_iff in Hc.
  destruct Hc as (e & He & Hin).
  pose proof (AllCalls_run h creates_plain_account _
                (SetupRoutes_plain cfg rt r) w) as F.
  rewrite Forall_forall in F. specialize (F e Hin). rewrite He in F. exact F.
Qed.

End Routes.

(** * Issuing and validating tokens *)

Section RoundTrip.
Context `{MAC}.

(** C5. A token issued for an active account's id, e-mail and admin flag and
    validated no later than its expiry parses to claims with the same user id
    and admin flag (and e-mail); the authentication service looks that id up
    and, the store still holding the account, returns it. *)
Theorem token_round_trip {W1 W2 : Type} (h1 : Env W1) (w1 : W1)
    (h2 : Env W2) (w2 : W2) (cfg : Config) (a : User.t) :
  let issued := fst (h1 TimeNow w1) in
  let now := fst (h2 TimeNow w2) in
  let token :=
    sign (Claims.mk (User.ID a) (User.Email a) (User.IsAdmin a)
            (issued + JWTExpiry cfg)) (JWTSecret cfg) in
  let validated := run h2 (authService.ValidateToken cfg token) w2 in
  User.IsActive a = true ->
  now <= issued + JWTExpiry cfg ->
  value_of (run h1 (authService.GenerateToken cfg (User.ID a) (User.Email a)
                      (User.IsAdmin a)) w1) = Ok token /\
  (exists claims,
     value_of (run h2 (ValidateJWT token (JWTSecret cfg)) w2) = Ok claims /\
     Claims.UserID claims = User.ID a /\
     Claims.IsAdmin claims = User.IsAdmin a /\
     Claims.Email claims = User.Email a) /\
  called (trace_of validated) (RepoGetByID (User.ID a)) /\
  (answered (trace_of validated) (RepoGetByID (User.ID a)) (Ok (Some a)) ->
   value_of validated = Ok a).
Proof.
  intros issued now token validated Hact Hnow.
  assert (Hparse : parse token (JWTSecret cfg) now =
                   Ok (Claims.mk (User.ID a) (User.Email a) (User.IsAdmin a)
                         (issued + JWTExpiry cfg))).
  { apply parse_sign. exact Hnow. }
  split.
  { unfold authService.GenerateToken, GenerateJWT.
    cbn [run value_of trace_of fst snd bind call logf]. reflexivity. }
  subst validated. unfold now in Hparse. clearbody token. clear now Hnow.
  split.
  - unfold ValidateJWT. cbn [run value_of trace_of fst snd bind call].
    rewrite Hparse. eexists. split; [reflexivity |]. repeat split.
  - unfold authService.ValidateToken, ValidateJWT, answered, called.
    destruct (h2 TimeNow w2) as [t w] eqn:Enow. cbn [fst] in Hparse.
    run_all; settle.
Qed.

End RoundTrip.

(** * Examples on the scripted store *)

Ltac in_trace :=
  unfold answered, called; vm_compute;
  repeat first [ left; reflexivity | right ].

(** C1, as stated, fails: Bob's account is deactivated in the store and
    [ValidateToken] rejects his token, yet the protected profile route serves
    the request made with it. *)
Lemma deactivated_account_passes_the_gate :
  User.IsActive Mock.bob = false /\
  Mock.people (RepoGetByID 7%N) = Ok (Some Mock.bob) /\
  value_of (Mock.validate Mock.people (Mock.token_for Mock.bob))
    = Err "user account is deactivated" /\
  value_of (Mock.serve Mock.people GET_auth_profile
              (Mock.request "/api/v1/auth/profile" (Mock.token_for Mock.bob)
                 [] [] ""))
    = WriteSuccessResponse StatusOK "Profile retrieved successfully"
        (Some (PUser (ToResponse Mock.bob))).
Proof.
  repeat split; vm_compute; reflexivity.
Qed.

(** C1 (amended) at Bob's request. *)
Lemma gate_trusts_token_service_checks_store_witness :
  Get (Request.Header
         (Mock.request "/api/v1/auth/profile" (Mock.token_for Mock.bob) [] [] ""))
    "Authorization" = "Bearer " ++ Mock.token_for Mock.bob /\
  Mock.token_for Mock.bob <> "" /\
  @parse Mock.demoMAC (Mock.token_for Mock.bob) (JWTSecret Mock.cfg) 1000
    = Ok (Claims.mk 7%N "bob@example.com" false 4600) /\
  value_of (Mock.serve Mock.people GET_auth_profile
              (Mock.request "/api/v1/auth/profile" (Mock.token_for Mock.bob)
                 [] [] ""))
    = value_of (run (Mock.env Mock.people)
                  (UserHandler.Profile
                     (Request.WithContext
                        (Mock.request "/api/v1/auth/profile"
                           (Mock.token_for Mock.bob) [] [] "")
                        (middleware.withClaims []
                           (Claims.mk 7%N "bob@example.com" false 4600))))
                  tt) /\
  value_of (Mock.validate Mock.people (Mock.token_for Mock.bob))
    = Err "user account is deactivated".
Proof.
  assert (Hhdr : Get (Request.Header
                        (Mock.request "/api/v1/auth/profile"
                           (Mock.token_for Mock.bob) [] [] ""))
                   "Authorization" = "Bearer " ++ Mock.token_for Mock.bob)
    by (vm_compute; reflexivity).
  assert (Htok : Mock.token_for Mock.bob <> "")
    by (intro E; vm_compute in E; discriminate E).
  assert (Hparse : @parse Mock.demoMAC (Mock.token_for Mock.bob)
                     (JWTSecret Mock.cfg) 1000
                   = Ok (Claims.mk 7%N "bob@example.com" false 4600))
    by (vm_compute; reflexivity).
  destruct (@gate_trusts_token_service_checks_store Mock.demoMAC unit
              (Mock.env Mock.people) tt Mock.cfg UserHandler.Profile
              (Mock.request "/api/v1/auth/profile" (Mock.token_for Mock.bob)
                 [] [] "")
              (Mock.token_for Mock.bob)
              (Claims.mk 7%N "bob@example.com" false 4600)
              Hhdr Htok Hparse)
    as ((Hv & _) & _ & _ & Hinactive & _).
  split; [exact Hhdr |]. split; [exact Htok |]. split; [exact Hparse |].
  split.
  - exact Hv.
  - apply (Hinactive Mock.bob).
    + in_trace.
    + reflexivity.
Defined.

(** C2 at five requests: no header, a malformed token, an expired token, a
    token with a wrong signature, and Alice's token. *)
Lemma JWTAuth_case_split_witness :
  value_of (Mock.serve Mock.people GET_auth_profile
              (Mock.request "/api/v1/auth/profile" "" [] [] ""))
    = WriteErrorResponse StatusUnauthorized "Authorization header required" None /\
  value_of (Mock.serve Mock.people GET_auth_profile
              (Mock.request "/api/v1/auth/profile" "garbage" [] [] ""))
    = WriteErrorResponse StatusUnauthorized "Invalid token" None /\
  value_of (Mock.serve Mock.people GET_auth_profile
              (Mock.request "/api/v1/auth/profile" Mock.expired_token [] [] ""))
    = WriteErrorResponse StatusUnauthorized "Invalid token" None /\
  value_of (Mock.serve Mock.people GET_auth_profile
              (Mock.request "/api/v1/auth/profile" Mock.forged_token [] [] ""))
    = WriteErrorResponse StatusUnauthorized "Invalid token" None /\
  value_of (Mock.serve Mock.people GET_auth_profile
              (Mock.request "/api/v1/auth/profile" (Mock.token_for Mock.alice)
                 [] [] ""))
    = WriteSuccessResponse StatusOK "Profile retrieved successfully"
        (Some (PUser (ToResponse Mock.alice))).
Proof.
  pose proof (fun r => @JWTAuth_case_split Mock.demoMAC unit
                (Mock.env Mock.people) tt (JWTSecret Mock.cfg)
                UserHandler.Profile r) as T.
  cbv zeta in T.
  split; [| split; [| split; [| split]]].
  - destruct (T (Mock.request "/api/v1/auth/profile" "" [] [] ""))
      as (C & _).
    apply C. reflexivity.
  - destruct (T (Mock.request "/api/v1/auth/profile" "garbage" [] [] ""))
      as (_ & _ & _ & C & _).
    apply (C eq_refl) with (err := "token is malformed").
    + intro E. vm_compute in E. discriminate E.
    + vm_compute. reflexivity.
  - destruct (T (Mock.request "/api/v1/auth/profile" Mock.expired_token [] [] ""))
      as (_ & _ & _ & C & _).
    apply (C eq_refl) with (err := "token is expired").
    + intro E. vm_compute in E. discriminate E.
    + vm_compute. reflexivity.
  - destruct (T (Mock.request "/api/v1/auth/profile" Mock.forged_token [] [] ""))
      as (_ & _ & _ & C & _).
    apply (C eq_refl) with (err := "signature is invalid").
    + intro E. vm_compute in E. discriminate E.
    + vm_compute. reflexivity.
  - destruct (T (Mock.request "/api/v1/auth/profile"
                   (Mock.token_for Mock.alice) [] [] ""))
      as (_ & _ & _ & _ & C & _).
    destruct (C eq_refl) with
      (claims := Claims.mk 1%N "alice@example.com" false 4600) as (Hv & _).
    + intro E. vm_compute in E. discriminate E.
    + vm_compute. reflexivity.
    + unfold Mock.serve. cbn [SetupRoutes]. rewrite Hv.
      vm_compute. reflexivity.
Defined.

(** C3 at an unknown e-mail, Alice with a wrong password, and Bob. *)
Lemma Login_failures_do_not_enumerate_witness :
  value_of (Mock.login Mock.people "nobody@example.com" "password123")
    = Err "invalid credentials" /\
  value_of (Mock.login Mock.people "alice@example.com" "letmein")
    = Err "invalid credentials" /\
  value_of (Mock.login Mock.people "bob@example.com" "hunter2")
    = Err "account is deactivated".
Proof.
  destruct (@Login_failures_do_not_enumerate Mock.demoMAC unit unit unit
              (Mock.env Mock.people) (Mock.env Mock.people)
              (Mock.env Mock.people) tt tt tt Mock.cfg
              (UserLoginRequest.mk "nobody@example.com" "password123")
              (UserLoginRequest.mk "alice@example.com" "letmein")
              (UserLoginRequest.mk "bob@example.com" "hunter2")
              Mock.alice Mock.bob)
    as (V1 & V2 & _ & V3 & _).
  - in_trace.
  - in_trace.
  - reflexivity.
  - in_trace.
  - in_trace.
  - reflexivity.
  - exact (conj V1 (conj V2 V3)).
Defined.

(** C9 at Alice's login while the last-login update is refused. *)
Lemma Login_survives_last_login_failure_witness :
  answered (trace_of (Mock.login (Mock.stamp_fails Mock.people)
                        "alice@example.com" "password123"))
    (RepoUpdateLastLogin 1%N) (Err Mock.refused) /\
  value_of (Mock.login (Mock.stamp_fails Mock.people)
              "alice@example.com" "password123")
    = Ok (Mock.token_for Mock.alice, ToResponse Mock.alice).
Proof.
  split; [in_trace |].
  destruct (@Login_survives_last_login_failure Mock.demoMAC unit
              (Mock.env (Mock.stamp_fails Mock.people)) tt Mock.cfg
              (UserLoginRequest.mk "alice@example.com" "password123")
              Mock.alice Mock.refused)
    as (issued & Hnow & Hv & _).
  - in_trace.
  - reflexivity.
  - in_trace.
  - in_trace.
  - fold (Mock.login (Mock.stamp_fails Mock.people)
            "alice@example.com" "password123") in Hv.
    rewrite Hv. vm_compute in Hnow.
    destruct Hnow as [E | [E | [E | [E | [E | [E | [E | []]]]]]]];
      try discriminate E.
    apply Ev_inj in E. subst issued. reflexivity.
Defined.

(** C4 at a fresh registration, which reaches the store, a taken e-mail and
    a taken username. *)
Lemma Create_flags_and_conflicts_witness :
  called (trace_of (run (Mock.env Mock.people) (userService.Create Mock.carol) tt))
    (RepoCreate (userService.newUser Mock.carol "$2a$opensesame")) /\
  value_of (run (Mock.env Mock.people) (userService.Create Mock.carol) tt)
    = Ok (ToResponse (userService.newUser Mock.carol "$2a$opensesame")) /\
  User.IsActive (userService.newUser Mock.carol "$2a$opensesame") = true /\
  User.IsAdmin (userService.newUser Mock.carol "$2a$opensesame") = false /\
  value_of (run (Mock.env Mock.people)
              (userService.Create
                 (UserCreateRequest.mk "alice@example.com" "bob" "pw" "A" "B")) tt)
    = Err "user with this email already exists" /\
  value_of (run (Mock.env Mock.people)
              (userService.Create
                 (UserCreateRequest.mk "dave@example.com" "bob" "pw" "D" "B")) tt)
    = Err "username is already taken".
Proof.
  pose proof (fun req => @Create_flags_and_conflicts unit
                (Mock.env Mock.people) tt req) as T.
  cbv zeta in T.
  destruct (T Mock.carol) as (Flags & Fresh & _).
  destruct (Fresh ltac:(in_trace)) as (_ & Free).
  destruct (Free ltac:(in_trace)) as (_ & Hashed).
  destruct (Hashed "$2a$opensesame" ltac:(in_trace)) as (Hcalled & Hvalue).
  destruct (Flags _ Hcalled) as (Hactive & Hadmin & _).
  destruct (T (UserCreateRequest.mk "alice@example.com" "bob" "pw" "A" "B"))
    as (_ & _ & Taken & _).
  destruct (Taken ltac:(in_trace)) as (Hemail & _).
  destruct (T (UserCreateRequest.mk "dave@example.com" "bob" "pw" "D" "B"))
    as (_ & _ & _ & Taken' & _).
  destruct (Taken' ltac:(in_trace)) as (Husername & _).
  split; [exact Hcalled |].
  split; [apply Hvalue; in_trace |].
  exact (conj Hactive (conj Hadmin (conj Hemail Husername))).
Defined.

(** C5 at Alice's token. *)
Lemma token_round_trip_witness :
  User.IsActive Mock.alice = true /\
  1000 <= 1000 + JWTExpiry Mock.cfg /\
  value_of (run (Mock.env Mock.people)
              (@authService.GenerateToken Mock.demoMAC Mock.cfg 1%N
                 "alice@example.com" false) tt)
    = Ok (Mock.token_for Mock.alice) /\
  value_of (Mock.validate Mock.people (Mock.token_for Mock.alice))
    = Ok Mock.alice.
Proof.
  destruct (@token_round_trip Mock.demoMAC unit unit (Mock.env Mock.people) tt
              (Mock.env Mock.people) tt Mock.cfg Mock.alice)
    as (Hissue & _ & _ & Hvalid).
  - reflexivity.
  - vm_compute. discriminate.
  - split; [reflexivity |].
    split; [vm_compute; discriminate |].
    split; [exact Hissue |].
    apply Hvalid. in_trace.
Defined.

(** C6, as stated, fails: with the database unreachable, registration is
    answered 400 and get-by-id 404, and both bodies carry the driver's error
    text. *)
Lemma store_failure_answered_with_client_error_and_detail :
  value_of (Mock.serve (Mock.decoding_create Mock.carol (Mock.db_down Mock.people))
              POST_auth_register
              (Mock.request "/api/v1/auth/register" "" [] [] "{...}"))
    = WriteErrorResponse StatusBadRequest
        "failed to check user existence: dial tcp 127.0.0.1:5432: connect: connection refused"
        None /\
  value_of (Mock.serve (Mock.db_down Mock.people) GET_users_id
              (Mock.request "/api/v1/users/1" (Mock.token_for Mock.alice)
                 [] [("id", "1")] ""))
    = WriteErrorResponse StatusNotFound
        "failed to get user: dial tcp 127.0.0.1:5432: connect: connection refused"
        None.
Proof.
  split; vm_compute; reflexivity.
Qed.

(** C6 (amended) with the database unreachable, and at Alice's login while
    only the last-login update is refused. *)
Lemma store_failure_responses_witness :
  value_of (run (Mock.env (Mock.db_down Mock.people))
              (UserHandler.List
                 (Mock.request "/api/v1/users" "" [] [] "")) tt)
    = WriteErrorResponse StatusInternalServerError "Failed to retrieve users" None /\
  StatusCode
    (value_of (run (Mock.env (Mock.db_down Mock.people))
                 (UserHandler.GetByID
                    (Mock.request "/api/v1/users/1" "" [] [("id", "1")] "")) tt))
    = StatusNotFound /\
  StatusCode
    (value_of (run (Mock.env
                      (Mock.stamp_fails
                         (Cases.decoding_login
                            (UserLoginRequest.mk "alice@example.com"
                               "password123") Mock.people)))
                 (@UserHandler.Login Mock.demoMAC Mock.cfg
                    (Mock.request "/api/v1/auth/login" "" [] [] "{}")) tt))
    = StatusOK.
Proof.
  split; [| split].
  - destruct (@store_failure_responses Mock.demoMAC unit
                (Mock.env (Mock.db_down Mock.people)) tt Mock.cfg
                (Mock.request "/api/v1/users" "" [] [] ""))
      as ((L & _) & _).
    apply (L 10 0 Mock.refused). in_trace.
  - destruct (@store_failure_responses Mock.demoMAC unit
                (Mock.env (Mock.db_down Mock.people)) tt Mock.cfg
                (Mock.request "/api/v1/users/1" "" [] [("id", "1")] ""))
      as (_ & _ & G & _).
    apply (G 1%N Mock.refused). in_trace.
  - destruct (@store_failure_responses Mock.demoMAC unit
                (Mock.env
                   (Mock.stamp_fails
                      (Cases.decoding_login
                         (UserLoginRequest.mk "alice@example.com"
                            "password123") Mock.people)))
                tt Mock.cfg
                (Mock.request "/api/v1/auth/login" "" [] [] "{}"))
      as (_ & _ & _ & _ & _ & (_ & S) & _).
    apply (S 1%N Mock.refused). in_trace.
Defined.


(** C8, as stated, fails: GET /users?page=4611686018427387905&limit=4 queries
    the store with offset 0, the product having wrapped around; and the page
    count of the largest [int64] total at limit 2 is negative. *)
Lemma huge_page_wraps_the_offset :
  called (trace_of (Mock.serve Mock.people GET_users
                      (Mock.request "/api/v1/users" (Mock.token_for Mock.alice)
                         [("page", "4611686018427387905"); ("limit", "4")]
                         [] "")))
    (RepoList 4 0) /\
  (4611686018427387905 - 1) * 4 = 18446744073709551616 /\
  totalPages 9223372036854775807 2 = Some (-4611686018427387904).
Proof.
  split; [in_trace | split; reflexivity].
Qed.

(** C8 (amended) at page 2, limit 10 and total 25. *)
Lemma List_offset_and_total_pages_witness :
  1 <= 2 /\ 1 <= 10 /\ (2 - 1) * 10 <= MaxInt64 /\
  called (trace_of (run (Mock.env Mock.people) (userService.List 2 10) tt))
    (RepoList 10 10) /\
  WritePaginatedResponse StatusOK "Users retrieved successfully" (PUsers [])
    25 2 10 =
  Some (WriteJSONResponse StatusOK
          (mkAPIResponse true "Users retrieved successfully"
             (Some (PPage (PUsers []) 25 2 10 3)) None)).
Proof.
  assert (H1 : 1 <= 2) by lia.
  assert (H2 : 1 <= 10) by lia.
  assert (H3 : (2 - 1) * 10 <= MaxInt64) by (vm_compute; discriminate).
  destruct (@List_offset_and_total_pages unit (Mock.env Mock.people) tt 2 10
              H1 H2 H3) as ((r & rest & Htr) & Hpages & _).
  split; [exact H1 |]. split; [exact H2 |]. split; [exact H3 |]. split.
  - unfold called. rewrite Htr. left. reflexivity.
  - destruct (Hpages 25 (PUsers []) "Users retrieved successfully")
      as (tp & Hceil & Hresp).
    + lia.
    + vm_compute. discriminate.
    + assert (tp = 3) by lia. subst tp. exact Hresp.
Defined.

(** C10 at an administrator's POST /admin/users. *)
Lemma no_route_creates_an_admin_witness :
  called (trace_of (Mock.serve (Mock.decoding_create Mock.carol Mock.people)
                      POST_admin_users
                      (Mock.request "/api/v1/admin/users"
                         (Mock.token_for Mock.root) [] [] "{is_admin:true}")))
    (RepoCreate (userService.newUser Mock.carol "$2a$opensesame")) /\
  User.IsAdmin (userService.newUser Mock.carol "$2a$opensesame") = false /\
  User.IsActive (userService.newUser Mock.carol "$2a$opensesame") = true.
Proof.
  assert (C : called
                (trace_of (Mock.serve (Mock.decoding_create Mock.carol Mock.people)
                             POST_admin_users
                             (Mock.request "/api/v1/admin/users"
                                (Mock.token_for Mock.root) [] []
                                "{is_admin:true}")))
                (RepoCreate (userService.newUser Mock.carol "$2a$opensesame")))
    by in_trace.
  split; [exact C |].
  destruct (@no_route_creates_an_admin Mock.demoMAC unit
              (Mock.env (Mock.decoding_create Mock.carol Mock.people)) tt
              Mock.cfg) as (_ & _ & T).
  exact (T POST_admin_users _ _ C).
Defined.

(** * More on the middleware *)

Section Middleware.
Context `{MAC} {W : Type} (h : Env W).

(** X1. [OptionalAuth] never answers a request itself: without a usable
    bearer token the next handler runs on the request as it came, in the same
    state; with a token the codec rejects it runs on the request as it came
    after one debug log entry; with a token the codec accepts the middleware
    does exactly what [JWTAuth] does. *)
Theorem OptionalAuth_never_rejects (w : W) (jwtSecret : string)
    (next : Handler) (r : Request.t) :
  let authHeader := Get (Request.Header r) "Authorization" in
  let token := TrimPrefix authHeader "Bearer " in
  let now := fst (h TimeNow w) in
  let o := run h (middleware.OptionalAuth jwtSecret next r) w in
  (authHeader = "" \/ HasPrefix authHeader "Bearer " = false \/ token = "" ->
   o = run h (next r) w) /\
  (HasPrefix authHeader "Bearer " = true -> token <> "" ->
   forall err, parse token jwtSecret now = Err err ->
     let entry := mkLog DebugLevel "Invalid optional token" (Some err)
                    [("path", VString (Request.Path r))] in
     let o' := run h (next r)
                 (snd (h (LogWrite entry) (snd (h TimeNow w)))) in
     value_of o = value_of o' /\
     trace_of o = Ev TimeNow now :: Ev (LogWrite entry) tt :: trace_of o') /\
  (HasPrefix authHeader "Bearer " = true -> token <> "" ->
   forall claims, parse token jwtSecret now = Ok claims ->
     o = run h (middleware.JWTAuth jwtSecret next r) w) /\
  (exists r' w',
     value_of o = value_of (run h (next r') w') /\
     Request.Path r' = Request.Path r /\ Request.Body r' = Request.Body r /\
     Request.URLParams r' = Request.URLParams r /\
     Request.Query r' = Request.Query r /\
     Request.Header r' = Request.Header r).
Proof.
  intros authHeader token now o.
  unfold o, now, middleware.OptionalAuth, middleware.JWTAuth, ValidateJWT.
  clear o now. fold authHeader. fold token.
  destruct (String.eqb_spec authHeader "") as [E1 | E1].
  { split; [reflexivity |]. split; [intros Hp; rewrite E1 in Hp; discriminate |].
    split; [intros Hp; rewrite E1 in Hp; discriminate |].
    exists r, w. repeat split. }
  destruct (HasPrefix authHeader "Bearer ") eqn:E2; cbn [negb].
  2: { split; [reflexivity |]. split; [discriminate |]. split; [discriminate |].
       exists r, w. repeat split. }
  destruct (String.eqb_spec token "") as [E3 | E3].
  { split; [reflexivity |]. split; [contradiction |]. split; [contradiction |].
    exists r, w. repeat split. }
  cbn [run value_of trace_of fst snd bind call logf].
  destruct (h TimeNow w) as [t w1]. cbn [fst snd].
  assert (Hanon : ~ (authHeader = "" \/ true = false \/ token = ""))
    by (intros [? | [? | ?]]; congruence).
  destruct (parse token jwtSecret t) as [claims | err] eqn:E4;
    cbn [run value_of trace_of fst snd bind call logf].
  - split; [intros A; contradiction |]. split; [discriminate |].
    split; [reflexivity |].
    eexists _, w1. split; [reflexivity |]. destruct r; repeat split.
  - split; [intros A; contradiction |]. split.
    + intros _ _ err' E. injection E as <-. cbv zeta.
      destruct (h (LogWrite _) w1) as [[] w2]. split; reflexivity.
    + split; [discriminate |].
      eexists r, _. split; [reflexivity | repeat split].
Qed.

(** X2. [RequireAdmin] lets a request through exactly when its context holds
    the boolean true under the admin key; a missing value, a value of another
    type and false are all answered 403 after one warning, and the next
    handler does not run. *)
Theorem RequireAdmin_passes_only_admins (w : W) (next : Handler)
    (r : Request.t) :
  let o := run h (middleware.RequireAdmin next r) w in
  (CtxValue (Request.Context r) middleware.IsAdminKey = VBool true ->
   o = run h (next r) w) /\
  (CtxValue (Request.Context r) middleware.IsAdminKey <> VBool true ->
   value_of o = WriteErrorResponse StatusForbidden "Admin access required" None /\
   trace_of o = [middleware_admin_log r]).
Proof.
  intros o. subst o. unfold middleware.RequireAdmin, middleware_admin_log.
  destruct (CtxValue (Request.Context r) middleware.IsAdminKey) as [| | [|] |];
    cbn [negb orb run value_of trace_of fst snd bind call logf];
    split; intros E; try congruence; try reflexivity;
    destruct (h (LogWrite _) w) as [[] w1]; split; reflexivity.
Qed.

End Middleware.

(** * Routes behind the gate *)

Section Protected.
Context `{MAC} {W : Type} (h : Env W).

(** A request whose bearer token parses is handed over after one clock
    reading. *)
Lemma gate_hands_over (w : W) (jwtSecret : string) (next : Handler)
    (r : Request.t) (token : string) (claims : Claims.t) :
  Get (Request.Header r) "Authorization" = "Bearer " ++ token ->
  token <> "" ->
  parse token jwtSecret (fst (h TimeNow w)) = Ok claims ->
  let handed :=
    run h (next (Request.WithContext r
                   (middleware.withClaims (Request.Context r) claims)))
      (snd (h TimeNow w)) in
  value_of (run h (middleware.JWTAuth jwtSecret next r) w) = value_of handed /\
  trace_of (run h (middleware.JWTAuth jwtSecret next r) w) =
    Ev TimeNow (fst (h TimeNow w)) :: trace_of handed.
Proof.
  intros Hhdr Htok Hparse.
  pose proof (JWTAuth_valid_token h w jwtSecret next r claims) as C.
  cbv zeta in C. rewrite Hhdr, TrimPrefix_Bearer, HasPrefix_Bearer in C.
  exact (C eq_refl Htok Hparse).
Qed.

(** Whatever the gate does not hand over it answers 401 without a
    repository call. *)
Lemma gate_rejects (w : W) (jwtSecret : string) (next : Handler)
    (r : Request.t) :
  let authHeader := Get (Request.Header r) "Authorization" in
  let token := TrimPrefix authHeader "Bearer " in
  (forall claims,
     ~ (HasPrefix authHeader "Bearer " = true /\ token <> "" /\
        parse token jwtSecret (fst (h TimeNow w)) = Ok claims)) ->
  StatusCode (value_of (run h (middleware.JWTAuth jwtSecret next r) w))
    = StatusUnauthorized /\
  no_repo_call (trace_of (run h (middleware.JWTAuth jwtSecret next r) w)).
Proof.
  intros authHeader token Hbad.
  unfold middleware.JWTAuth, ValidateJWT, no_repo_call.
  fold authHeader. fold token.
  destruct (String.eqb_spec authHeader "") as [E1 | E1].
  { cbn [run value_of trace_of fst snd bind call logf].
    split; [reflexivity | repeat constructor]. }
  destruct (HasPrefix authHeader "Bearer ") eqn:E2; cbn [negb].
  2: { cbn [run value_of trace_of fst snd bind call logf].
       split; [reflexivity | repeat constructor]. }
  destruct (String.eqb_spec token "") as [E3 | E3].
  { cbn [run value_of trace_of fst snd bind call logf].
    split; [reflexivity | repeat constructor]. }
  cbn [run value_of trace_of fst snd bind call logf].
  destruct (parse token jwtSecret (fst (h TimeNow w))) as [claims | err] eqn:E4.
  - exfalso. apply (Hbad claims). auto.
  - cbn [run value_of trace_of fst snd bind call logf].
    split; [reflexivity | repeat constructor].
Qed.

(** X3. On every route of the protected group a request whose
    [Authorization] header does not carry a token the codec accepts is
    answered 401, and neither a handler nor the repository is reached. *)
Theorem protected_routes_stop_at_the_gate (w : W) (cfg : Config) (rt : Route)
    (r : Request.t) :
  let authHeader := Get (Request.Header r) "Authorization" in
  let token := TrimPrefix authHeader "Bearer " in
  In rt protected_routes ->
  (forall claims,
     ~ (HasPrefix authHeader "Bearer " = true /\ token <> "" /\
        parse token (JWTSecret cfg) (fst (h TimeNow w)) = Ok claims)) ->
  StatusCode (value_of (run h (SetupRoutes cfg rt r) w)) = StatusUnauthorized /\
  no_repo_call (trace_of (run h (SetupRoutes cfg rt r) w)).
Proof.
  intros authHeader token Hin Hbad.
  unfold protected_routes in Hin. simpl in Hin.
  destruct Hin as [<- | [<- | [<- | [<- | [<- | [<- | [<- | []]]]]]]];
    cbn [SetupRoutes]; apply gate_rejects; exact Hbad.
Qed.

(** X4. On POST /admin/users a request with a valid token whose admin flag
    is false is answered 403 "Admin access required": the warning is logged,
    the body is not decoded and the repository is not called. With a valid
    token whose admin flag is true the response is the create handler's, on
    the request with the claims in its context, and every call of the create
    handler is a call of the route. *)
Theorem admin_route_needs_an_admin_token (w : W) (cfg : Config)
    (r : Request.t) (token : string) (claims : Claims.t) :
  Get (Request.Header r) "Authorization" = "Bearer " ++ token ->
  token <> "" ->
  parse token (JWTSecret cfg) (fst (h TimeNow w)) = Ok claims ->
  let r' := Request.WithContext r
              (middleware.withClaims (Request.Context r) claims) in
  let o := run h (SetupRoutes cfg POST_admin_users r) w in
  let created := run h (UserHandler.Create r') (snd (h TimeNow w)) in
  (Claims.IsAdmin claims = false ->
   value_of o = WriteErrorResponse StatusForbidden "Admin access required" None /\
   In (middleware_admin_log r') (trace_of o) /\
   ~ called (trace_of o) (DecodeCreate (Request.Body r)) /\
   no_repo_call (trace_of o)) /\
  (Claims.IsAdmin claims = true ->
   value_of o = value_of created /\
   incl (trace_of created) (trace_of o)).
Proof.
  intros Hhdr Htok Hparse r' o created. subst o. cbn [SetupRoutes].
  destruct (gate_hands_over w (JWTSecret cfg)
              (middleware.RequireAdmin UserHandler.Create) r token claims
              Hhdr Htok Hparse) as (Hv & Ht).
  rewrite Hv, Ht. fold r'.
  unfold middleware.RequireAdmin, middleware_admin_log, no_repo_call, called.
  change (CtxValue (Request.Context r') middleware.IsAdminKey)
    with (VBool (Claims.IsAdmin claims)).
  split; intros Hadm; rewrite Hadm;
    cbn [negb orb run value_of trace_of fst snd bind call logf].
  - destruct (h (LogWrite _) (snd (h TimeNow w))) as [[] w1].
    cbn [fst snd map call_of projT1 Ev].
    split; [reflexivity |].
    split; [right; left; reflexivity |].
    split; [| repeat constructor].
    intros [E | [E | []]]; discriminate E.
  - split; [reflexivity |]. apply incl_tl. apply incl_refl.
Qed.

End Protected.

(** * The handlers behind the gate *)

(** [ev_clean] with the equations between events settled before the next
    membership is split: traces with several hypotheses about them stay
    small. *)
Ltac ev_first :=
  repeat match goal with
  | E : In _ (map call_of _) |- _ => cbn [map call_of projT1 Ev] in E
  | E : In _ [] |- _ => destruct E
  | E : Ev ?c _ = Ev ?c _ |- _ => apply Ev_inj in E; inj_eqs
  | E : Ev _ _ = Ev _ _ |- _ => discriminate E
  | E : Ev ?c1 _ = Ev ?c2 _ |- _ =>
      let Hc := fresh "Hc" in
      pose proof (Ev_call _ _ _ _ E) as Hc;
      try (injection Hc; intros; subst); clear Hc;
      apply Ev_inj in E; inj_eqs
  | E : @eq Call _ _ |- _ => discriminate E
  | E : @eq Call _ _ |- _ => injection E as E; try subst
  | E : In _ (_ :: _) |- _ => destruct E
  end.

Ltac settle_first :=
  conjs; ev_first; bools; simpl; try congruence; auto;
  try (repeat constructor; fail).

(** [run_all] for a goal that mentions only the value, or only the trace. *)
Ltac run_some :=
  focus_run; exec;
  let Hv := fresh "Hv" in
  let Htr := fresh "Htr" in
  intros Hv Htr; try rewrite Hv; try rewrite Htr; clear Hv Htr.

Section Handlers.
Context `{MAC} {W : Type} (h : Env W).

(** The identity the handlers read back from a context the gate filled. *)
Lemma identity_after_gate (ctx : Ctx) (claims : Claims.t) :
  middleware.GetUserIDFromContext (middleware.withClaims ctx claims)
    = (Claims.UserID claims, true) /\
  middleware.GetIsAdminFromContext (middleware.withClaims ctx claims)
    = (Claims.IsAdmin claims, true).
Proof. split; reflexivity. Qed.

(** X5. Behind the gate, PUT and DELETE /users/{id} with the token of a
    non-administrator whose id differs from the one in the path are answered
    403: the body is not decoded and the repository is not called. With the
    owner's or an administrator's token the update goes on from the gate's
    clock reading to the decoder, the deletion to the store's lookup of that
    id. *)
Theorem only_owner_or_admin_changes_an_account (w : W) (cfg : Config)
    (r : Request.t) (token : string) (claims : Claims.t) (id : uint) :
  Get (Request.Header r) "Authorization" = "Bearer " ++ token ->
  token <> "" ->
  parse token (JWTSecret cfg) (fst (h TimeNow w)) = Ok claims ->
  ParseUint (Get (Request.URLParams r) "id") 32 = Ok id ->
  let put := run h (SetupRoutes cfg PUT_users_id r) w in
  let del := run h (SetupRoutes cfg DELETE_users_id r) w in
  let now := Ev TimeNow (fst (h TimeNow w)) in
  (Claims.UserID claims <> id -> Claims.IsAdmin claims = false ->
   value_of put = WriteErrorResponse StatusForbidden
                    "You can only update your own profile" None /\
   ~ called (trace_of put) (DecodeUpdate (Request.Body r)) /\
   no_repo_call (trace_of put) /\
   value_of del = WriteErrorResponse StatusForbidden
                    "You can only delete your own profile" None /\
   no_repo_call (trace_of del)) /\
  (Claims.UserID claims = id \/ Claims.IsAdmin claims = true ->
   (exists d rest,
      trace_of put = now :: Ev (DecodeUpdate (Request.Body r)) d :: rest) /\
   (exists g rest, trace_of del = now :: Ev (RepoGetByID id) g :: rest)).
Proof.
  intros Hhdr Htok Hparse Hid put del now.
  subst put del. cbn [SetupRoutes].
  destruct (gate_hands_over h w (JWTSecret cfg) UserHandler.Update r token
              claims Hhdr Htok Hparse) as (Pv & Pt).
  destruct (gate_hands_over h w (JWTSecret cfg) UserHandler.Delete r token
              claims Hhdr Htok Hparse) as (Dv & Dt).
  rewrite Pv, Pt, Dv, Dt. clear Pv Pt Dv Dt.
  unfold UserHandler.Update, UserHandler.Delete, no_repo_call, called.
  cbn [Request.URLParams Request.WithContext Request.Context Request.Body].
  rewrite Hid.
  destruct (identity_after_gate (Request.Context r) claims) as (-> & ->).
  cbn [fst].
  split.
  - intros Hne Hadm. rewrite Hadm.
    apply N.eqb_neq in Hne. rewrite Hne. cbn [negb andb].
    cbn [run value_of trace_of fst snd map call_of projT1 Ev].
    split; [reflexivity |].
    split; [intros [E | []]; discriminate E |].
    split; [repeat constructor |].
    split; [reflexivity | repeat constructor].
  - intros Hown.
    assert (E : (negb (Claims.UserID claims =? id)%N
                 && negb (Claims.IsAdmin claims))%bool = false).
    { destruct Hown as [-> | ->].
      - rewrite N.eqb_refl. reflexivity.
      - apply andb_false_r. }
    rewrite E. unfold userService.Delete.
    cbn [run value_of trace_of fst snd bind call].
    split; do 2 eexists; reflexivity.
Qed.

(** X6. Whatever the query string, the list handler works with a page of at
    least 1 and a limit between 1 and 100 (the defaults 1 and 10 replacing a
    missing, unparsable or out-of-range value); that limit is the one the
    store is asked for, and the page count is always computed: the division
    it takes never has a zero divisor. *)
Theorem List_parameters_are_clamped (w : W) (r : Request.t) :
  let page := UserHandler.pageParam r in
  let limit := UserHandler.limitParam r in
  let o := run h (UserHandler.List r) w in
  1 <= page <= MaxInt64 /\
  1 <= limit <= 100 /\
  (Get (Request.Query r) "page" = "" -> page = 1) /\
  (Get (Request.Query r) "limit" = "" -> limit = 10) /\
  (forall l off, called (trace_of o) (RepoList l off) -> l = limit) /\
  (forall users total,
     WritePaginatedResponse StatusOK "Users retrieved successfully"
       (PUsers users) total page limit <> None).
Proof.
  intros page limit o.
  assert (Hp : 1 <= page <= MaxInt64).
  { subst page. unfold UserHandler.pageParam.
    destruct (String.eqb _ ""); [unfold MaxInt64; lia |].
    destruct (Atoi _) as [p |] eqn:E; [| unfold MaxInt64; lia].
    destruct (p >? 0) eqn:G; [| unfold MaxInt64; lia].
    apply Z.gtb_lt in G. split; [lia |].
    unfold Atoi in E.
    destruct (match Get (Request.Query r) "page" with
              | String "-" rest => (true, rest)
              | String "+" rest => (false, rest)
              | _ => (false, Get (Request.Query r) "page") end) as [neg body].
    destruct body; [discriminate |].
    destruct (parse_digits 0 _); [| discriminate].
    destruct ((MinInt64 <=? _) && (_ <=? MaxInt64))%bool eqn:B; [| discriminate].
    injection E as E. apply andb_true_iff in B. destruct B as [_ B].
    apply Z.leb_le in B. lia. }
  assert (Hl : 1 <= limit <= 100).
  { subst limit. unfold UserHandler.limitParam.
    destruct (String.eqb _ ""); [lia |].
    destruct (Atoi _) as [l |]; [| lia].
    destruct ((l >? 0) && (l <=? 100))%bool eqn:B; [| lia].
    apply andb_true_iff in B. destruct B as [B1 B2].
    apply Z.gtb_lt in B1. apply Z.leb_le in B2. lia. }
  split; [exact Hp |]. split; [exact Hl |].
  split; [| split; [| split]].
  - intros E. subst page. unfold UserHandler.pageParam. rewrite E. reflexivity.
  - intros E. subst limit. unfold UserHandler.limitParam. rewrite E. reflexivity.
  - subst o. unfold UserHandler.List, userService.List.
    fold page. fold limit. clearbody page limit.
    unfold called.
    assert (Z0 : (limit =? 0) = false) by (apply Z.eqb_neq; lia).
    unfold WritePaginatedResponse, totalPages, div64. rewrite Z0.
    run_some; intros; ev_clean; reflexivity.
  - intros users total. unfold WritePaginatedResponse, totalPages, div64.
    destruct (limit =? 0) eqn:Z0; [apply Z.eqb_eq in Z0; lia |].
    discriminate.
Qed.

End Handlers.

Section Session.
Context `{MAC} {W : Type} (h : Env W).

(** X7. Logging out changes nothing on the server: POST /auth/logout never
    calls the repository, whatever the request, and with a valid token it
    writes a log line naming the token's user id and answers 200. *)
Theorem Logout_is_stateless (w : W) (cfg : Config) (r : Request.t) :
  let o := run h (SetupRoutes cfg POST_auth_logout r) w in
  no_repo_call (trace_of o) /\
  forall token claims,
    Get (Request.Header r) "Authorization" = "Bearer " ++ token ->
    token <> "" ->
    parse token (JWTSecret cfg) (fst (h TimeNow w)) = Ok claims ->
    value_of o = WriteSuccessResponse StatusOK "Logout successful" None /\
    answered (trace_of o)
      (LogWrite (mkLog InfoLevel "User logged out successfully" None
                   [("user_id", VUint (Claims.UserID claims))])) tt.
Proof.
  intros o. subst o. split.
  - unfold no_repo_call.
    apply (AllCalls_run h (fun c => is_repo_call c = false)).
    cbn [SetupRoutes].
    apply JWTAuth_AllCalls; [intros c Hc; exact Hc |].
    intros r'. unfold UserHandler.Logout, userService.Logout.
    destruct (middleware.GetUserIDFromContext (Request.Context r')) as [u [|]];
      cbn [negb]; all_calls.
  - intros token claims Hhdr Htok Hparse. cbn [SetupRoutes].
    destruct (gate_hands_over h w (JWTSecret cfg) UserHandler.Logout r token
                claims Hhdr Htok Hparse) as (Pv & Pt).
    rewrite Pv, Pt. clear Pv Pt.
    unfold UserHandler.Logout, userService.Logout, answered.
    cbn [Request.WithContext Request.Context].
    destruct (identity_after_gate (Request.Context r) claims) as (-> & _).
    cbn [negb run value_of trace_of fst snd bind call logf].
    destruct (h (LogWrite _) _) as [[] w1].
    split; [reflexivity | right; left; reflexivity].
Qed.

(** X8. GET /auth/profile with a valid token looks up exactly the user id
    the token carries, right after the gate's clock reading: an account found
    is returned with 200 (even a deactivated one), none is answered 404
    "user not found", and a store failure 404 with the wrapped error text. *)
Theorem Profile_serves_the_token_s_account (w : W) (cfg : Config)
    (r : Request.t) (token : string) (claims : Claims.t) :
  Get (Request.Header r) "Authorization" = "Bearer " ++ token ->
  token <> "" ->
  parse token (JWTSecret cfg) (fst (h TimeNow w)) = Ok claims ->
  let o := run h (SetupRoutes cfg GET_auth_profile r) w in
  let lookup := RepoGetByID (Claims.UserID claims) in
  (exists g rest,
     trace_of o = Ev TimeNow (fst (h TimeNow w)) :: Ev lookup g :: rest /\
     forall c, In c (map call_of rest) -> is_repo_call c = false) /\
  (forall u, answered (trace_of o) lookup (Ok (Some u)) ->
     value_of o = WriteSuccessResponse StatusOK "Profile retrieved successfully"
                    (Some (PUser (ToResponse u)))) /\
  (answered (trace_of o) lookup (Ok None) ->
   value_of o = WriteErrorResponse StatusNotFound "user not found" None) /\
  (forall e, answered (trace_of o) lookup (Err e) ->
     value_of o = WriteErrorResponse StatusNotFound
                    ("failed to get user: " ++ e) None).
Proof.
  intros Hhdr Htok Hparse o lookup. subst o lookup. cbn [SetupRoutes].
  destruct (gate_hands_over h w (JWTSecret cfg) UserHandler.Profile r token
              claims Hhdr Htok Hparse) as (Pv & Pt).
  rewrite Pv, Pt. clear Pv Pt.
  unfold UserHandler.Profile, userService.GetByID, answered.
  cbn [Request.WithContext Request.Context].
  destruct (identity_after_gate (Request.Context r) claims) as (-> & _).
  cbn [negb].
  run_all; (split; [do 2 eexists; split; [reflexivity |] |]);
    intros; ev_clean; try (subst; reflexivity); settle.
Qed.

End Session.

Section Bodies.
Context `{MAC} {W : Type} (h : Env W).

(** X9. A body that does not decode is answered 400 "Invalid JSON", and a
    decoded request the validator refuses 400 "Validation failed" with the
    validator's message as the error detail, on registration, on login and
    on update alike; in none of these cases is the repository called. *)
Theorem malformed_bodies_stop_before_the_store (w : W) (cfg : Config)
    (r : Request.t) :
  let body := Request.Body r in
  let reg := run h (SetupRoutes cfg POST_auth_register r) w in
  let lgn := run h (SetupRoutes cfg POST_auth_login r) w in
  let upd := run h (UserHandler.Update r) w in
  let invalid_json :=
    WriteErrorResponse StatusBadRequest "Invalid JSON" None in
  let validation_failed := fun msg =>
    WriteErrorResponse StatusBadRequest "Validation failed" (Some (PText msg)) in
  (forall e, answered (trace_of reg) (DecodeCreate body) (Err e) ->
     value_of reg = invalid_json /\ no_repo_call (trace_of reg)) /\
  (forall req msg,
     answered (trace_of reg) (DecodeCreate body) (Ok req) ->
     answered (trace_of reg) (ValidateCreate req) (Some msg) ->
     value_of reg = validation_failed msg /\ no_repo_call (trace_of reg)) /\
  (forall e, answered (trace_of lgn) (DecodeLogin body) (Err e) ->
     value_of lgn = invalid_json /\ no_repo_call (trace_of lgn)) /\
  (forall req msg,
     answered (trace_of lgn) (DecodeLogin body) (Ok req) ->
     answered (trace_of lgn) (ValidateLogin req) (Some msg) ->
     value_of lgn = validation_failed msg /\ no_repo_call (trace_of lgn)) /\
  (forall e, answered (trace_of upd) (DecodeUpdate body) (Err e) ->
     value_of upd = invalid_json /\ no_repo_call (trace_of upd)) /\
  (forall req msg,
     answered (trace_of upd) (DecodeUpdate body) (Ok req) ->
     answered (trace_of upd) (ValidateUpdate req) (Some msg) ->
     value_of upd = validation_failed msg /\ no_repo_call (trace_of upd)).
Proof.
  intros body reg lgn upd invalid_json validation_failed.
  subst body reg lgn upd invalid_json validation_failed.
  cbn [SetupRoutes]. unfold answered, no_repo_call.
  split; [| split; [| split; [| split; [| split]]]].
  - unfold UserHandler.Create, userService.Create. run_all; settle_first.
  - unfold UserHandler.Create, userService.Create. run_all; settle_first.
  - unfold UserHandler.Login, userService.Login, authService.GenerateToken,
      GenerateJWT.
    run_all; settle_first.
  - unfold UserHandler.Login, userService.Login, authService.GenerateToken,
      GenerateJWT.
    run_all; settle_first.
  - unfold UserHandler.Update, userService.Update, userService.updateEmail,
      userService.updateUsername.
    run_all; settle_first.
  - unfold UserHandler.Update, userService.Update, userService.updateEmail,
      userService.updateUsername.
    run_all; settle_first.
Qed.

End Bodies.

Section Services.
Context `{MAC} {W : Type} (h : Env W).

(** A call found in a trace that is said to be a write: drop it unless it
    is one. *)
Ltac write_call :=
  try match goal with
  | E : _ = ?c, Hw : is_write_call ?c = true |- _ =>
      subst c; cbn [is_write_call] in Hw; try discriminate Hw
  end.

(** X10. The only write a login can make is the last-login stamp of the
    account it fetched by e-mail, and only for an active account whose
    password matched; a login that fails has written nothing, and one that
    succeeds has asked for the stamp. *)
Theorem Login_writes_only_the_stamp (w : W) (cfg : Config)
    (req : UserLoginRequest.t) :
  let o := run h (userService.Login cfg req) w in
  (forall c, called (trace_of o) c -> is_write_call c = true ->
     exists u,
       c = RepoUpdateLastLogin (User.ID u) /\
       answered (trace_of o) (RepoGetByEmail (UserLoginRequest.Email req))
         (Ok (Some u)) /\
       User.IsActive u = true /\
       answered (trace_of o)
         (BcryptCompareHashAndPassword (User.Password u)
            (UserLoginRequest.Password req)) true) /\
  (forall e, value_of o = Err e -> no_write (trace_of o)) /\
  (forall t u, value_of o = Ok (t, u) ->
     exists id, called (trace_of o) (RepoUpdateLastLogin id) /\
                UserResponse.ID u = id).
Proof.
  intros o. subst o.
  unfold called, answered, no_write, userService.Login,
    authService.GenerateToken, GenerateJWT.
  run_all; conjs; ev_clean; write_call; bools; try discriminate;
    try (repeat constructor; fail).
  all: try (subst; eexists; split; [reflexivity |]; split; [simpl; tauto |];
            split; [assumption | simpl; tauto]).
  all: try (inj_eqs; eexists; split; [simpl; tauto | reflexivity]).
Qed.

(** X11. [Delete] removes an account only after the store has returned it:
    the only write it can make is the deletion of the id it was given, after
    a successful lookup of that id; for an id the store does not have it
    fails with "user not found" and makes no further call, and it succeeds
    exactly when the store's deletion did. *)
Theorem Delete_looks_before_it_deletes (w : W) (id : uint) :
  let o := run h (userService.Delete id) w in
  (forall c, called (trace_of o) c -> is_write_call c = true ->
     c = RepoDelete id /\
     exists u, answered (trace_of o) (RepoGetByID id) (Ok (Some u))) /\
  (answered (trace_of o) (RepoGetByID id) (Ok None) ->
   value_of o = Err "user not found" /\
   trace_of o = [Ev (RepoGetByID id) (Ok None)]) /\
  (value_of o = Ok tt <-> answered (trace_of o) (RepoDelete id) (Ok tt)).
Proof.
  intros o. subst o.
  unfold called, answered, userService.Delete.
  run_all; conjs; ev_clean; write_call; bools; try discriminate;
    try reflexivity;
    try (split; [reflexivity | eexists; simpl; left; reflexivity]);
    try (simpl; tauto).
  all: repeat match goal with a : unit |- _ => destruct a end.
  all: try (eexists; simpl; left; reflexivity).
  all: unfold wrapf;
    (split; intros Hx;
     [ try discriminate Hx; simpl; tauto
     | ev_clean; try reflexivity; try discriminate ]).
Qed.

(** X12. An update that asks for an e-mail, or a username, differing from
    the account's own and held by another account fails with "email is
    already taken", respectively "username is already taken", and an update
    of an id the store does not have fails with "user not found"; in all
    three cases nothing is written. An update that succeeds returns the
    record the store answered its write with. *)
Theorem Update_conflicts_write_nothing (w : W) (id : uint)
    (req : UserUpdateRequest.t) :
  let o := run h (userService.Update id req) w in
  (answered (trace_of o) (RepoGetByID id) (Ok None) ->
   value_of o = Err "user not found" /\ no_write (trace_of o)) /\
  (forall email,
     UserUpdateRequest.Email req = Some email ->
     answered (trace_of o) (RepoExistsByEmail email) (Ok true) ->
     value_of o = Err "email is already taken" /\ no_write (trace_of o)) /\
  (forall username,
     UserUpdateRequest.Username req = Some username ->
     answered (trace_of o) (RepoExistsByUsername username) (Ok true) ->
     value_of o = Err "username is already taken" /\ no_write (trace_of o)) /\
  (forall u, value_of o = Ok u ->
     exists sent stored,
       answered (trace_of o) (RepoUpdate sent) (Ok stored) /\
       u = ToResponse stored).
Proof.
  intros o. subst o.
  unfold called, answered, no_write, userService.Update,
    userService.updateEmail, userService.updateUsername.
  run_all; conjs; ev_clean; bools; try discriminate; try congruence;
    try (repeat constructor; fail).
  all: inj_eqs; do 2 eexists; split; [simpl; tauto | reflexivity].
Qed.

End Services.

Section LoginResponses.
Context `{MAC}.

(** X13. Over HTTP a login with an unknown e-mail and a login with a wrong
    password for an active account cannot be told apart: both are answered
    401 with the same body, message "invalid credentials" and no detail. *)
Theorem Login_responses_do_not_enumerate
    {W1 W2 : Type} (h1 : Env W1) (h2 : Env W2) (w1 : W1) (w2 : W2)
    (cfg : Config) (r1 r2 : Request.t) (req1 req2 : UserLoginRequest.t)
    (u2 : User.t) :
  let o1 := run h1 (SetupRoutes cfg POST_auth_login r1) w1 in
  let o2 := run h2 (SetupRoutes cfg POST_auth_login r2) w2 in
  answered (trace_of o1) (DecodeLogin (Request.Body r1)) (Ok req1) ->
  answered (trace_of o1) (ValidateLogin req1) None ->
  answered (trace_of o1) (RepoGetByEmail (UserLoginRequest.Email req1)) (Ok None) ->
  answered (trace_of o2) (DecodeLogin (Request.Body r2)) (Ok req2) ->
  answered (trace_of o2) (ValidateLogin req2) None ->
  answered (trace_of o2) (RepoGetByEmail (UserLoginRequest.Email req2))
    (Ok (Some u2)) ->
  User.IsActive u2 = true ->
  answered (trace_of o2)
    (BcryptCompareHashAndPassword (User.Password u2)
       (UserLoginRequest.Password req2)) false ->
  value_of o1 = WriteErrorResponse StatusUnauthorized "invalid credentials" None /\
  value_of o2 = value_of o1.
Proof.
  intros o1 o2 D1 V1 G1 D2 V2 G2 Act2 P2.
  assert (E1 : value_of o1
               = WriteErrorResponse StatusUnauthorized "invalid credentials" None).
  { revert D1 V1 G1. subst o1. cbn [SetupRoutes].
    unfold answered, UserHandler.Login, userService.Login,
      authService.GenerateToken, GenerateJWT.
    run_all; settle_first. }
  assert (E2 : value_of o2
               = WriteErrorResponse StatusUnauthorized "invalid credentials" None).
  { revert D2 V2 G2 P2. subst o2. cbn [SetupRoutes].
    unfold answered, UserHandler.Login, userService.Login,
      authService.GenerateToken, GenerateJWT.
    run_all; settle_first. }
  rewrite E1, E2. split; reflexivity.
Qed.

End LoginResponses.

Section Health.
Context `{MAC} {W : Type} (h : Env W).

(** X14. The health and readiness endpoints answer 200 exactly when the
    database ping succeeds and 503 otherwise, logging the ping's error, and
    the health endpoint reads the pool statistics in both cases; the
    liveness endpoint answers 200 and neither pings the database nor reads
    its statistics. *)
Theorem health_endpoints_track_the_database (w : W) (cfg : Config)
    (r : Request.t) :
  let health := run h (SetupRoutes cfg GET_health r) w in
  let ready := run h (SetupRoutes cfg GET_health_ready r) w in
  let live := run h (SetupRoutes cfg GET_health_live r) w in
  let ping := fst (h DBHealth w) in
  (StatusCode (value_of health)
     = match ping with Ok _ => StatusOK | Err _ => StatusServiceUnavailable end) /\
  (StatusCode (value_of ready)
     = match ping with Ok _ => StatusOK | Err _ => StatusServiceUnavailable end) /\
  called (trace_of health) DBGetStats /\
  StatusCode (value_of live) = StatusOK /\
  (~ called (trace_of live) DBHealth /\ ~ called (trace_of live) DBGetStats /\
   no_repo_call (trace_of live)) /\
  (forall e, ping = Err e ->
     answered (trace_of health)
       (LogWrite (mkLog ErrorLevel "Database health check failed" (Some e) [])) tt /\
     answered (trace_of ready)
       (LogWrite (mkLog ErrorLevel "Database readiness check failed" (Some e) []))
       tt).
Proof.
  intros health ready live ping. subst health ready live ping.
  cbn [SetupRoutes].
  unfold HealthHandler.Health, HealthHandler.Ready, HealthHandler.Live,
    called, answered, no_repo_call.
  cbn [run value_of trace_of fst snd bind call logf].
  assert (Hlive : ~ In DBHealth (map call_of [Ev TimeNow (fst (h TimeNow w))]) /\
                  ~ In DBGetStats (map call_of [Ev TimeNow (fst (h TimeNow w))]) /\
                  Forall (fun e => is_repo_call (call_of e) = false)
                    [Ev TimeNow (fst (h TimeNow w))]).
  { split; [intros [E | []]; discriminate E |].
    split; [intros [E | []]; discriminate E | repeat constructor]. }
  destruct (h DBHealth w) as [[[] | e] w1]; cbn [fst snd].
  - cbn [run value_of trace_of fst snd bind call logf].
    split; [reflexivity |]. split; [reflexivity |].
    split; [simpl; tauto |]. split; [reflexivity |].
    split; [exact Hlive |]. intros e E. discriminate E.
  - cbn [run value_of trace_of fst snd bind call logf].
    destruct (h (LogWrite _) w1) as [[] w2] eqn:L1; cbn [fst snd].
    destruct (h (LogWrite (mkLog ErrorLevel "Database readiness check failed"
                             (Some e) [])) w1) as [[] w3] eqn:L2.
    cbn [fst snd].
    split; [reflexivity |]. split; [reflexivity |].
    split; [simpl; tauto |]. split; [reflexivity |].
    split; [exact Hlive |].
    intros e' E. inj_eqs. split; simpl; tauto.
Qed.

End Health.

(** * The seed command *)

Section Seed.
Context {W : Type} (h : Env W).

(** X15. The seed command hands at most one record to the store, and only
    after both lookups answered that neither the e-mail nor the username is
    held: that record is an active administrator with the flags' e-mail and
    username and bcrypt's answer, not the password flag, as its password.
    With an empty flag it prints the usage line, newline included, and makes
    no call; with the e-mail or the username held by an account it stops
    without a write. *)
Theorem seed_creates_one_admin (w : W) (flags : seed.Flags)
    (loaded opened : option string) :
  let o := run h (seed.main flags loaded opened) w in
  (forall u, called (trace_of o) (RepoCreate u) ->
     User.IsAdmin u = true /\ User.IsActive u = true /\
     User.Email u = seed.email flags /\
     User.Username u = seed.username flags /\
     answered (trace_of o) (RepoGetByEmail (seed.email flags)) (Ok None) /\
     answered (trace_of o) (RepoGetByUsername (seed.username flags)) (Ok None) /\
     answered (trace_of o) (BcryptGenerateFromPassword (seed.password flags))
       (Ok (User.Password u)) /\
     seed.password flags <> "" /\ loaded = None /\ opened = None) /\
  (List.length (filter (fun e => is_write_call (call_of e)) (trace_of o)) <= 1)%nat /\
  (seed.email flags = "" \/ seed.username flags = "" \/
   seed.password flags = "" \/ seed.firstName flags = "" \/
   seed.lastName flags = "" ->
   value_of o = seed.Usage (seed.usage ++ seed.newline) /\ trace_of o = []) /\
  (forall existing,
     answered (trace_of o) (RepoGetByEmail (seed.email flags))
       (Ok (Some existing)) ->
     value_of o = seed.Fatal ("User with email " ++ seed.email flags
                              ++ " already exists") /\
     no_write (trace_of o)) /\
  (forall existing,
     answered (trace_of o) (RepoGetByUsername (seed.username flags))
       (Ok (Some existing)) ->
     value_of o = seed.Fatal ("Username " ++ seed.username flags
                              ++ " is already taken") /\
     no_write (trace_of o)).
Proof.
  intros o. subst o. unfold seed.main, called, answered, no_write.
  destruct (String.eqb_spec (seed.email flags) "") as [E1 | E1];
    [ cbn [orb run value_of trace_of fst snd];
      repeat split; intros; ev_first; try tauto; simpl; lia |].
  destruct (String.eqb_spec (seed.username flags) "") as [E2 | E2];
    [ cbn [orb run value_of trace_of fst snd];
      repeat split; intros; ev_first; try tauto; simpl; lia |].
  destruct (String.eqb_spec (seed.password flags) "") as [E3 | E3];
    [ cbn [orb run value_of trace_of fst snd];
      repeat split; intros; ev_first; try tauto; simpl; lia |].
  destruct (String.eqb_spec (seed.firstName flags) "") as [E4 | E4];
    [ cbn [orb run value_of trace_of fst snd];
      repeat split; intros; ev_first; try tauto; simpl; lia |].
  destruct (String.eqb_spec (seed.lastName flags) "") as [E5 | E5];
    [ cbn [orb run value_of trace_of fst snd];
      repeat split; intros; ev_first; try tauto; simpl; lia |].
  cbn [orb].
  destruct loaded as [e |];
    [ cbn [run value_of trace_of fst snd];
      repeat split; intros; ev_first; try tauto; simpl; lia |].
  destruct opened as [e |];
    [ cbn [run value_of trace_of fst snd];
      repeat split; intros; ev_first; try tauto; simpl; lia |].
  run_all; conjs; ev_first; try tauto; try discriminate; try reflexivity;
    try (simpl; tauto); try (repeat constructor; fail);
    try (simpl; lia).
Qed.

End Seed.

(** * The client address and string helpers *)

Section ClientIP.

Lemma commaIndex_comma_free (s : string) (i : nat) :
  comma_free s -> logging.commaIndex s i = 0%nat.
Proof.
  revert i. induction s as [| c s IH]; intros i Hs; [reflexivity |].
  cbn [logging.commaIndex].
  destruct (Ascii.eqb_spec c ",") as [-> | _].
  - exfalso. apply (Hs ","%char); [left; reflexivity | reflexivity].
  - apply IH. intros x Hx. apply Hs. right. exact Hx.
Qed.

Lemma commaIndex_first (a b : string) (i : nat) :
  comma_free a ->
  logging.commaIndex (a ++ String "," b) i = (i + String.length a)%nat.
Proof.
  revert i. induction a as [| c a IH]; intros i Ha.
  - cbn. lia.
  - cbn [append logging.commaIndex String.length].
    destruct (Ascii.eqb_spec c ",") as [-> | _].
    + exfalso. apply (Ha ","%char); [left; reflexivity | reflexivity].
    + rewrite IH; [lia |]. intros x Hx. apply Ha. right. exact Hx.
Qed.

Lemma substring_0_app (a b : string) :
  String.substring 0 (String.length a) (a ++ b) = a.
Proof.
  induction a as [| c a IH]; cbn [append String.length String.substring].
  - destruct b; reflexivity.
  - rewrite IH. reflexivity.
Qed.

(** X16. [getClientIP] answers the text of [X-Forwarded-For] before its
    first comma when that text is not empty, untrimmed; the whole header
    when it holds no comma and also when it starts with one; and with the
    header absent or empty [X-Real-IP], or [RemoteAddr] when that is empty
    too. *)
Theorem getClientIP_takes_the_first_forwarded_item (r : Request.t)
    (RemoteAddr : string) :
  let xff := Get (Request.Header r) "X-Forwarded-For" in
  let xri := Get (Request.Header r) "X-Real-IP" in
  let ip := logging.getClientIP r RemoteAddr in
  (forall first others,
     xff = first ++ "," ++ others -> comma_free first -> first <> "" ->
     ip = first) /\
  (forall others, xff = "," ++ others -> ip = xff) /\
  (xff <> "" -> comma_free xff -> ip = xff) /\
  (xff = "" -> xri <> "" -> ip = xri) /\
  (xff = "" -> xri = "" -> ip = RemoteAddr).
Proof.
  intros xff xri ip. subst ip. unfold logging.getClientIP.
  fold xff. fold xri. clearbody xff xri.
  assert (Hlen : forall s, s <> "" -> (0 <? String.length s)%nat = true).
  { intros [| c s] Hs; [congruence | reflexivity]. }
  split; [| split; [| split; [| split]]].
  - intros first others -> Hfree Hne.
    assert (Hx : first ++ "," ++ others <> "").
    { destruct first; [congruence | discriminate]. }
    apply String.eqb_neq in Hx. rewrite Hx. cbn [negb].
    apply String.eqb_neq in Hx. rewrite (Hlen _ Hx).
    change ("," ++ others) with (String "," others).
    rewrite commaIndex_first by exact Hfree. cbn [Nat.add].
    rewrite (Hlen _ Hne). apply substring_0_app.
  - intros others ->. reflexivity.
  - intros Hne Hfree.
    apply String.eqb_neq in Hne. rewrite Hne. cbn [negb].
    apply String.eqb_neq in Hne. rewrite (Hlen _ Hne).
    rewrite commaIndex_comma_free by exact Hfree. reflexivity.
  - intros -> Hne. cbn. apply String.eqb_neq in Hne. rewrite Hne. reflexivity.
  - intros -> ->. reflexivity.
Qed.

End ClientIP.

Section Truncate.

Lemma substring_0_length_le (n : nat) (s : string) :
  (n <= String.length s)%nat ->
  String.length (String.substring 0 n s) = n.
Proof.
  revert s. induction n as [| n IH]; intros s Hn.
  - destruct s; reflexivity.
  - destruct s as [| c s]; [cbn in Hn; lia |].
    cbn [String.substring String.length]. rewrite IH; [reflexivity |].
    cbn in Hn. lia.
Qed.

Lemma substring_0_prefix (n : nat) (s : string) :
  String.prefix (String.substring 0 n s) s = true.
Proof.
  revert s. induction n as [| n IH]; intros s.
  - destruct s; reflexivity.
  - destruct s as [| c s]; [reflexivity |].
    cbn [String.substring String.prefix].
    destruct (ascii_dec c c) as [_ | N]; [apply IH | congruence].
Qed.

Lemma prefix_refl (s : string) : String.prefix s s = true.
Proof.
  induction s as [| c s IH]; [reflexivity |].
  cbn [String.prefix]. destruct (ascii_dec c c) as [_ | N]; [exact IH | congruence].
Qed.

(** X17. [TruncateString] panics for every negative length, whatever the
    string; for a length that is not negative it answers the prefix of the
    string of that many bytes, the string itself when it is not longer, and
    truncating the answer again changes nothing. *)
Theorem TruncateString_is_a_prefix_or_a_panic (s : string) (length : int) :
  (length < 0 -> validation.TruncateString s length = None) /\
  (0 <= length ->
   exists t,
     validation.TruncateString s length = Some t /\
     String.prefix t s = true /\
     Z.of_nat (String.length t) = Z.min (Z.of_nat (String.length s)) length /\
     validation.TruncateString t length = Some t).
Proof.
  unfold validation.TruncateString. split.
  - intros Hneg.
    destruct (Z.leb_spec (Z.of_nat (String.length s)) length) as [L | L]; [lia |].
    destruct (Z.ltb_spec length 0) as [_ | G]; [reflexivity | lia].
  - intros Hpos.
    destruct (Z.leb_spec (Z.of_nat (String.length s)) length) as [L | L].
    + exists s. split; [reflexivity |]. split; [apply prefix_refl |].
      split; [lia |].
      destruct (Z.leb_spec (Z.of_nat (String.length s)) length); [reflexivity | lia].
    + destruct (Z.ltb_spec length 0) as [G | _]; [lia |].
      exists (String.substring 0 (Z.to_nat length) s).
      assert (Hl : String.length (String.substring 0 (Z.to_nat length) s)
                   = Z.to_nat length)
        by (apply substring_0_length_le; lia).
      split; [reflexivity |]. split; [apply substring_0_prefix |].
      rewrite Hl. split; [lia |].
      destruct (Z.leb_spec (Z.of_nat (Z.to_nat length)) length); [reflexivity | lia].
Qed.

End Truncate.

(** * The validators of package utils *)

Section Regex.
Import validation.

Lemma append_nil_r (s : string) : s ++ "" = s.
Proof. induction s as [| c s IH]; cbn; [| rewrite IH]; reflexivity. Qed.

Lemma append_eq_nil (a b : string) : a ++ b = "" -> a = "" /\ b = "".
Proof. destruct a; cbn; [auto | discriminate]. Qed.

Lemma Cat_inv (r1 r2 : regex) (s : string) :
  Matches (Cat r1 r2) s ->
  exists s1 s2, s = s1 ++ s2 /\ Matches r1 s1 /\ Matches r2 s2.
Proof. intros M. inversion M; subst. eauto. Qed.

Lemma Alt_inv (r1 r2 : regex) (s : string) :
  Matches (Alt r1 r2) s -> Matches r1 s \/ Matches r2 s.
Proof. intros M. inversion M; subst; auto. Qed.

Lemma Class_inv (p : ascii -> bool) (s : string) :
  Matches (Class p) s -> exists c, s = String c "" /\ p c = true.
Proof. intros M. inversion M; subst. eauto. Qed.

Lemma Matches_nil_nullable (r : regex) (s : string) :
  Matches r s -> s = "" -> nullable r = true.
Proof.
  induction 1 as [| p c Hp | r1 r2 s1 s2 _ IH1 _ IH2 | r1 r2 s _ IH
                 | r1 r2 s _ IH | r | r s1 s2 _ _ _ _]; intros E; cbn.
  - reflexivity.
  - discriminate.
  - apply append_eq_nil in E. destruct E as [E1 E2].
    rewrite (IH1 E1), (IH2 E2). reflexivity.
  - rewrite (IH E). reflexivity.
  - rewrite (IH E). apply orb_true_r.
  - reflexivity.
  - reflexivity.
Qed.

Lemma nullable_Matches (r : regex) : nullable r = true -> Matches r "".
Proof.
  induction r as [| | p | r1 IH1 r2 IH2 | r1 IH1 r2 IH2 | r IH]; cbn; intros E.
  - discriminate.
  - constructor.
  - discriminate.
  - apply andb_true_iff in E. destruct E as [E1 E2].
    change "" with ("" ++ ""). constructor; auto.
  - apply orb_true_iff in E. destruct E as [E | E].
    + apply MAltL. auto.
    + apply MAltR. auto.
  - constructor.
Qed.

(** A match of [r*] that starts with [c] starts with a match of [r] that
    does. *)
Lemma Star_cons (r : regex) (s : string) :
  Matches (Star r) s ->
  forall c rest, s = String c rest ->
  exists s1 s2, rest = s1 ++ s2 /\ Matches r (String c s1) /\ Matches (Star r) s2.
Proof.
  intros M. remember (Star r) as q eqn:Q.
  induction M as [| | | | | r' | r' s1 s2 M1 _ M2 IH2]; try discriminate Q.
  - intros c rest E. discriminate E.
  - injection Q as ->. intros c rest E.
    destruct s1 as [| a s1].
    + cbn in E. exact (IH2 eq_refl c rest E).
    + cbn in E. injection E as -> <-. exists s1, s2. auto.
Qed.

Lemma deriv_sound (c : ascii) (r : regex) :
  forall s, Matches (deriv c r) s -> Matches r (String c s).
Proof.
  induction r as [| | p | r1 IH1 r2 IH2 | r1 IH1 r2 IH2 | r IH]; cbn [deriv];
    intros s M.
  - inversion M.
  - inversion M.
  - destruct (p c) eqn:P; inversion M; subst. constructor. exact P.
  - destruct (nullable r1) eqn:N.
    + apply Alt_inv in M. destruct M as [M | M].
      * apply Cat_inv in M. destruct M as (s1 & s2 & -> & A & B).
        change (String c (s1 ++ s2)) with (String c s1 ++ s2).
        constructor; auto.
      * change (String c s) with ("" ++ String c s).
        constructor; [apply nullable_Matches; exact N | auto].
    + apply Cat_inv in M. destruct M as (s1 & s2 & -> & A & B).
      change (String c (s1 ++ s2)) with (String c s1 ++ s2).
      constructor; auto.
  - apply Alt_inv in M. destruct M as [M | M]; [apply MAltL | apply MAltR]; auto.
  - apply Cat_inv in M. destruct M as (s1 & s2 & -> & A & B).
    change (String c (s1 ++ s2)) with (String c s1 ++ s2).
    constructor; auto.
Qed.

Lemma deriv_complete (c : ascii) (r : regex) :
  forall s, Matches r (String c s) -> Matches (deriv c r) s.
Proof.
  induction r as [| | p | r1 IH1 r2 IH2 | r1 IH1 r2 IH2 | r IH]; cbn [deriv];
    intros s M.
  - inversion M.
  - inversion M.
  - apply Class_inv in M. destruct M as (d & E & P).
    injection E as -> ->. rewrite P. constructor.
  - apply Cat_inv in M. destruct M as (s1 & s2 & E & A & B).
    destruct s1 as [| a s1].
    + cbn in E. subst s2.
      rewrite (Matches_nil_nullable _ _ A eq_refl).
      apply MAltR. auto.
    + cbn in E. injection E as <- ->.
      destruct (nullable r1).
      * apply MAltL. constructor; auto.
      * constructor; auto.
  - apply Alt_inv in M. destruct M as [M | M]; [apply MAltL | apply MAltR]; auto.
  - destruct (Star_cons r _ M c s eq_refl) as (s1 & s2 & -> & A & B).
    constructor; auto.
Qed.

(** The matcher decides the language of the pattern. *)
Lemma MatchString_Matches (s : string) :
  forall r, MatchString r s = true <-> Matches r s.
Proof.
  induction s as [| c s IH]; intros r; cbn [MatchString].
  - split; [apply nullable_Matches |].
    intros M. exact (Matches_nil_nullable _ _ M eq_refl).
  - rewrite IH. split; [apply deriv_sound | apply deriv_complete].
Qed.

Lemma Star_Class (p : ascii -> bool) (s : string) :
  Matches (Star (Class p)) s <-> all_chars p s = true.
Proof.
  split.
  - intros M. remember (Star (Class p)) as q eqn:Q.
    induction M as [| | | | | r' | r' s1 s2 M1 _ M2 IH2]; try discriminate Q.
    + reflexivity.
    + injection Q as ->. apply Class_inv in M1. destruct M1 as (c & -> & P).
      cbn. rewrite P. exact (IH2 eq_refl).
  - induction s as [| c s IH]; cbn [all_chars]; intros E.
    + constructor.
    + apply andb_true_iff in E. destruct E as [P E].
      change (String c s) with (String c "" ++ s).
      constructor; [constructor; exact P | auto].
Qed.

Lemma Plus_Class (p : ascii -> bool) (s : string) :
  Matches (Plus (Class p)) s <-> s <> "" /\ all_chars p s = true.
Proof.
  unfold Plus. split.
  - intros M. apply Cat_inv in M. destruct M as (s1 & s2 & -> & A & B).
    apply Class_inv in A. destruct A as (c & -> & P).
    apply Star_Class in B. cbn. rewrite P, B. split; [discriminate | reflexivity].
  - intros [Hne E]. destruct s as [| c s]; [congruence |].
    cbn in E. apply andb_true_iff in E. destruct E as [P E].
    change (String c s) with (String c "" ++ s).
    constructor; [constructor; exact P | apply Star_Class; exact E].
Qed.

Lemma AtLeast2_Class (p : ascii -> bool) (s : string) :
  Matches (AtLeast2 (Class p)) s <->
  (2 <= String.length s)%nat /\ all_chars p s = true.
Proof.
  unfold AtLeast2. split.
  - intros M. apply Cat_inv in M. destruct M as (s1 & s2 & -> & A & B).
    apply Class_inv in A. destruct A as (c & -> & P).
    apply Cat_inv in B. destruct B as (s3 & s4 & -> & C & D).
    apply Class_inv in C. destruct C as (d & -> & Q).
    apply Star_Class in D. cbn. rewrite P, Q, D. split; [lia | reflexivity].
  - intros [Hlen E]. destruct s as [| c [| d s]]; cbn in Hlen; try lia.
    cbn in E. apply andb_true_iff in E. destruct E as [P E].
    apply andb_true_iff in E. destruct E as [Q E].
    change (String c (String d s)) with (String c "" ++ (String d "" ++ s)).
    constructor; [constructor; exact P |].
    constructor; [constructor; exact Q | apply Star_Class; exact E].
Qed.

Lemma Chr_inv (c : ascii) (s : string) :
  Matches (Chr c) s <-> s = String c "".
Proof.
  unfold Chr. split.
  - intros M. apply Class_inv in M. destruct M as (d & -> & E).
    apply Ascii.eqb_eq in E. subst. reflexivity.
  - intros ->. constructor. apply Ascii.eqb_refl.
Qed.

(** X18. [IsValidUsername] accepts exactly the strings of 3 to 50 bytes
    made of ASCII letters, digits and underscores. *)
Theorem IsValidUsername_accepts (username : string) :
  IsValidUsername username = true <->
  (3 <= String.length username <= 50)%nat /\
  all_chars word_char username = true.
Proof.
  unfold IsValidUsername, usernameRegex.
  destruct (Nat.ltb_spec (String.length username) 3) as [L | L]; cbn [orb].
  { split; [discriminate | intros [[A _] _]; lia]. }
  destruct (Nat.ltb_spec 50 (String.length username)) as [G | G].
  { split; [discriminate | intros [[_ A] _]; lia]. }
  rewrite MatchString_Matches, Plus_Class. split.
  - intros [_ E]. split; [lia | exact E].
  - intros [_ E]. split; [| exact E].
    destruct username; [cbn in L; lia | discriminate].
Qed.

Lemma count_char_app (c : ascii) (a b : string) :
  count_char c (a ++ b) = (count_char c a + count_char c b)%nat.
Proof.
  induction a as [| x a IH]; cbn [append count_char]; [reflexivity |].
  rewrite IH. lia.
Qed.

Lemma count_char_none (p : ascii -> bool) (c : ascii) (s : string) :
  p c = false -> all_chars p s = true -> count_char c s = 0%nat.
Proof.
  intros Pc. induction s as [| x s IH]; cbn [all_chars count_char]; intros E.
  - reflexivity.
  - apply andb_true_iff in E. destruct E as [Px E].
    destruct (Ascii.eqb_spec x c) as [-> | _]; [congruence |].
    rewrite (IH E). reflexivity.
Qed.

(** X19. [IsValidEmail] accepts exactly the strings
    local "@" domain "." tld with a non-empty local part of ASCII letters,
    digits and [._%+-], a non-empty domain part of letters, digits, dots and
    hyphens, and a final label of at least two letters. Every accepted
    string therefore holds exactly one [@]. *)
Theorem IsValidEmail_accepts (email : string) :
  (IsValidEmail email = true <->
   exists loc domain tld,
     email = loc ++ "@" ++ domain ++ "." ++ tld /\
     loc <> "" /\ all_chars local_char loc = true /\
     domain <> "" /\ all_chars domain_char domain = true /\
     (2 <= String.length tld)%nat /\ all_chars is_alpha tld = true) /\
  (IsValidEmail email = true -> count_char "@" email = 1%nat).
Proof.
  assert (Eq : IsValidEmail email = true <->
   exists loc domain tld,
     email = loc ++ "@" ++ domain ++ "." ++ tld /\
     loc <> "" /\ all_chars local_char loc = true /\
     domain <> "" /\ all_chars domain_char domain = true /\
     (2 <= String.length tld)%nat /\ all_chars is_alpha tld = true).
  { unfold IsValidEmail, emailRegex. rewrite MatchString_Matches. split.
    - intros M.
      apply Cat_inv in M. destruct M as (loc & s1 & -> & A & B).
      apply Cat_inv in B. destruct B as (at_ & s2 & -> & C & D).
      apply Cat_inv in D. destruct D as (domain & s3 & -> & E & F).
      apply Cat_inv in F. destruct F as (dot & tld & -> & G & I).
      apply Plus_Class in A. apply Plus_Class in E. apply AtLeast2_Class in I.
      apply Chr_inv in C. apply Chr_inv in G. subst.
      exists loc, domain, tld. tauto.
    - intros (loc & domain & tld & -> & L1 & L2 & D1 & D2 & T1 & T2).
      constructor; [apply Plus_Class; auto |].
      constructor; [apply Chr_inv; reflexivity |].
      constructor; [apply Plus_Class; auto |].
      constructor; [apply Chr_inv; reflexivity | apply AtLeast2_Class; auto]. }
  split; [exact Eq |].
  intros V. apply Eq in V.
  destruct V as (loc & domain & tld & -> & _ & L2 & _ & D2 & _ & T2).
  repeat rewrite count_char_app.
  rewrite (count_char_none local_char "@" loc eq_refl L2).
  rewrite (count_char_none domain_char "@" domain eq_refl D2).
  rewrite (count_char_none is_alpha "@" tld eq_refl T2).
  reflexivity.
Qed.

End Regex.

Section Reading.
Context `{MAC} {W : Type} (h : Env W).

Lemma ParseUint_range (s : string) (bitSize n : N) :
  ParseUint s bitSize = Ok n -> (n < 2 ^ bitSize)%N /\ s <> "".
Proof.
  unfold ParseUint. destruct s as [| c s]; [discriminate |].
  destruct (parse_digits 0 (String c s)) as [m |]; [| discriminate].
  destruct (N.ltb_spec m (2 ^ bitSize)) as [L | L]; [| discriminate].
  intros E. injection E as <-. split; [exact L | discriminate].
Qed.

(** X20. Reading an account by id is open to every holder of a valid token:
    GET /users/{id} looks the path's id up in the store whatever identity
    the token carries, and answers an account found with 200. An id that is
    not a decimal number below 2^32 is answered 400 "Invalid user ID" without
    a call to the store. *)
Theorem any_valid_token_reads_any_account (w : W) (cfg : Config)
    (r : Request.t) (token : string) (claims : Claims.t) :
  Get (Request.Header r) "Authorization" = "Bearer " ++ token ->
  token <> "" ->
  parse token (JWTSecret cfg) (fst (h TimeNow w)) = Ok claims ->
  let o := run h (SetupRoutes cfg GET_users_id r) w in
  let now := Ev TimeNow (fst (h TimeNow w)) in
  let id_text := Get (Request.URLParams r) "id" in
  (forall e, ParseUint id_text 32 = Err e ->
     value_of o = WriteErrorResponse StatusBadRequest "Invalid user ID" None /\
     no_repo_call (trace_of o)) /\
  (forall id, ParseUint id_text 32 = Ok id ->
     (id < 2 ^ 32)%N /\
     exists g rest,
       trace_of o = now :: Ev (RepoGetByID id) g :: rest /\
       no_repo_call rest /\
       (forall u, g = Ok (Some u) ->
          value_of o = WriteSuccessResponse StatusOK "User retrieved successfully"
                         (Some (PUser (ToResponse u)))) /\
       (g = Ok None ->
          value_of o = WriteErrorResponse StatusNotFound "user not found" None)).
Proof.
  intros Hhdr Htok Hparse o now id_text. subst o now id_text.
  cbn [SetupRoutes].
  destruct (gate_hands_over h w (JWTSecret cfg) UserHandler.GetByID r token
              claims Hhdr Htok Hparse) as (Pv & Pt).
  rewrite Pv, Pt. clear Pv Pt.
  unfold UserHandler.GetByID, userService.GetByID, no_repo_call.
  cbn [Request.URLParams Request.WithContext].
  split.
  - intros e E. rewrite E. split; [reflexivity | repeat constructor].
  - intros id E. rewrite E.
    split; [exact (proj1 (ParseUint_range _ _ _ E)) |].
    run_all; do 2 eexists; (split; [reflexivity |]);
      (split; [repeat constructor |]); split; intros; inj_eqs;
      try reflexivity; try discriminate.
Qed.

End Reading.

(** * The further properties on the scripted store *)

(** X1 at a request without a header and at one with a forged token: the
    profile handler runs in both cases and finds no identity. *)
Lemma OptionalAuth_never_rejects_witness :
  value_of (run (Mock.env Mock.people)
              (@middleware.OptionalAuth Mock.demoMAC (JWTSecret Mock.cfg)
                 UserHandler.Profile
                 (Mock.request "/api/v1/auth/profile" "" [] [] "")) tt)
    = WriteErrorResponse StatusUnauthorized "User not authenticated" None /\
  value_of (run (Mock.env Mock.people)
              (@middleware.OptionalAuth Mock.demoMAC (JWTSecret Mock.cfg)
                 UserHandler.Profile
                 (Mock.request "/api/v1/auth/profile" Mock.forged_token
                    [] [] "")) tt)
    = WriteErrorResponse StatusUnauthorized "User not authenticated" None.
Proof.
  pose proof (fun r => @OptionalAuth_never_rejects Mock.demoMAC unit
                (Mock.env Mock.people) tt (JWTSecret Mock.cfg)
                UserHandler.Profile r) as T.
  cbv zeta in T. split.
  - destruct (T (Mock.request "/api/v1/auth/profile" "" [] [] ""))
      as (A & _).
    rewrite A; [reflexivity | left; reflexivity].
  - destruct (T (Mock.request "/api/v1/auth/profile" Mock.forged_token
                   [] [] "")) as (_ & B & _).
    destruct (B eq_refl) with (err := "signature is invalid") as (Hv & _).
    + intro E. vm_compute in E. discriminate E.
    + vm_compute. reflexivity.
    + rewrite Hv. reflexivity.
Defined.

(** X2 at a request the gate filled for an administrator, and at one whose
    context holds the string "true" under the admin key. *)
Lemma RequireAdmin_passes_only_admins_witness :
  run (Mock.env Mock.quiet)
    (middleware.RequireAdmin UserHandler.Create Cases.from_admin) tt
    = run (Mock.env Mock.quiet) (UserHandler.Create Cases.from_admin) tt /\
  value_of (run (Mock.env Mock.quiet)
              (middleware.RequireAdmin UserHandler.Create Cases.mistyped) tt)
    = WriteErrorResponse StatusForbidden "Admin access required" None.
Proof.
  pose proof (fun r => @RequireAdmin_passes_only_admins unit
                (Mock.env Mock.quiet) tt UserHandler.Create r) as T.
  cbv zeta in T. split.
  - destruct (T Cases.from_admin) as (A & _). apply A. reflexivity.
  - destruct (T Cases.mistyped) as (_ & B).
    destruct B as (Hv & _); [discriminate | exact Hv].
Defined.

(** X3 at the user list asked for with an expired token. *)
Lemma protected_routes_stop_at_the_gate_witness :
  StatusCode (value_of (Mock.serve Mock.people GET_users
                          (Mock.request "/api/v1/users" Mock.expired_token
                             [] [] "")))
    = StatusUnauthorized /\
  no_repo_call (trace_of (Mock.serve Mock.people GET_users
                            (Mock.request "/api/v1/users" Mock.expired_token
                               [] [] ""))).
Proof.
  apply (@protected_routes_stop_at_the_gate Mock.demoMAC unit
           (Mock.env Mock.people) tt Mock.cfg GET_users
           (Mock.request "/api/v1/users" Mock.expired_token [] [] "")).
  - simpl. tauto.
  - intros claims (_ & _ & P). vm_compute in P. discriminate P.
Defined.

(** X4 at Alice's token and at the administrator's. *)
Lemma admin_route_needs_an_admin_token_witness :
  value_of (Mock.serve (Mock.decoding_create Mock.carol Mock.people)
              POST_admin_users
              (Mock.request "/api/v1/admin/users" (Mock.token_for Mock.alice)
                 [] [] "{}"))
    = WriteErrorResponse StatusForbidden "Admin access required" None /\
  StatusCode (value_of (Mock.serve (Mock.decoding_create Mock.carol Mock.people)
                          POST_admin_users
                          (Mock.request "/api/v1/admin/users"
                             (Mock.token_for Mock.root) [] [] "{}")))
    = StatusCreated.
Proof.
  split.
  - destruct (@admin_route_needs_an_admin_token Mock.demoMAC unit
                (Mock.env (Mock.decoding_create Mock.carol Mock.people)) tt
                Mock.cfg
                (Mock.request "/api/v1/admin/users" (Mock.token_for Mock.alice)
                   [] [] "{}")
                (Mock.token_for Mock.alice)
                (Claims.mk 1%N "alice@example.com" false 4600))
      as (Stop & _).
    + reflexivity.
    + intro E. vm_compute in E. discriminate E.
    + vm_compute. reflexivity.
    + destruct (Stop eq_refl) as (Hv & _). exact Hv.
  - destruct (@admin_route_needs_an_admin_token Mock.demoMAC unit
                (Mock.env (Mock.decoding_create Mock.carol Mock.people)) tt
                Mock.cfg
                (Mock.request "/api/v1/admin/users" (Mock.token_for Mock.root)
                   [] [] "{}")
                (Mock.token_for Mock.root)
                (Claims.mk 9%N "root@example.com" true 4600))
      as (_ & Pass).
    + reflexivity.
    + intro E. vm_compute in E. discriminate E.
    + vm_compute. reflexivity.
    + destruct (Pass eq_refl) as (Hv & _).
      unfold Mock.serve. rewrite Hv. vm_compute. reflexivity.
Defined.

(** X5 at Alice's token against Bob's account. *)
Lemma only_owner_or_admin_changes_an_account_witness :
  value_of (Mock.serve Mock.people DELETE_users_id
              (Mock.request "/api/v1/users/7" (Mock.token_for Mock.alice)
                 [] [("id", "7")] ""))
    = WriteErrorResponse StatusForbidden
        "You can only delete your own profile" None /\
  no_repo_call (trace_of (Mock.serve Mock.people DELETE_users_id
                            (Mock.request "/api/v1/users/7"
                               (Mock.token_for Mock.alice)
                               [] [("id", "7")] ""))).
Proof.
  pose proof (fun id_text id => @only_owner_or_admin_changes_an_account
                Mock.demoMAC unit (Mock.env Mock.people) tt Mock.cfg
                (Mock.request "/api/v1/users/7" (Mock.token_for Mock.alice)
                   [] [("id", id_text)] "")
                (Mock.token_for Mock.alice)
                (Claims.mk 1%N "alice@example.com" false 4600) id) as T.
  cbv zeta in T.
  assert (Htok : Mock.token_for Mock.alice <> "")
    by (intro E; vm_compute in E; discriminate E).
  assert (Hparse : @parse Mock.demoMAC (Mock.token_for Mock.alice)
                     (JWTSecret Mock.cfg) 1000
                   = Ok (Claims.mk 1%N "alice@example.com" false 4600))
    by (vm_compute; reflexivity).
  destruct (T "7" 7%N eq_refl Htok Hparse eq_refl) as (Stop & _).
  destruct Stop as (_ & _ & _ & Hv & Ht); [discriminate | reflexivity |].
  split; [exact Hv | exact Ht].
Defined.

(** X6 at a request without a query string. *)
Lemma List_parameters_are_clamped_witness :
  UserHandler.pageParam (Mock.request "/api/v1/users" "" [] [] "") = 1 /\
  UserHandler.limitParam (Mock.request "/api/v1/users" "" [] [] "") = 10.
Proof.
  destruct (@List_parameters_are_clamped unit
              (Mock.env Mock.people) tt
              (Mock.request "/api/v1/users" "" [] [] ""))
    as (_ & _ & P & L & _).
  split; [apply P | apply L]; reflexivity.
Defined.

(** X7 at Alice's logout. *)
Lemma Logout_is_stateless_witness :
  value_of (Mock.serve Mock.people POST_auth_logout
              (Mock.request "/api/v1/auth/logout" (Mock.token_for Mock.alice)
                 [] [] ""))
    = WriteSuccessResponse StatusOK "Logout successful" None.
Proof.
  destruct (@Logout_is_stateless Mock.demoMAC unit (Mock.env Mock.people) tt
              Mock.cfg
              (Mock.request "/api/v1/auth/logout" (Mock.token_for Mock.alice)
                 [] [] "")) as (_ & T).
  destruct (T (Mock.token_for Mock.alice)
              (Claims.mk 1%N "alice@example.com" false 4600)) as (Hv & _).
  - reflexivity.
  - intro E. vm_compute in E. discriminate E.
  - vm_compute. reflexivity.
  - exact Hv.
Defined.

(** X8 at Bob's token: the deactivated account is served. *)
Lemma Profile_serves_the_token_s_account_witness :
  value_of (Mock.serve Mock.people GET_auth_profile
              (Mock.request "/api/v1/auth/profile" (Mock.token_for Mock.bob)
                 [] [] ""))
    = WriteSuccessResponse StatusOK "Profile retrieved successfully"
        (Some (PUser (ToResponse Mock.bob))).
Proof.
  destruct (@Profile_serves_the_token_s_account Mock.demoMAC unit
              (Mock.env Mock.people) tt Mock.cfg
              (Mock.request "/api/v1/auth/profile" (Mock.token_for Mock.bob)
                 [] [] "")
              (Mock.token_for Mock.bob)
              (Claims.mk 7%N "bob@example.com" false 4600))
    as (_ & Found & _).
  - reflexivity.
  - intro E. vm_compute in E. discriminate E.
  - vm_compute. reflexivity.
  - apply Found. in_trace.
Defined.

(** X9 at a registration whose body does not decode, and at one the
    validator refuses. *)
Lemma malformed_bodies_stop_before_the_store_witness :
  value_of (Mock.serve Mock.people POST_auth_register
              (Mock.request "/api/v1/auth/register" "" [] [] "{"))
    = WriteErrorResponse StatusBadRequest "Invalid JSON" None /\
  value_of (Mock.serve
              (Cases.refusing "Email must be a valid email"
                 (Mock.decoding_create Mock.carol Mock.people))
              POST_auth_register
              (Mock.request "/api/v1/auth/register" "" [] [] "{}"))
    = WriteErrorResponse StatusBadRequest "Validation failed"
        (Some (PText "Email must be a valid email")).
Proof.
  split.
  - destruct (@malformed_bodies_stop_before_the_store Mock.demoMAC unit
                (Mock.env Mock.people) tt Mock.cfg
                (Mock.request "/api/v1/auth/register" "" [] [] "{"))
      as (Bad & _).
    destruct (Bad "unexpected end of JSON input") as (Hv & _);
      [in_trace | exact Hv].
  - destruct (@malformed_bodies_stop_before_the_store Mock.demoMAC unit
                (Mock.env (Cases.refusing "Email must be a valid email"
                             (Mock.decoding_create Mock.carol Mock.people)))
                tt Mock.cfg
                (Mock.request "/api/v1/auth/register" "" [] [] "{}"))
      as (_ & Refused & _).
    destruct (Refused Mock.carol "Email must be a valid email") as (Hv & _);
      [in_trace | in_trace | exact Hv].
Defined.

(** X10 at a login with an unknown e-mail. *)
Lemma Login_writes_only_the_stamp_witness :
  no_write (trace_of (Mock.login Mock.people "nobody@example.com" "password123")).
Proof.
  destruct (@Login_writes_only_the_stamp Mock.demoMAC unit
              (Mock.env Mock.people) tt Mock.cfg
              (UserLoginRequest.mk "nobody@example.com" "password123"))
    as (_ & Failed & _).
  apply (Failed "invalid credentials"). reflexivity.
Defined.

(** X11 at an id the store does not have. *)
Lemma Delete_looks_before_it_deletes_witness :
  value_of (run (Mock.env Mock.people) (userService.Delete 42%N) tt)
    = Err "user not found" /\
  trace_of (run (Mock.env Mock.people) (userService.Delete 42%N) tt)
    = [Ev (RepoGetByID 42%N) (Ok None)].
Proof.
  destruct (@Delete_looks_before_it_deletes unit (Mock.env Mock.people) tt
              42%N) as (_ & Missing & _).
  apply Missing. in_trace.
Defined.

(** X12 at Alice asking for Bob's e-mail. *)
Lemma Update_conflicts_write_nothing_witness :
  value_of (run (Mock.env Mock.people)
              (userService.Update 1%N
                 (UserUpdateRequest.mk (Some "bob@example.com") None None None
                    None)) tt)
    = Err "email is already taken".
Proof.
  destruct (@Update_conflicts_write_nothing unit (Mock.env Mock.people) tt
              1%N
              (UserUpdateRequest.mk (Some "bob@example.com") None None None
                 None)) as (_ & Taken & _).
  destruct (Taken "bob@example.com") as (Hv & _);
    [reflexivity | in_trace | exact Hv].
Defined.

(** X13 at an unknown e-mail and at Alice with a wrong password. *)
Lemma Login_responses_do_not_enumerate_witness :
  value_of (Mock.serve
              (Cases.decoding_login
                 (UserLoginRequest.mk "alice@example.com" "letmein")
                 Mock.people)
              POST_auth_login
              (Mock.request "/api/v1/auth/login" "" [] [] "{}"))
  = value_of (Mock.serve
                (Cases.decoding_login
                   (UserLoginRequest.mk "nobody@example.com" "password123")
                   Mock.people)
                POST_auth_login
                (Mock.request "/api/v1/auth/login" "" [] [] "{}")).
Proof.
  destruct (@Login_responses_do_not_enumerate Mock.demoMAC unit unit
              (Mock.env (Cases.decoding_login
                           (UserLoginRequest.mk "nobody@example.com"
                              "password123") Mock.people))
              (Mock.env (Cases.decoding_login
                           (UserLoginRequest.mk "alice@example.com" "letmein")
                           Mock.people))
              tt tt Mock.cfg
              (Mock.request "/api/v1/auth/login" "" [] [] "{}")
              (Mock.request "/api/v1/auth/login" "" [] [] "{}")
              (UserLoginRequest.mk "nobody@example.com" "password123")
              (UserLoginRequest.mk "alice@example.com" "letmein")
              Mock.alice) as (_ & Same).
  - in_trace.
  - in_trace.
  - in_trace.
  - in_trace.
  - in_trace.
  - in_trace.
  - reflexivity.
  - in_trace.
  - exact Same.
Defined.

(** X14 with the database unreachable. *)
Lemma health_endpoints_track_the_database_witness :
  answered (trace_of (Mock.serve (Mock.db_down Mock.people) GET_health
                        (Mock.request "/health" "" [] [] "")))
    (LogWrite (mkLog ErrorLevel "Database health check failed"
                 (Some Mock.refused) [])) tt /\
  StatusCode (value_of (Mock.serve (Mock.db_down Mock.people) GET_health
                          (Mock.request "/health" "" [] [] "")))
    = StatusServiceUnavailable.
Proof.
  destruct (@health_endpoints_track_the_database Mock.demoMAC unit
              (Mock.env (Mock.db_down Mock.people)) tt Mock.cfg
              (Mock.request "/health" "" [] [] ""))
    as (Hs & _ & _ & _ & _ & Logged).
  destruct (Logged Mock.refused eq_refl) as (Hl & _).
  split; [exact Hl | exact Hs].
Defined.

(** X15 at flags naming the e-mail of an existing account, and at flags
    without a password. *)
Lemma seed_creates_one_admin_witness :
  value_of (run (Mock.env Mock.people)
              (seed.main Cases.seed_root None None) tt)
    = seed.Fatal "User with email root@example.com already exists" /\
  run (Mock.env Mock.people)
    (seed.main (seed.mkFlags "eve@example.com" "eve" "" "Eve" "Adams")
       None None) tt
    = (seed.Usage (seed.usage ++ seed.newline), [], tt).
Proof.
  split.
  - destruct (@seed_creates_one_admin unit (Mock.env Mock.people) tt
                Cases.seed_root None None) as (_ & _ & _ & Held & _).
    destruct (Held Mock.root) as (Hv & _); [in_trace | exact Hv].
  - destruct (@seed_creates_one_admin unit (Mock.env Mock.people) tt
                (seed.mkFlags "eve@example.com" "eve" "" "Eve" "Adams")
                None None) as (_ & _ & Empty & _).
    destruct Empty as (Hv & Ht); [right; right; left; reflexivity |].
    destruct (run (Mock.env Mock.people)
                (seed.main (seed.mkFlags "eve@example.com" "eve" "" "Eve"
                              "Adams") None None) tt) as [[v tr] []].
    cbn in Hv, Ht. subst. reflexivity.
Defined.

(** X16 at a request that came through two proxies. *)
Lemma getClientIP_takes_the_first_forwarded_item_witness :
  logging.getClientIP Cases.forwarded "198.51.100.1:4711" = "203.0.113.7".
Proof.
  destruct (getClientIP_takes_the_first_forwarded_item Cases.forwarded
              "198.51.100.1:4711") as (First & _).
  apply (First "203.0.113.7" " 10.0.0.2").
  - reflexivity.
  - intros c Hc E. subst c. cbn in Hc.
    repeat (destruct Hc as [Hc | Hc]; [discriminate Hc |]). exact Hc.
  - discriminate.
Defined.

(** X17 at a negative length and at a cut in the middle. *)
Lemma TruncateString_is_a_prefix_or_a_panic_witness :
  validation.TruncateString "hello" (-1) = None /\
  exists t, validation.TruncateString "hello" 2 = Some t /\
            Z.of_nat (String.length t) = 2.
Proof.
  split.
  - destruct (TruncateString_is_a_prefix_or_a_panic "hello" (-1)) as (Panic & _).
    apply Panic. lia.
  - destruct (TruncateString_is_a_prefix_or_a_panic "hello" 2) as (_ & Cut).
    destruct Cut as (t & Ht & _ & Hl & _); [lia |].
    exists t. split; [exact Ht | exact Hl].
Defined.

(** X19 at Alice's address. *)
Lemma IsValidEmail_accepts_witness :
  validation.count_char "@" "alice@example.com" = 1%nat.
Proof.
  destruct (IsValidEmail_accepts "alice@example.com") as (_ & One).
  apply One. reflexivity.
Defined.

(** X20 at Alice reading Bob's account. *)
Lemma any_valid_token_reads_any_account_witness :
  exists g rest,
    trace_of (Mock.serve Mock.people GET_users_id
                (Mock.request "/api/v1/users/7" (Mock.token_for Mock.alice)
                   [] [("id", "7")] ""))
      = Ev TimeNow 1000 :: Ev (RepoGetByID 7%N) g :: rest.
Proof.
  destruct (@any_valid_token_reads_any_account Mock.demoMAC unit
              (Mock.env Mock.people) tt Mock.cfg
              (Mock.request "/api/v1/users/7" (Mock.token_for Mock.alice)
                 [] [("id", "7")] "")
              (Mock.token_for Mock.alice)
              (Claims.mk 1%N "alice@example.com" false 4600))
    as (_ & Reads).
  - reflexivity.
  - intro E. vm_compute in E. discriminate E.
  - vm_compute. reflexivity.
  - destruct (Reads 7%N eq_refl) as (_ & g & rest & Ht & _).
    exists g, rest. exact Ht.
Defined.
